(* ===== verification/_CoqProject ===== *)
-Q . S2P
Prelude.v
PyValue.v
Json.v
Calendar.v
Ntp.v
Effects.v
Fetcher.v
PricingApi.v
Network.v
Display.v
App.v
Startup.v
