(* ===== verification/Prelude.v ===== *)
(** * A verification development for [src/examples/agile_pricing_display.py]

    The program is a single MicroPython script for the Pimoroni Presto
    display.  It reads Wi-Fi credentials (lines 17-26), joins the network
    (lines 31-55), sets the clock by NTP (line 58), sets up the display
    (lines 60-92), then fetches three electricity prices of the Octopus
    Agile tariff (the last, current and next half hour; [get_prices],
    lines 99-123) and redraws them forever (lines 130-173), fetching again
    when more than half an hour has passed (line 144).

    The library is compiled in the order of [_CoqProject]:

    - [Prelude] (this file): the notations of [presto_scope] (the
      fallible binds [x <-? c ;; k] on [exc + A] and [x <-o c ;; k] on
      options), Python's [str] on integers ([py_str_N], [py_str_Z]) with
      a decimal parser [parse_N], the round trip [parse_py_str_N] and
      [parse_N_app] (the value of a concatenation of digit strings,
      from the Standard Library's [Decimal] lemmas), string splitting
      used to read URLs back, [floor_to], the quote and hexadecimal-digit
      characters shared by the two printers, the hint databases
      [presto] and [presto_rw], and the tactics [Zbool], [name_divmod],
      [bsimpl], [andb_split], [zlia] and [decide_Z].
    - [PyValue]: the values [request.json()] decodes to ([pyval]; dicts
      as association lists where the last binding wins, as in
      [json.loads]; a float as the decimal [m * 10^e] its text denotes),
      the exceptions of the script ([exc], with [OutOfFuel], the outcome
      of a fuel-bounded loop of the model cut short, which the theorems
      show never happens), and Python's subscript [getitem] with its
      KeyError / IndexError / TypeError behaviour (line 119).
    - [Json]: [json.loads], which [request.json()] applies to the body
      (line 116), modelled from the JSON grammar (RFC 8259) since the
      library is not in the repository: a recursive-descent parser
      ([parse_value], [parse_items], [parse_members], mutually
      recursive on fuel; [parse_number], [parse_chars]) and the printer
      [print_json] a server uses, which writes a float [m * 10^e] with
      [e < 0] with a decimal point ([25.41]) and otherwise with an
      exponent.  The runtime's parsers are more lenient than the
      grammar (MicroPython's skips [,] and [:] where the grammar needs
      them and accepts leading zeros; CPython's accepts [NaN] and
      [Infinity]), so nothing is claimed about the texts it rejects:
      the theorem is the round trip [json_loads_print_ws] on the texts
      of the grammar (every value's text, with any whitespace around
      it, decodes to the value with the fuel [json_loads] supplies).
      The proofs use the nested induction principle [pyval_ind'] and a
      fuel measure [fuel] bounded by the text's length.
    - [Calendar]: the [datetime] and [time] library calls of lines
      103-108, following micropython-lib's [datetime.py] (the library
      the script runs with): its [_leap], [_dby], [_dim], [_dbm],
      [_ymd2o] and [_o2ymd], the validating constructor [datetime_new]
      and [add_minutes] for [datetime + timedelta], both raising a bare
      [ValueError] out of range, and [localtime].  Theorems: [ord2ymd]
      yields valid dates whose ordinal is the input, [ymd2ord_ord2ymd]
      the other direction, [ord2ymd_iff] the bijection,
      [datetime_ordinal_roundtrip] for the datetimes of the script,
      [add_minutes_inverse], and [datetime_valid_closed]: every datetime
      the constructor or an addition returns satisfies the field ranges
      [datetime_valid] (years 1..9999, the month's day count, hours and
      minutes).
    - [Ntp]: [ntptime.settime()] of line 58, from micropython-lib's
      [ntptime.py] (not in the repository): the datagram received, the
      big-endian unsigned read of its transmit timestamp
      ([struct.unpack("!I", msg[40:44])], with [Z.lor] and
      [Z.shiftl] as the C code does), the 32-bit era correction below
      [MIN_NTP_TIMESTAMP], the offset to the 1970 epoch, [gmtime] and
      the RTC tuple.  The server side is the RFC 5905 field, written by
      [be_split4]; [be_combine_split4] is the 4-byte round trip,
      [ntp_time_era] reads every instant of the 136 years from 2024
      back exactly (across the 2036 wrap-around), [ntp_time_bounds] and
      [settime_rtc] bound what is set.
    - [Effects]: the environment the script talks to, as oracles
      ([env]: clock readings by index, link status by poll, the NTP
      exchange (a socket error or the datagram), the server's
      answer per URL, the display bounds, the runtime's float
      formatting), the [world] (readings and polls consumed, the trace of
      observable events, newest first), and the state-and-exception
      monad [M] with [try_except] for [try ... except].  Each library
      call of the script is one primitive ([time_time], [requests_get],
      [wlan_isconnected], [ntp_settime], [draw], ...).  Theorems: line 58
      sets the RTC to [gmtime] of the server's instant across the NTP
      era ([ntp_settime_era]) and always to a valid datetime from 2024
      on ([ntp_settime_rtc]); [json_roundtrip]: [response.json()] on a
      printed document returns its value.  [decode_body] is [json()] on
      a text body and [text_server] turns a server of text into the
      server of decoded answers the environment holds.
    - [Fetcher]: [get_prices] on every path: URL construction
      ([window_url], [request_string]), the GET, [json()], the three
      subscripts ([extract_prices]) and [except ValueError] returning
      [(0, 0, 0)], with a theorem per outcome: the values of a
      well-formed answer, the sentinel for an undecodable body, the
      lookup errors (KeyError, IndexError, TypeError) that escape the
      handler, and the transport errors that escape it too although the
      comment of line 121 says failures are handled.
    - [PricingApi]: the Octopus API, which is outside the repository,
      modelled from its documented contract: [parse_query] reads the
      query back, [api_answer] is the answer for a window, the class
      [PricingContract] states what a server promises and
      [octopus_server] is an instance.  [request_window] shows the
      query denotes the window [[F - 30, F + 60)]; [get_prices_refines]
      shows that [get_prices] returns the next, current and last prices
      from any server that honours the contract.  [TextPricingContract]
      states the contract on the text the server sends, and the
      instance [text_contract_decodes] derives the contract on values
      through [json.loads].
    - [Network]: the secrets check (lines 17-26) and [network_connect]
      (lines 34-44) as a loop with fuel: it gives up after eleven failed
      polls ([network_connect_gives_up]), succeeds after up to ten
      ([network_connect_succeeds]), and ends on every link
      ([network_connect_terminates]: never [OutOfFuel]).
    - [Display]: the pens, the [str] of a decoded value in the f-strings,
      [draw_background] (lines 133-140) and [draw_prices] (lines
      149-173), with the exact events they produce.
    - [App]: the script's globals as the record [globals]; [setup],
      [startup] (lines 17-127), [refresh] (lines 144-146), [frame] (one
      iteration of [while True]), [loop] and [run]; the reachable states
      as the inductive relation [reachable].  Theorems: the frame with
      and without a refresh ([frame_no_refresh], [frame_refresh],
      [frame_malformed_shows_0p]), the price triple is always one
      answer's ([reachable_prices_from_answer], by rule induction),
      fetches are more than 1800 seconds apart
      ([reachable_fetches_spaced]) so that [n] requests span at least
      [1801 (n - 1)] seconds ([reachable_request_bound]), the prices
      drawn are at most half an hour old ([frame_prices_fresh]), a frame
      sends one request exactly when more than 1800 seconds have passed
      ([frame_request_count]), and, with a clock that advances, the loop
      fetches again within a bounded number of frames
      ([loop_fetches_eventually]).
    - [Startup]: start-up end to end.  In a section whose hypotheses
      describe a working environment (link up within the allowed polls,
      NTP answering, clock in range, a server honouring the contract),
      [startup_refines] computes what [startup] returns; the NTP failure
      path ([startup_ntp_failure]), [startup_empty_ssid_connects]
      (an empty SSID still leads to [wlan.connect]), and the lemma
      [run_reachable] (every run of the script ends in a reachable state).

    ** Bounds and fuel

    Python integers do not overflow; they are [Z] without wrap-around.
    Dates are bounded by the [datetime] range (years 1..9999, ordinals
    1..3652059).  [clock_in_range] (0 <= s < 253402297200, up to
    9999-12-31 23:00 UTC) is the range of clock readings for which the
    datetime arithmetic of lines 106-108 stays in that range, so that
    [get_prices] reaches [requests.get]; beyond it micropython-lib
    raises [ValueError] before the request and the handler returns the
    sentinel.  The theorems about requests assume it.  [connect_loop]
    runs on fuel [NETWORK_FUEL] = 11 and returns [OutOfFuel] when the
    fuel is spent: the counter raises at the eleventh failed poll, so
    11 iterations are always enough ([connect_loop_fuel]: any larger
    fuel gives the same run), and [network_connect_terminates] shows
    that no link leads to [OutOfFuel].  The render loop is infinite;
    [loop n] runs [n] frames.  The JSON parser descends on a fuel
    argument; [json_loads] gives it one more than the length of the
    text, which is at least the nesting measure [fuel] of any printed
    value ([fuel_le_length]), so printed values never exhaust it.  The
    NTP timestamp is a 32-bit unsigned field: its value is kept as a
    [Z] in [[0, 2^32)] ([unpack_I_be_bounds]), and the server's
    wrap-around is [mod 2^32], written out.

    ** Not modelled

    Pixels, fonts and the framebuffer (the drawing calls are recorded
    as events with their arguments); the HTTP transport below the
    script's view (sockets, TLS, status codes: the server's answer is
    an oracle, an exception or a body); the texts outside the JSON
    grammar that the runtime's parser accepts or rejects; JSON strings
    are byte strings, so a uXXXX escape above 127 is rejected where
    Python would decode a non-ASCII character, and floats are kept as
    the decimal their text denotes; the formatting of floats by the
    runtime (an oracle of the environment); the RTC's counting after
    [ntptime.settime()]: the clock readings that follow are an oracle
    of the environment, not derived from the instant set.
*)

From Stdlib Require Import ZArith NArith List String Ascii Bool Lia.
From Stdlib Require Import DecimalString DecimalN.
From Stdlib Require DecimalPos.
Import ListNotations.

Declare Scope presto_scope.
Delimit Scope presto_scope with presto.
Open Scope presto_scope.

(** ** Fallible computations

    Pure code that can raise is a value of [E + A]: [inl e] is a raised
    exception, [inr a] a returned value.  [x <-? c ;; k] propagates the
    exception as Python does. *)

Notation "x <-? c ;; k" :=
  (match c with inl e => inl e | inr x => k end)
  (at level 61, c at next level, right associativity) : presto_scope.

(** [x <-o c ;; k]: the same for [option]. *)
Notation "x <-o c ;; k" :=
  (match c with Some x => k | None => None end)
  (at level 61, c at next level, right associativity) : presto_scope.
Notation "' pat <-o c ;; k" :=
  (match c with Some pat => k | None => None end)
  (at level 61, pat pattern, c at next level, right associativity) : presto_scope.

(** ** Python's [str] on integers

    [str(n)] for [n >= 0] is its decimal digits without leading zeros;
    negative numbers get a leading '-'. *)

Definition py_str_N (n : N) : string :=
  NilEmpty.string_of_uint (N.to_uint n).

Definition py_str_Z (z : Z) : string :=
  match z with
  | Zneg p => String "-" (py_str_N (Npos p))
  | _ => py_str_N (Z.to_N z)
  end.

(** The decimal reader used by the consumer of the formatted strings. *)
Definition parse_N (s : string) : option N :=
  match s with
  | EmptyString => None
  | _ => option_map N.of_uint (NilEmpty.uint_of_string s)
  end.

Definition is_digit (c : ascii) : bool :=
  (("0" <=? c)%char && (c <=? "9")%char)%bool.

Fixpoint all_digits (s : string) : bool :=
  match s with
  | EmptyString => true
  | String c s' => is_digit c && all_digits s'
  end.

(** The double quote character, and the hexadecimal digit of [n < 16]
    (lower case, as Python writes escapes). *)
Definition DQUOTE : ascii := ascii_of_nat 34.

Definition hex_digit (n : nat) : ascii :=
  if Nat.ltb n 10 then ascii_of_nat (48 + n) else ascii_of_nat (87 + n).

(** ** Reading strings back *)

(** [strip_prefix pre s]: the rest of [s] after [pre], if [s] starts with it. *)
Fixpoint strip_prefix (pre s : string) : option string :=
  match pre, s with
  | EmptyString, _ => Some s
  | String a pre', String b s' => if Ascii.eqb a b then strip_prefix pre' s' else None
  | String _ _, EmptyString => None
  end.

(** [split_at c s]: the text before the first [c] in [s], and after it. *)
Fixpoint split_at (c : ascii) (s : string) : option (string * string) :=
  match s with
  | EmptyString => None
  | String a s' =>
      if Ascii.eqb a c then Some (EmptyString, s')
      else match split_at c s' with
           | Some (p, r) => Some (String a p, r)
           | None => None
           end
  end.

(** [floor_to q z]: [z] rounded down to a multiple of [q]. *)
Definition floor_to (q z : Z) : Z := z - z mod q.

(** [zrange lo n]: the [n] integers from [lo] on, for finite checks. *)
Fixpoint zrange (lo : Z) (n : nat) : list Z :=
  match n with
  | O => []
  | S n' => lo :: zrange (lo + 1) n'
  end.

Create HintDb presto discriminated.
Create Rewrite HintDb presto_rw.

(** ** Lemmas on decimal printing *)

Lemma string_of_uint_nonempty_digits (d : Decimal.uint) :
  all_digits (NilEmpty.string_of_uint d) = true.
Proof. induction d; simpl; auto. Qed.

Lemma py_str_N_digits (n : N) : all_digits (py_str_N n) = true.
Proof. apply string_of_uint_nonempty_digits. Qed.

Lemma py_str_N_nonempty (n : N) : py_str_N n <> EmptyString.
Proof.
  unfold py_str_N. intros E.
  assert (N.to_uint n = Decimal.Nil) as Hnil
    by (destruct (N.to_uint n); simpl in E; congruence).
  pose proof (Unsigned.of_to n) as Hn. rewrite Hnil in Hn.
  destruct n; [discriminate Hnil | discriminate Hn].
Qed.

Lemma parse_py_str_N (n : N) : parse_N (py_str_N n) = Some n.
Proof.
  unfold parse_N. pose proof (py_str_N_nonempty n) as Hne.
  destruct (py_str_N n) eqn:E; [congruence|].
  rewrite <- E. unfold py_str_N. rewrite NilEmpty.usu. simpl.
  rewrite Unsigned.of_to. reflexivity.
Qed.

Lemma py_str_N_inj (n m : N) : py_str_N n = py_str_N m -> n = m.
Proof.
  intros H. apply (f_equal parse_N) in H.
  rewrite !parse_py_str_N in H. congruence.
Qed.

Lemma py_str_Z_nonneg (z : Z) : (0 <= z)%Z -> py_str_Z z = py_str_N (Z.to_N z).
Proof. destruct z; simpl; intros; auto; lia. Qed.

(** ** Lemmas on strings *)

Lemma string_app_assoc (a b c : string) : ((a ++ b) ++ c = a ++ (b ++ c))%string.
Proof. induction a; simpl; congruence. Qed.

Lemma append_nil_r_string (s : string) : s = (s ++ EmptyString)%string.
Proof. induction s; simpl; congruence. Qed.

Lemma string_length_app (a b : string) : String.length (a ++ b) = (String.length a + String.length b)%nat.
Proof. induction a as [|c a IH]; cbn; auto. Qed.

Lemma strip_prefix_app (pre s : string) : strip_prefix pre (pre ++ s) = Some s.
Proof. induction pre; simpl; auto. now rewrite Ascii.eqb_refl. Qed.

Lemma split_at_digits (c : ascii) (p r : string) :
  all_digits p = true -> is_digit c = false ->
  split_at c (p ++ String c r) = Some (p, r).
Proof.
  intros Hp Hc. induction p as [|a p IH]; simpl.
  - now rewrite Ascii.eqb_refl.
  - simpl in Hp. apply andb_prop in Hp. destruct Hp as [Ha Hp].
    destruct (Ascii.eqb_spec a c) as [->|_]; [congruence|].
    now rewrite IH.
Qed.

(** ** Lemmas on flooring *)

Lemma floor_to_shift (q z k : Z) :
  (0 < q)%Z -> floor_to q (z + k * q) = (floor_to q z + k * q)%Z.
Proof.
  intros Hq. unfold floor_to. rewrite Z.mod_add by lia. lia.
Qed.

Lemma floor_to_bounds (q z : Z) :
  (0 < q)%Z -> (floor_to q z <= z < floor_to q z + q)%Z.
Proof.
  intros Hq. unfold floor_to. pose proof (Z.mod_pos_bound z q Hq). lia.
Qed.

Lemma floor_to_mod (q z : Z) : (0 < q)%Z -> ((floor_to q z) mod q = 0)%Z.
Proof.
  intros Hq. unfold floor_to.
  rewrite Zminus_mod, Z.mod_mod, Z.sub_diag by lia. reflexivity.
Qed.

(** ** Finite checks over a range of integers *)

Lemma in_zrange (lo x : Z) (n : nat) :
  (lo <= x < lo + Z.of_nat n)%Z -> In x (zrange lo n).
Proof.
  revert lo. induction n as [|n IH]; intros lo H; simpl; [lia|].
  destruct (Z.eq_dec lo x) as [->|Hne]; [now left|].
  right. apply IH. lia.
Qed.

Lemma forallb_zrange (f : Z -> bool) (lo x : Z) (n : nat) :
  forallb f (zrange lo n) = true -> (lo <= x < lo + Z.of_nat n)%Z -> f x = true.
Proof.
  intros Hall Hx. rewrite forallb_forall in Hall. apply Hall, in_zrange, Hx.
Qed.

(** Either the first [n] values of [f] are [false], or there is a first
    [true] among them. *)
Lemma first_true_or_all_false (f : nat -> bool) (n : nat) :
  (forall i, (i < n)%nat -> f i = false) \/
  exists k, (k < n)%nat /\ (forall i, (i < k)%nat -> f i = false) /\ f k = true.
Proof.
  induction n as [|n [Hall|(k & Hk & Hbefore & Hk')]].
  - left. intros i Hi. lia.
  - destruct (f n) eqn:E.
    + right. exists n. split; [lia|]. split; auto.
    + left. intros i Hi. destruct (Nat.eq_dec i n) as [->|]; [exact E|]. apply Hall. lia.
  - right. exists k. split; [lia|]. auto.
Qed.

(** ** Decimal digit strings

    [parse_N] reads a digit string through the decimal numbers of the
    Standard Library; its value on a concatenation is the value of the
    left part shifted by the length of the right part. *)

Section DecimalDigits.
Local Open Scope N_scope.

(** The value of a decimal digit character. *)
Definition digit_N (c : ascii) : N := N.of_nat (nat_of_ascii c - 48).

Lemma uint_of_char_value (c : ascii) (u u' : Decimal.uint) :
  uint_of_char c (Some u) = Some u' ->
  N.of_uint u' = (digit_N c * 10 ^ DecimalPos.Unsigned.usize u + N.of_uint u)%N /\
  DecimalPos.Unsigned.usize u' = N.succ (DecimalPos.Unsigned.usize u).
Proof.
  intros H. apply uint_of_char_spec in H.
  unfold N.of_uint. rewrite !DecimalPos.Unsigned.of_uint_alt.
  repeat destruct H as [H|H]; destruct H as [-> ->];
  (split; [|reflexivity]); unfold Decimal.rev; cbn [Decimal.revapp];
  rewrite DecimalPos.Unsigned.of_lu_revapp; cbn [DecimalPos.Unsigned.of_lu];
  fold (Decimal.rev u); generalize (10 ^ DecimalPos.Unsigned.usize u)%N (DecimalPos.Unsigned.of_lu (Decimal.rev u));
  intros p v; match goal with |- context [digit_N ?c] => let x := eval vm_compute in (digit_N c) in change (digit_N c) with x end; lia.
Qed.

Lemma uint_of_char_some (c : ascii) (u u' v : Decimal.uint) :
  uint_of_char c (Some u) = Some u' -> exists v', uint_of_char c (Some v) = Some v'.
Proof.
  intros H. apply uint_of_char_spec in H.
  repeat destruct H as [H|H]; destruct H as [-> _]; eexists; reflexivity.
Qed.

Lemma uint_of_string_usize (s : string) (u : Decimal.uint) :
  NilEmpty.uint_of_string s = Some u -> DecimalPos.Unsigned.usize u = N.of_nat (String.length s).
Proof.
  revert u. induction s as [|c r IH]; intros u H; cbn in H.
  - injection H as <-. reflexivity.
  - destruct (NilEmpty.uint_of_string r) as [ur|] eqn:Er; [|discriminate H].
    destruct (uint_of_char_value c ur u H) as [_ ->]. rewrite (IH ur eq_refl). cbn [String.length]. lia.
Qed.

Lemma uint_of_string_app (a b : string) (ua ub : Decimal.uint) :
  NilEmpty.uint_of_string a = Some ua -> NilEmpty.uint_of_string b = Some ub ->
  exists uab, NilEmpty.uint_of_string (a ++ b) = Some uab /\
    N.of_uint uab = (N.of_uint ua * 10 ^ N.of_nat (String.length b) + N.of_uint ub)%N.
Proof.
  revert ua. induction a as [|c r IH]; intros ua Ha Hb; cbn in Ha.
  - injection Ha as <-. exists ub. split; [exact Hb | cbn; lia].
  - destruct (NilEmpty.uint_of_string r) as [ur|] eqn:Er; [|discriminate Ha].
    destruct (IH ur eq_refl Hb) as (urb & Hrb & Vrb).
    destruct (uint_of_char_some c ur ua urb Ha) as (u' & Hu').
    exists u'. split; [cbn [append NilEmpty.uint_of_string]; rewrite Hrb; exact Hu'|].
    destruct (uint_of_char_value c urb u' Hu') as [V1 _].
    destruct (uint_of_char_value c ur ua Ha) as [V2 _].
    rewrite V1, V2, Vrb, (uint_of_string_usize _ _ Hrb), (uint_of_string_usize _ _ Er), string_length_app.
    rewrite Nat2N.inj_add, N.pow_add_r. lia.
Qed.

Lemma parse_N_app (a b : string) (va vb : N) :
  parse_N a = Some va -> parse_N b = Some vb ->
  parse_N (a ++ b) = Some (va * 10 ^ N.of_nat (String.length b) + vb)%N.
Proof.
  unfold parse_N. intros Ha Hb.
  destruct a as [|ca ra]; [discriminate Ha|]. destruct b as [|cb rb]; [discriminate Hb|].
  destruct (NilEmpty.uint_of_string (String ca ra)) as [ua|] eqn:Ea; [|discriminate Ha].
  destruct (NilEmpty.uint_of_string (String cb rb)) as [ub|] eqn:Eb; [|discriminate Hb].
  cbn in Ha, Hb. injection Ha as <-. injection Hb as <-.
  destruct (uint_of_string_app _ _ _ _ Ea Eb) as (uab & Hab & V).
  cbn [append] in Hab |- *. rewrite Hab. cbn. now rewrite V.
Qed.

Lemma all_digits_app (a b : string) : all_digits (a ++ b) = all_digits a && all_digits b.
Proof. induction a as [|c a IH]; [reflexivity|]. cbn. rewrite IH. apply andb_assoc. Qed.

End DecimalDigits.

#[export] Hint Resolve py_str_N_digits py_str_N_nonempty : presto.
#[export] Hint Rewrite parse_py_str_N strip_prefix_app string_app_assoc : presto_rw.

(** ** Shared tactics *)

(** [inv H]: invert [H] and clean up. *)
Ltac inv H := inversion H; clear H; subst.

(** [split_ifs]: case on the boolean tests of the goal, with equations. *)
Ltac split_ifs :=
  repeat match goal with
         | |- context [if ?b then _ else _] =>
             let E := fresh "E" in destruct b eqn:E
         end.

(** [Zbool]: turn the [Z] boolean tests in hypotheses into propositions. *)
Ltac Zbool :=
  repeat match goal with
         | H : (_ <=? _)%Z = true |- _ => apply Z.leb_le in H
         | H : (_ <=? _)%Z = false |- _ => apply Z.leb_gt in H
         | H : (_ <? _)%Z = true |- _ => apply Z.ltb_lt in H
         | H : (_ <? _)%Z = false |- _ => apply Z.ltb_ge in H
         | H : (_ =? _)%Z = true |- _ => apply Z.eqb_eq in H
         | H : (_ =? _)%Z = false |- _ => apply Z.eqb_neq in H
         end.

(** [name_divmod x q a r]: name the quotient and remainder of [x] by the
    positive constant [q], with the division equation and the bounds of
    the remainder, so that [lia] sees only linear facts. *)
Ltac name_divmod x q a r :=
  let Hd := fresh "Hdiv" in
  let Hb := fresh "Hbnd" in
  pose proof (Z.div_mod x q ltac:(lia)) as Hd;
  pose proof (Z.mod_pos_bound x q ltac:(lia)) as Hb;
  set (a := Z.div x q) in *; set (r := Z.modulo x q) in *; clearbody a r.

(** [bsimpl]: evaluate the boolean connectives and the comparisons of
    constants, leaving arithmetic on variables alone. *)
Ltac bsimpl :=
  cbn [andb orb negb Z.gtb Z.ltb Z.leb Z.geb Z.eqb Z.compare Pos.compare
       Pos.compare_cont Pos.eqb].

(** [andb_split]: split conjunctions of booleans in hypotheses. *)
Ltac andb_split :=
  repeat match goal with
         | H : (_ && _)%bool = true |- _ => apply andb_prop in H; destruct H
         end.

(** [zlia]: [lia] after turning divisions and remainders by constants
    into their defining equations. *)
Ltac zlia := Z.div_mod_to_equations; lia.

(** [decide_Z]: close comparisons of closed integer expressions by
    evaluation. *)
Ltac decide_Z :=
  repeat split;
  lazymatch goal with
  | |- (_ <= _)%Z => apply Z.leb_le; vm_compute; reflexivity
  | |- (_ < _)%Z => apply Z.ltb_lt; vm_compute; reflexivity
  | |- (_ > _)%Z => apply Z.lt_gt, Z.ltb_lt; vm_compute; reflexivity
  | |- _ => vm_compute; reflexivity
  end.
