(* ===== verification/PyValue.v ===== *)
(** * Python values and exceptions

    The values [request.json()] produces (line 116 of the script) and the
    exceptions the script raises or catches.  A JSON object decodes to a
    dict; [json.loads] inserts the members in order, so a later duplicate
    key overwrites an earlier one: [dict_lookup] returns the last
    binding.  [getitem] is Python's subscription [c[k]] on these values,
    used on line 119. *)

From Stdlib Require Import ZArith List String Bool Lia.
From S2P Require Import Prelude.
Import ListNotations.
Open Scope Z_scope.

(** A decoded JSON value.  A float is kept as the decimal [m * 10^e] its
    shortest representation denotes. *)
#[warnings="-register-all"]
Inductive pyval : Type :=
| PNone
| PBool (b : bool)
| PInt (z : Z)
| PFloat (m e : Z)
| PStr (s : string)
| PList (xs : list pyval)
| PDict (kvs : list (string * pyval)).

(** The built-in exceptions the script can meet. *)
Inductive exc : Type :=
| ValueError (msg : string)
| KeyError (key : pyval)
| IndexError (msg : string)
| TypeError (msg : string)
| ImportError (msg : string)
| OSError (msg : string)
| Exception (msg : string)
(** Not a Python exception: the outcome of a loop of the model cut by
    its fuel (the [OOT] of fuel-bounded semantics); the theorems show
    that the fuel chosen never runs out. *)
| OutOfFuel.

(** [isinstance(e, ValueError)]: the test of [except ValueError:]. *)
Definition is_value_error (e : exc) : bool :=
  match e with ValueError _ => true | _ => false end.

(** Lookup in a decoded dict: the last binding of the key wins. *)
Fixpoint dict_lookup (k : string) (kvs : list (string * pyval)) : option pyval :=
  match kvs with
  | [] => None
  | (k', v) :: rest =>
      match dict_lookup k rest with
      | Some w => Some w
      | None => if String.eqb k k' then Some v else None
      end
  end.

(** An integer used as an index ([bool] is a subclass of [int]). *)
Definition as_index (k : pyval) : option Z :=
  match k with
  | PInt z => Some z
  | PBool b => Some (if b then 1 else 0)
  | _ => None
  end.

(** Python's index normalisation: a negative index counts from the end. *)
Definition norm_index (i len : Z) : option nat :=
  let j := if i <? 0 then i + len else i in
  if (0 <=? j) && (j <? len) then Some (Z.to_nat j) else None.

Definition getitem (c k : pyval) : exc + pyval :=
  match c with
  | PDict kvs =>
      match k with
      | PList _ | PDict _ => inl (TypeError "unhashable type")
      | PStr s =>
          match dict_lookup s kvs with
          | Some v => inr v
          | None => inl (KeyError k)
          end
      | _ => inl (KeyError k)
      end
  | PList xs =>
      match as_index k with
      | None => inl (TypeError "list indices must be integers or slices")
      | Some i =>
          match norm_index i (Z.of_nat (List.length xs)) with
          | Some j =>
              match nth_error xs j with
              | Some v => inr v
              | None => inl (IndexError "list index out of range")
              end
          | None => inl (IndexError "list index out of range")
          end
      end
  | PStr s =>
      match as_index k with
      | None => inl (TypeError "string indices must be integers")
      | Some i =>
          match norm_index i (Z.of_nat (String.length s)) with
          | Some j =>
              match String.get j s with
              | Some ch => inr (PStr (String ch EmptyString))
              | None => inl (IndexError "string index out of range")
              end
          | None => inl (IndexError "string index out of range")
          end
      end
  | _ => inl (TypeError "object is not subscriptable")
  end.

(** ** Lemmas *)

Lemma norm_index_nonneg (i len : Z) :
  0 <= i < len -> norm_index i len = Some (Z.to_nat i).
Proof.
  intros H. unfold norm_index.
  destruct (Z.ltb_spec i 0); [lia|].
  destruct (Z.leb_spec 0 i); destruct (Z.ltb_spec i len); simpl; auto; lia.
Qed.

Lemma norm_index_too_big (i len : Z) :
  0 <= len <= i -> norm_index i len = None.
Proof.
  intros H. unfold norm_index.
  destruct (Z.ltb_spec i 0); [lia|].
  destruct (Z.ltb_spec i len); [lia|]. now rewrite andb_false_r.
Qed.

Lemma getitem_list_nth (xs : list pyval) (i : nat) (v : pyval) :
  nth_error xs i = Some v -> getitem (PList xs) (PInt (Z.of_nat i)) = inr v.
Proof.
  intros H. simpl.
  pose proof (proj1 (nth_error_Some xs i) ltac:(congruence)).
  rewrite norm_index_nonneg by lia. rewrite Nat2Z.id, H. reflexivity.
Qed.

Lemma getitem_list_index (xs : list pyval) (i : Z) (v : pyval) :
  0 <= i -> nth_error xs (Z.to_nat i) = Some v -> getitem (PList xs) (PInt i) = inr v.
Proof.
  intros Hi H. rewrite <- (Z2Nat.id i Hi). now apply getitem_list_nth.
Qed.

Lemma getitem_list_short (xs : list pyval) (i : Z) :
  Z.of_nat (List.length xs) <= i -> getitem (PList xs) (PInt i) = inl (IndexError "list index out of range").
Proof.
  intros H. simpl. rewrite norm_index_too_big by lia. reflexivity.
Qed.

Lemma getitem_dict_found (kvs : list (string * pyval)) (k : string) (v : pyval) :
  dict_lookup k kvs = Some v -> getitem (PDict kvs) (PStr k) = inr v.
Proof. intros H. simpl. now rewrite H. Qed.

Lemma getitem_dict_missing (kvs : list (string * pyval)) (k : string) :
  dict_lookup k kvs = None -> getitem (PDict kvs) (PStr k) = inl (KeyError (PStr k)).
Proof. intros H. simpl. now rewrite H. Qed.

Lemma dict_lookup_single (k : string) (v : pyval) : dict_lookup k [(k, v)] = Some v.
Proof. simpl. now rewrite String.eqb_refl. Qed.

#[export] Hint Resolve getitem_list_nth getitem_list_index getitem_dict_found dict_lookup_single : presto.
