(* ===== verification/Json.v ===== *)
(** * JSON text: [json.loads] and a printer

    [request.json()] (line 116 of the script) is [json.loads] applied to
    the body of the response.  The library is outside the repository; it
    is modelled here from the JSON grammar it implements (RFC 8259, the
    grammar of Python's [json] module in its default, strict mode):
    whitespace, [null], [true], [false], numbers with the integer /
    fraction / exponent syntax (no leading zeros), strings with the
    backslash escapes of the quote, backslash, slash, b, f, n, r, t and
    uXXXX and no raw control characters, arrays and objects.  A number with a fraction or an
    exponent is a [float], kept as the decimal [m * 10^e] its digits
    denote; otherwise it is an [int].  The model rejects a text that is
    not one JSON value surrounded by whitespace.

    The runtime's parser is more lenient than this grammar: MicroPython's
    [json] skips [,] and [:] like whitespace and accepts leading zeros,
    and CPython's accepts [NaN] and [Infinity].  The development
    therefore claims nothing about which texts are rejected; its
    theorem is the round trip on the texts a server prints, which lie in
    the strict grammar that all of these parsers accept.

    Strings are byte strings here: a uXXXX escape is decoded when its
    code is below 128, and rejected otherwise (Python would build a
    non-ASCII character, which [string] cannot hold); [-0.0] is read as
    [0.0].

    The parser recurses on a fuel argument; [json_loads] gives it one
    more than the length of the text, and the round trip theorem shows
    that this is enough for every printed value.  [print_json] is the
    serialisation a server performs (without optional whitespace); its
    [print_float] writes a float [m * 10^e] with [e < 0] with a decimal
    point, as the API writes [25.41], and any other with an exponent. *)

From Stdlib Require Import ZArith NArith List String Ascii Bool Lia.
From S2P Require Import Prelude PyValue.
Import ListNotations.
Local Open Scope string_scope.

(** ** Characters *)

Definition is_ws (c : ascii) : bool :=
  let n := nat_of_ascii c in Nat.eqb n 32 || Nat.eqb n 9 || Nat.eqb n 10 || Nat.eqb n 13.

Fixpoint skip_ws (s : string) : string :=
  match s with
  | String c r => if is_ws c then skip_ws r else s
  | EmptyString => s
  end.

(** A text of whitespace only. *)
Fixpoint all_ws (s : string) : bool :=
  match s with
  | EmptyString => true
  | String c r => is_ws c && all_ws r
  end.

(** The longest prefix of decimal digits, and the rest. *)
Fixpoint span_digits (s : string) : string * string :=
  match s with
  | String c r =>
      if is_digit c then let '(d, r') := span_digits r in (String c d, r') else (EmptyString, s)
  | EmptyString => (EmptyString, EmptyString)
  end.

Definition hex_val (c : ascii) : option nat :=
  let n := nat_of_ascii c in
  if (48 <=? n)%nat && (n <=? 57)%nat then Some (n - 48)%nat
  else if (97 <=? n)%nat && (n <=? 102)%nat then Some (n - 87)%nat
  else if (65 <=? n)%nat && (n <=? 70)%nat then Some (n - 55)%nat
  else None.

(** [head_is c s]: the rest of [s] after a first character [c]. *)
Definition head_is (c : ascii) (s : string) : option string :=
  match s with
  | String c' r => if Ascii.eqb c' c then Some r else None
  | EmptyString => None
  end.

(** ** Numbers *)

(** An integer part is a non-empty run of digits without a leading zero
    (except ["0"] itself): the digits are the canonical decimal form of
    their value. *)
Definition canonical_digits (d : string) : bool :=
  match parse_N d with
  | Some n => String.eqb (py_str_N n) d
  | None => false
  end.

(** The optional exponent [e] / [E], sign, digits; [None] when the
    exponent is malformed, [Some None] when there is none. *)
Definition parse_exponent (s : string) : option (option Z * string) :=
  match s with
  | String c r =>
      if Ascii.eqb c "e" || Ascii.eqb c "E" then
        let '(neg, r1) :=
          match head_is "-" r with
          | Some r' => (true, r')
          | None => match head_is "+" r with Some r' => (false, r') | None => (false, r) end
          end in
        let '(ds, r2) := span_digits r1 in
        match parse_N ds with
        | Some k => Some (Some (if neg then - Z.of_N k else Z.of_N k)%Z, r2)
        | None => None
        end
      else Some (None, s)
  | EmptyString => Some (None, s)
  end.

Definition parse_number (s : string) : option (pyval * string) :=
  let '(neg, s1) := match head_is "-" s with Some r => (true, r) | None => (false, s) end in
  let '(ip, s2) := span_digits s1 in
  if negb (canonical_digits ip) then None else
  let frac :=
    match head_is "." s2 with
    | Some r => let '(fd, r') := span_digits r in
                match fd with EmptyString => None | _ => Some (Some fd, r') end
    | None => Some (None, s2)
    end in
  match frac with
  | None => None
  | Some (fd, s3) =>
      match parse_exponent s3 with
      | None => None
      | Some (ex, s4) =>
          let fds := match fd with Some f => f | None => EmptyString end in
          match parse_N (ip ++ fds) with
          | None => None
          | Some mant =>
              let m := if neg then (- Z.of_N mant)%Z else Z.of_N mant in
              match fd, ex with
              | None, None => Some (PInt m, s4)
              | _, _ =>
                  let e := match ex with Some k => k | None => 0%Z end in
                  Some (PFloat m (e - Z.of_nat (String.length fds))%Z, s4)
              end
          end
      end
  end.

(** ** Strings *)

(** The characters of a string literal after its opening quote, up to
    and without the closing quote; the rest after it. *)
Fixpoint parse_chars (s : string) : option (string * string) :=
  match s with
  | EmptyString => None
  | String c r =>
      if Ascii.eqb c DQUOTE then Some (EmptyString, r)
      else if Ascii.eqb c "\" then
        match r with
        | String "u" (String h1 (String h2 (String h3 (String h4 r')))) =>
            match hex_val h1, hex_val h2, hex_val h3, hex_val h4 with
            | Some a, Some b, Some c', Some d =>
                let code := (a * 4096 + b * 256 + c' * 16 + d)%nat in
                if (code <? 128)%nat then
                  match parse_chars r' with
                  | Some (t, rest) => Some (String (ascii_of_nat code) t, rest)
                  | None => None
                  end
                else None
            | _, _, _, _ => None
            end
        | String e r' =>
            let decoded :=
              if Ascii.eqb e DQUOTE then Some DQUOTE
              else if Ascii.eqb e "\" then Some "\"%char
              else if Ascii.eqb e "/" then Some "/"%char
              else if Ascii.eqb e "b" then Some (ascii_of_nat 8)
              else if Ascii.eqb e "f" then Some (ascii_of_nat 12)
              else if Ascii.eqb e "n" then Some (ascii_of_nat 10)
              else if Ascii.eqb e "r" then Some (ascii_of_nat 13)
              else if Ascii.eqb e "t" then Some (ascii_of_nat 9)
              else None in
            match decoded with
            | Some ch =>
                match parse_chars r' with
                | Some (t, rest) => Some (String ch t, rest)
                | None => None
                end
            | None => None
            end
        | EmptyString => None
        end
      else if (nat_of_ascii c <? 32)%nat then None
      else
        match parse_chars r with
        | Some (t, rest) => Some (String c t, rest)
        | None => None
        end
  end.

(** ** Values *)

Definition starts_with (lit s : string) : option string := strip_prefix lit s.

Fixpoint parse_value (n : nat) (s : string) : option (pyval * string) :=
  match n with
  | O => None
  | S n' =>
      match skip_ws s with
      | EmptyString => None
      | String c r =>
          if Ascii.eqb c "[" then
            match head_is "]" (skip_ws r) with
            | Some r' => Some (PList [], r')
            | None => match parse_items n' r with
                      | Some (xs, r') => Some (PList xs, r')
                      | None => None
                      end
            end
          else if Ascii.eqb c "{" then
            match head_is "}" (skip_ws r) with
            | Some r' => Some (PDict [], r')
            | None => match parse_members n' r with
                      | Some (kvs, r') => Some (PDict kvs, r')
                      | None => None
                      end
            end
          else if Ascii.eqb c DQUOTE then
            match parse_chars r with
            | Some (t, r') => Some (PStr t, r')
            | None => None
            end
          else
            match starts_with "null" (String c r) with
            | Some r' => Some (PNone, r')
            | None =>
                match starts_with "true" (String c r) with
                | Some r' => Some (PBool true, r')
                | None =>
                    match starts_with "false" (String c r) with
                    | Some r' => Some (PBool false, r')
                    | None => parse_number (String c r)
                    end
                end
            end
      end
  end
(** The elements of an array after its [[], up to and with its []]. *)
with parse_items (n : nat) (s : string) : option (list pyval * string) :=
  match n with
  | O => None
  | S n' =>
      match parse_value n' s with
      | None => None
      | Some (v, r) =>
          match head_is "," (skip_ws r) with
          | Some r' =>
              match parse_items n' r' with
              | Some (vs, r'') => Some (v :: vs, r'')
              | None => None
              end
          | None => match head_is "]" (skip_ws r) with Some r' => Some ([v], r') | None => None end
          end
      end
  end
(** The members of an object after its [{], up to and with its [}]. *)
with parse_members (n : nat) (s : string) : option (list (string * pyval) * string) :=
  match n with
  | O => None
  | S n' =>
      match head_is DQUOTE (skip_ws s) with
      | None => None
      | Some r =>
          match parse_chars r with
          | None => None
          | Some (k, r1) =>
              match head_is ":" (skip_ws r1) with
              | None => None
              | Some r2 =>
                  match parse_value n' r2 with
                  | None => None
                  | Some (v, r3) =>
                      match head_is "," (skip_ws r3) with
                      | Some r4 =>
                          match parse_members n' r4 with
                          | Some (kvs, r5) => Some ((k, v) :: kvs, r5)
                          | None => None
                          end
                      | None =>
                          match head_is "}" (skip_ws r3) with
                          | Some r4 => Some ([(k, v)], r4)
                          | None => None
                          end
                      end
                  end
              end
          end
      end
  end.

(** [json.loads(s)]: one value, then whitespace only; [None] is the
    [ValueError] the library raises. *)
Definition json_loads (s : string) : option pyval :=
  match parse_value (S (String.length s)) s with
  | Some (v, r) => match skip_ws r with EmptyString => Some v | String _ _ => None end
  | None => None
  end.

(** ** Printing *)

Definition escape_char (c : ascii) : string :=
  let n := nat_of_ascii c in
  if Ascii.eqb c DQUOTE then String "\" (String DQUOTE EmptyString)
  else if Ascii.eqb c "\" then String "\" (String "\" EmptyString)
  else if (n <? 32)%nat then
    String "\" (String "u" (String "0" (String "0"
      (String (hex_digit (n / 16)) (String (hex_digit (n mod 16)) EmptyString)))))
  else String c EmptyString.

Fixpoint escape_string (s : string) : string :=
  match s with
  | EmptyString => EmptyString
  | String c r => escape_char c ++ escape_string r
  end.

Definition quote (s : string) : string := String DQUOTE (escape_string s ++ String DQUOTE EmptyString).

(** The digit of [d < 10]. *)
Definition digit_char (d : N) : ascii := ascii_of_N (48 + d).

(** The last [k] decimal digits of [r], zero-padded: [r mod 10^k]
    written on exactly [k] digits. *)
Fixpoint digits_k (k : nat) (r : N) : string :=
  match k with
  | O => EmptyString
  | S k' => digits_k k' (r / 10) ++ String (digit_char (r mod 10)) EmptyString
  end.

(** A float [m * 10^e] as a server writes it: with [e < 0], its digits
    with a decimal point [-e] places from the right (the API's
    [25.41] is [PFloat 2541 (-2)]); otherwise [m] followed by the
    exponent. *)
Definition print_float (m e : Z) : string :=
  if (e <? 0)%Z then
    let k := Z.to_nat (- e) in
    let a := Z.to_N (Z.abs m) in
    (if (m <? 0)%Z then "-" else EmptyString) ++ py_str_N (a / 10 ^ N.of_nat k) ++ "." ++ digits_k k a
  else py_str_Z m ++ "e" ++ py_str_Z e.

(** The elements of an array after its [[], and the members of an
    object after its [{], with the closing bracket. *)
Fixpoint print_items (pr : pyval -> string) (l : list pyval) : string :=
  match l with
  | [] => "]"
  | x :: r => pr x ++ match r with [] => "]" | _ => "," ++ print_items pr r end
  end.

Fixpoint print_members (pr : pyval -> string) (l : list (string * pyval)) : string :=
  match l with
  | [] => "}"
  | (k, x) :: r => quote k ++ ":" ++ pr x ++ match r with [] => "}" | _ => "," ++ print_members pr r end
  end.

Fixpoint print_json (v : pyval) : string :=
  match v with
  | PNone => "null"
  | PBool true => "true"
  | PBool false => "false"
  | PInt z => py_str_Z z
  | PFloat m e => print_float m e
  | PStr s => quote s
  | PList xs => "[" ++ print_items print_json xs
  | PDict kvs => "{" ++ print_members print_json kvs
  end.

(** ** Lemmas *)

Lemma hex_val_hex_digit (k : nat) : (k < 16)%nat -> hex_val (hex_digit k) = Some k.
Proof. intros H. do 16 (destruct k as [|k]; [reflexivity|]). lia. Qed.

Lemma parse_chars_escape (s rest : string) :
  parse_chars (escape_string s ++ String DQUOTE rest) = Some (s, rest).
Proof.
  induction s as [|c r IH]; [reflexivity|].
  cbn [escape_string]. rewrite string_app_assoc. unfold escape_char.
  destruct (Ascii.eqb_spec c DQUOTE) as [->|Hq]; [cbn; cbn in IH; rewrite IH; reflexivity|].
  destruct (Ascii.eqb_spec c "\") as [->|Hb]; [cbn; cbn in IH; rewrite IH; reflexivity|].
  destruct (Nat.ltb_spec (nat_of_ascii c) 32) as [Hc|Hc].
  - cbn [append parse_chars]. cbn - [hex_digit hex_val Nat.div Nat.modulo].
    rewrite !hex_val_hex_digit by (apply Nat.Div0.div_lt_upper_bound || apply Nat.mod_upper_bound; lia).
    change (hex_val "0") with (Some 0%nat). cbn - [Nat.div Nat.modulo parse_chars].
    cbn in IH. rewrite IH.
    replace (nat_of_ascii c / 16 * 16 + nat_of_ascii c mod 16)%nat
      with (nat_of_ascii c) by (pose proof (Nat.div_mod (nat_of_ascii c) 16); lia).
    destruct (Nat.leb_spec (nat_of_ascii c) 127); [|lia].
    rewrite Ascii.ascii_nat_embedding. reflexivity.
  - cbn [append parse_chars]. apply Ascii.eqb_neq in Hq, Hb. rewrite Hq, Hb.
    destruct (Nat.ltb_spec (nat_of_ascii c) 32); [lia|]. rewrite IH. reflexivity.
Qed.

Lemma digit_head_facts (c : ascii) : is_digit c = true ->
  is_ws c = false /\ Ascii.eqb c "-" = false /\ Ascii.eqb c "+" = false /\
  Ascii.eqb c "[" = false /\ Ascii.eqb c "{" = false /\ Ascii.eqb c DQUOTE = false /\
  Ascii.eqb c "]" = false /\ Ascii.eqb c "}" = false /\
  Ascii.eqb "n" c = false /\ Ascii.eqb "t" c = false /\ Ascii.eqb "f" c = false.
Proof. destruct c as [[] [] [] [] [] [] [] []]; cbn; intros H; try discriminate; repeat split. Qed.

Lemma py_str_N_head (n : N) : exists c r, py_str_N n = String c r /\ is_digit c = true.
Proof.
  pose proof (py_str_N_digits n) as Hd. pose proof (py_str_N_nonempty n) as Hne.
  destruct (py_str_N n) as [|c r]; [congruence|]. exists c, r. split; [reflexivity|].
  cbn [all_digits] in Hd. apply andb_prop in Hd. tauto.
Qed.

(** A text that a value may be followed by in a printed document. *)
Definition delim (rest : string) : Prop :=
  match rest with
  | EmptyString => True
  | String c _ => c = ","%char \/ c = "]"%char \/ c = "}"%char \/ is_ws c = true
  end.

Lemma span_digits_app (d rest : string) :
  all_digits d = true -> (forall c r, rest = String c r -> is_digit c = false) ->
  span_digits (d ++ rest) = (d, rest).
Proof.
  intros Hd Hr. induction d as [|c d IH]; cbn [append span_digits].
  - destruct rest as [|c r]; [reflexivity|]. cbn [span_digits]. now rewrite (Hr c r eq_refl).
  - cbn [all_digits] in Hd. apply andb_prop in Hd as [Hc Hd]. rewrite Hc, (IH Hd). reflexivity.
Qed.

Lemma sign_split (z : Z) (rest : string) :
  match head_is "-" (py_str_Z z ++ rest) with Some r => (true, r) | None => (false, py_str_Z z ++ rest) end
  = ((z <? 0)%Z, py_str_N (Z.to_N (Z.abs z)) ++ rest).
Proof.
  destruct z as [|p|p]; [reflexivity| |reflexivity].
  cbn [py_str_Z]. destruct (py_str_N_head (Z.to_N (Zpos p))) as (c & r & Hs & Hc).
  change (Z.abs (Zpos p)) with (Zpos p). rewrite Hs. cbn [append head_is].
  destruct (digit_head_facts c Hc) as (_ & Hm & _). now rewrite Hm.
Qed.

Lemma sign_split_exp (z : Z) (rest : string) :
  match head_is "-" (py_str_Z z ++ rest) with
  | Some r' => (true, r')
  | None => match head_is "+" (py_str_Z z ++ rest) with Some r' => (false, r') | None => (false, py_str_Z z ++ rest) end
  end = ((z <? 0)%Z, py_str_N (Z.to_N (Z.abs z)) ++ rest).
Proof.
  destruct z as [|p|p]; [reflexivity| |reflexivity].
  cbn [py_str_Z]. destruct (py_str_N_head (Z.to_N (Zpos p))) as (c & r & Hs & Hc).
  change (Z.abs (Zpos p)) with (Zpos p). rewrite Hs. cbn [append head_is].
  destruct (digit_head_facts c Hc) as (_ & Hm & Hp & _). now rewrite Hm, Hp.
Qed.

Lemma canonical_py_str_N (n : N) : canonical_digits (py_str_N n) = true.
Proof. unfold canonical_digits. rewrite parse_py_str_N. apply String.eqb_refl. Qed.

Lemma signed_abs (z : Z) : (if (z <? 0)%Z then (- Z.of_N (Z.to_N (Z.abs z)))%Z else Z.of_N (Z.to_N (Z.abs z))) = z.
Proof. destruct (Z.ltb_spec z 0); rewrite Z2N.id by lia; lia. Qed.

Lemma ws_facts (c : ascii) : is_ws c = true ->
  is_digit c = false /\ Ascii.eqb c "." = false /\ (Ascii.eqb c "e" || Ascii.eqb c "E") = false.
Proof. destruct c as [[] [] [] [] [] [] [] []]; cbn; intros H; try discriminate; repeat split. Qed.

Lemma delim_no_digit (rest : string) : delim rest -> forall c r, rest = String c r -> is_digit c = false.
Proof.
  intros Hd c r ->. cbn [delim] in Hd.
  destruct Hd as [-> | [-> | [-> | Hw] ] ]; [reflexivity..| apply (ws_facts c Hw)].
Qed.

(** What follows a number in a printed document ends it. *)
Lemma delim_ends_number (rest : string) : delim rest ->
  head_is "." rest = None /\ parse_exponent rest = Some (None, rest).
Proof.
  intros Hd. destruct rest as [|c r]; [split; reflexivity|]. cbn [delim] in Hd.
  destruct Hd as [-> | [-> | [-> | Hw] ] ]; [split; reflexivity..|].
  destruct (ws_facts c Hw) as (_ & Hdot & He). cbn [head_is parse_exponent]. now rewrite Hdot, He.
Qed.

Lemma parse_number_int (z : Z) (rest : string) :
  delim rest -> parse_number (py_str_Z z ++ rest) = Some (PInt z, rest).
Proof.
  intros Hd. unfold parse_number. rewrite sign_split.
  rewrite span_digits_app by (apply py_str_N_digits || apply delim_no_digit; exact Hd).
  rewrite canonical_py_str_N. cbn [negb].
  destruct (delim_ends_number rest Hd) as [-> ->].
  rewrite <- append_nil_r_string, parse_py_str_N. rewrite signed_abs. reflexivity.
Qed.

Lemma parse_number_float (m e : Z) (rest : string) :
  delim rest -> parse_number (py_str_Z m ++ "e" ++ py_str_Z e ++ rest) = Some (PFloat m e, rest).
Proof.
  intros Hd. unfold parse_number. rewrite sign_split.
  rewrite span_digits_app by (apply py_str_N_digits || (intros c r [= <- _]; reflexivity)).
  rewrite canonical_py_str_N. cbn [negb append head_is].
  change ((Ascii.eqb "e" ".")) with false. cbn iota beta.
  unfold parse_exponent. change (Ascii.eqb "e" "e") with true. cbn [orb]. rewrite sign_split_exp.
  rewrite span_digits_app by (apply py_str_N_digits || apply delim_no_digit; exact Hd).
  rewrite parse_py_str_N, signed_abs.
  rewrite <- append_nil_r_string, parse_py_str_N. rewrite signed_abs. cbn. repeat f_equal; lia.
Qed.

(** ** Fixed-width digit strings and the decimal form of floats *)

Section FixedDigits.
Local Open Scope N_scope.

Lemma digit_char_facts (d : N) : d < 10 ->
  is_digit (digit_char d) = true /\ parse_N (String (digit_char d) EmptyString) = Some d.
Proof.
  intros H. assert (Hd : d = 0 \/ d = 1 \/ d = 2 \/ d = 3 \/ d = 4 \/ d = 5 \/ d = 6 \/
                         d = 7 \/ d = 8 \/ d = 9) by lia.
  repeat destruct Hd as [->|Hd]; try (subst; split; reflexivity).
Qed.

Lemma digit_char_mod (r : N) :
  is_digit (digit_char (r mod 10)) = true /\ parse_N (String (digit_char (r mod 10)) EmptyString) = Some (r mod 10).
Proof. apply digit_char_facts, N.mod_lt. lia. Qed.

Lemma length_digits_k (k : nat) (r : N) : String.length (digits_k k r) = k.
Proof.
  revert r. induction k as [|k IH]; intros r; [reflexivity|].
  cbn [digits_k]. rewrite string_length_app, IH. cbn. lia.
Qed.

Lemma all_digits_digits_k (k : nat) (r : N) : all_digits (digits_k k r) = true.
Proof.
  revert r. induction k as [|k IH]; intros r; [reflexivity|].
  cbn [digits_k]. rewrite all_digits_app, IH. cbn [all_digits].
  now rewrite (proj1 (digit_char_mod r)).
Qed.

(** [digits_k (S k) r] reads back as the last [S k] digits of [r]. *)
Lemma parse_N_digits_k (k : nat) (r : N) :
  parse_N (digits_k (S k) r) = Some (r mod 10 ^ N.of_nat (S k)).
Proof.
  revert r. induction k as [|k IH]; intros r.
  - cbn [digits_k append]. now rewrite (proj2 (digit_char_mod r)).
  - change (digits_k (S (S k)) r) with (digits_k (S k) (r / 10) ++ String (digit_char (r mod 10)) EmptyString)%string.
    rewrite (parse_N_app _ _ _ _ (IH (r / 10)) (proj2 (digit_char_mod r))).
    f_equal. cbn [String.length]. change (N.of_nat 1) with 1.
    replace (10 ^ N.of_nat (S (S k))) with (10 * 10 ^ N.of_nat (S k))
      by (rewrite (Nat2N.inj_succ (S k)), N.pow_succ_r'; reflexivity).
    rewrite N.Div0.mod_mul_r. lia.
Qed.

Lemma digits_k_cons (k : nat) (r : N) : exists c s, digits_k (S k) r = String c s.
Proof.
  pose proof (length_digits_k (S k) r) as H.
  destruct (digits_k (S k) r) as [|c s]; [discriminate H|eauto].
Qed.

(** The integer part and the [k] fraction digits of [a] put back together. *)
Lemma split_digits_value (k : nat) (a : N) :
  a / 10 ^ N.of_nat k * 10 ^ N.of_nat k + a mod 10 ^ N.of_nat k = a.
Proof. rewrite N.mul_comm. symmetry. apply N.Div0.div_mod. Qed.

End FixedDigits.

Lemma py_str_Z_sign (z : Z) :
  py_str_Z z = ((if (z <? 0)%Z then "-" else EmptyString) ++ py_str_N (Z.to_N (Z.abs z)))%string.
Proof. destruct z; reflexivity. Qed.

Lemma sign_split_N (neg : bool) (n : N) (rest : string) :
  let s := ((if neg then "-" else EmptyString) ++ py_str_N n ++ rest)%string in
  match head_is "-" s with Some r => (true, r) | None => (false, s) end = (neg, py_str_N n ++ rest)%string.
Proof.
  destruct neg; cbn [append head_is]; [now rewrite Ascii.eqb_refl|].
  destruct (py_str_N_head n) as (c & r & Hs & Hc). rewrite Hs. cbn [append head_is].
  destruct (digit_head_facts c Hc) as (_ & Hm & _). now rewrite Hm.
Qed.

(** A float printed with a decimal point reads back as itself. *)
Lemma parse_number_decimal (m e : Z) (rest : string) :
  (e < 0)%Z -> delim rest -> parse_number (print_float m e ++ rest) = Some (PFloat m e, rest).
Proof.
  intros He Hd. unfold print_float. rewrite (proj2 (Z.ltb_lt _ _) He). cbv zeta.
  assert (Hk : exists k, Z.to_nat (- e) = S k) by (exists (Z.to_nat (- e) - 1)%nat; lia).
  destruct Hk as [k Hk]. rewrite Hk, !string_app_assoc. unfold parse_number. rewrite sign_split_N.
  rewrite span_digits_app by (apply py_str_N_digits || (intros c r [= <- _]; reflexivity)).
  rewrite canonical_py_str_N. cbn [negb append head_is]. rewrite Ascii.eqb_refl.
  rewrite span_digits_app by (apply all_digits_digits_k || apply delim_no_digit; exact Hd).
  destruct (digits_k_cons k (Z.to_N (Z.abs m))) as (c & s & Hcs). rewrite Hcs.
  destruct (delim_ends_number rest Hd) as [_ ->]. rewrite <- Hcs.
  rewrite (parse_N_app _ _ _ _ (parse_py_str_N _) (parse_N_digits_k _ _)).
  rewrite length_digits_k, split_digits_value, signed_abs. do 3 f_equal. lia.
Qed.

Lemma parse_number_print_float (m e : Z) (rest : string) :
  delim rest -> parse_number (print_float m e ++ rest) = Some (PFloat m e, rest).
Proof.
  intros Hd. destruct (Z.ltb_spec e 0) as [He|He]; [now apply parse_number_decimal|].
  unfold print_float. rewrite (proj2 (Z.ltb_ge _ _) He), !string_app_assoc. now apply parse_number_float.
Qed.

(** A printed number starts with a sign or a digit. *)
Lemma signed_head (neg : bool) (n : N) (rest : string) :
  exists c r, ((if neg then "-" else EmptyString) ++ py_str_N n ++ rest)%string = String c r /\
              (c = "-"%char \/ is_digit c = true).
Proof.
  destruct neg; [do 2 eexists; split; [reflexivity|]; now left|].
  destruct (py_str_N_head n) as (c & r & Hs & Hc). rewrite Hs. exists c, (r ++ rest)%string. auto.
Qed.

Lemma print_float_head (m e : Z) :
  exists c r, print_float m e = String c r /\ (c = "-"%char \/ is_digit c = true).
Proof.
  unfold print_float. destruct (e <? 0)%Z; [apply signed_head|].
  rewrite py_str_Z_sign, string_app_assoc. apply signed_head.
Qed.

(** ** Fuel *)

Fixpoint items_fuel {A : Type} (fu : A -> nat) (l : list A) : nat :=
  match l with
  | [] => 0
  | x :: r => S (Nat.max (fu x) (items_fuel fu r))
  end.

Fixpoint fuel (v : pyval) : nat :=
  match v with
  | PList xs => S (items_fuel fuel xs)
  | PDict kvs => S (items_fuel (fun '(_, x) => fuel x) kvs)
  | _ => 1
  end.

Section pyval_rect.
Variable P : pyval -> Prop.
Hypothesis HNone : P PNone.
Hypothesis HBool : forall b, P (PBool b).
Hypothesis HInt : forall z, P (PInt z).
Hypothesis HFloat : forall m e, P (PFloat m e).
Hypothesis HStr : forall s, P (PStr s).
Hypothesis HList : forall xs, Forall P xs -> P (PList xs).
Hypothesis HDict : forall kvs, Forall (fun kv => P (snd kv)) kvs -> P (PDict kvs).

Fixpoint pyval_ind' (v : pyval) : P v :=
  match v with
  | PNone => HNone
  | PBool b => HBool b
  | PInt z => HInt z
  | PFloat m e => HFloat m e
  | PStr s => HStr s
  | PList xs =>
      HList xs ((fix go (l : list pyval) : Forall P l :=
                   match l with
                   | [] => Forall_nil _
                   | x :: r => Forall_cons x (pyval_ind' x) (go r)
                   end) xs)
  | PDict kvs =>
      HDict kvs ((fix go (l : list (string * pyval)) : Forall (fun kv => P (snd kv)) l :=
                    match l with
                    | [] => Forall_nil _
                    | (k, x) :: r => Forall_cons (P := fun kv => P (snd kv)) (k, x) (pyval_ind' x) (go r)
                    end) kvs)
  end.
End pyval_rect.

(** ** Dispatch on the first character *)

Definition plain_head (c : ascii) : bool :=
  negb (is_ws c) && negb (Ascii.eqb c "[") && negb (Ascii.eqb c "{") && negb (Ascii.eqb c DQUOTE)
  && negb (Ascii.eqb "n" c) && negb (Ascii.eqb "t" c) && negb (Ascii.eqb "f" c).

Lemma parse_value_number (n : nat) (c : ascii) (r : string) :
  plain_head c = true -> parse_value (S n) (String c r) = parse_number (String c r).
Proof.
  unfold plain_head. intros H. cbn [parse_value skip_ws starts_with strip_prefix].
  destruct (is_ws c), (Ascii.eqb c "["), (Ascii.eqb c "{"), (Ascii.eqb c DQUOTE),
    (Ascii.eqb "n" c), (Ascii.eqb "t" c), (Ascii.eqb "f" c); try discriminate H; reflexivity.
Qed.

Lemma plain_head_digit (c : ascii) : is_digit c = true -> plain_head c = true.
Proof. destruct c as [[] [] [] [] [] [] [] []]; cbn; intros H; try discriminate; reflexivity. Qed.

Lemma number_head_facts (c : ascii) : c = "-"%char \/ is_digit c = true ->
  is_ws c = false /\ Ascii.eqb c "]" = false /\ plain_head c = true.
Proof.
  intros [-> | Hc]; [repeat split|].
  destruct (digit_head_facts c Hc) as (Hw & _ & _ & _ & _ & _ & Hb & _). auto using plain_head_digit.
Qed.

Lemma parse_value_py_str_Z (n : nat) (z : Z) (rest : string) :
  parse_value (S n) (py_str_Z z ++ rest) = parse_number (py_str_Z z ++ rest).
Proof.
  destruct z as [|p|p]; [reflexivity| |reflexivity].
  cbn [py_str_Z]. destruct (py_str_N_head (Z.to_N (Zpos p))) as (c & r & Hs & Hc).
  rewrite Hs. cbn [append]. apply parse_value_number, plain_head_digit, Hc.
Qed.

Lemma skip_head (c : ascii) (s : string) : is_ws c = false -> skip_ws (String c s) = String c s.
Proof. intros H. cbn [skip_ws]. now rewrite H. Qed.

Lemma head_sep (c : ascii) (s : string) : is_ws c = false -> head_is c (skip_ws (String c s)) = Some s.
Proof. intros H. rewrite skip_head by exact H. cbn [head_is]. now rewrite Ascii.eqb_refl. Qed.

Lemma print_head (v : pyval) : exists c r, print_json v = String c r /\ is_ws c = false /\ Ascii.eqb c "]" = false.
Proof.
  destruct v as [| [] | z | m e | s | xs | kvs]; try (do 2 eexists; split; [reflexivity|]; split; reflexivity).
  - destruct z as [|p|p]; [do 2 eexists; split; [reflexivity|]; split; reflexivity| |do 2 eexists; split; [reflexivity|]; split; reflexivity].
    cbn [print_json py_str_Z]. destruct (py_str_N_head (Z.to_N (Zpos p))) as (c & r & Hs & Hc).
    rewrite Hs. exists c, r. destruct (digit_head_facts c Hc) as (Hw & _ & _ & _ & _ & _ & Hb & _). auto.
  - cbn [print_json]. destruct (print_float_head m e) as (c & r & Hs & Hc).
    rewrite Hs. exists c, r. destruct (number_head_facts c Hc) as (Hw & Hb & _). auto.
Qed.


Lemma print_start (v : pyval) (rest : string) :
  skip_ws (print_json v ++ rest) = print_json v ++ rest /\ head_is "]" (print_json v ++ rest) = None.
Proof.
  destruct (print_head v) as (c & r & Hs & Hw & Hb). rewrite Hs. cbn [append].
  rewrite skip_head by exact Hw. cbn [head_is]. now rewrite Hb.
Qed.

Lemma parse_value_string (n : nat) (r : string) :
  parse_value (S n) (String DQUOTE r) =
  match parse_chars r with Some (t, r') => Some (PStr t, r') | None => None end.
Proof. reflexivity. Qed.

Lemma parse_value_list (n : nat) (r : string) :
  parse_value (S n) (String "[" r) =
  match head_is "]" (skip_ws r) with
  | Some r' => Some (PList [], r')
  | None => match parse_items n r with Some (xs, r') => Some (PList xs, r') | None => None end
  end.
Proof. reflexivity. Qed.

Lemma parse_value_dict (n : nat) (r : string) :
  parse_value (S n) (String "{" r) =
  match head_is "}" (skip_ws r) with
  | Some r' => Some (PDict [], r')
  | None => match parse_members n r with Some (kvs, r') => Some (PDict kvs, r') | None => None end
  end.
Proof. reflexivity. Qed.

Lemma items_start (x : pyval) (r : list pyval) (rest : string) :
  skip_ws (print_items print_json (x :: r) ++ rest) = print_items print_json (x :: r) ++ rest /\
  head_is "]" (print_items print_json (x :: r) ++ rest) = None.
Proof. cbn [print_items]. rewrite string_app_assoc. apply print_start. Qed.

Lemma members_start (kv : string * pyval) (r : list (string * pyval)) (rest : string) :
  head_is "}" (skip_ws (print_members print_json (kv :: r) ++ rest)) = None.
Proof.
  destruct kv as [k x]. cbn [print_members]. unfold quote. rewrite !string_app_assoc. cbn [append].
  rewrite skip_head by reflexivity. reflexivity.
Qed.

Definition parses (v : pyval) : Prop :=
  forall n rest, (fuel v <= n)%nat -> delim rest -> parse_value n (print_json v ++ rest) = Some (v, rest).

Lemma delim_comma (s : string) : delim (String "," s).  Proof. cbn. auto. Qed.
Lemma delim_bracket (s : string) : delim (String "]" s). Proof. cbn. auto. Qed.
Lemma delim_brace (s : string) : delim (String "}" s).   Proof. cbn. auto. Qed.

Lemma parse_print_items (xs : list pyval) : Forall parses xs -> xs <> [] ->
  forall n rest, (items_fuel fuel xs <= n)%nat -> delim rest ->
  parse_items n (print_items print_json xs ++ rest) = Some (xs, rest).
Proof.
  induction 1 as [|x r Hx Hr IH]; [congruence|]. intros _ n rest Hn Hd.
  destruct n as [|n]; [cbn in Hn; lia|]. cbn [items_fuel] in Hn.
  cbn [print_items parse_items]. rewrite string_app_assoc.
  destruct r as [|y r'].
  - rewrite Hx by (lia || apply delim_bracket). reflexivity.
  - rewrite string_app_assoc. cbn [append].
    rewrite Hx by (lia || apply delim_comma). rewrite head_sep by reflexivity.
    rewrite IH by (congruence || lia || exact Hd). reflexivity.
Qed.

Lemma parse_print_members (kvs : list (string * pyval)) : Forall (fun kv => parses (snd kv)) kvs -> kvs <> [] ->
  forall n rest, (items_fuel (fun '(_, x) => fuel x) kvs <= n)%nat -> delim rest ->
  parse_members n (print_members print_json kvs ++ rest) = Some (kvs, rest).
Proof.
  induction 1 as [|[k x] r Hx Hr IH]; [congruence|]. intros _ n rest Hn Hd. cbn [snd] in Hx.
  destruct n as [|n]; [cbn in Hn; lia|]. cbn [items_fuel] in Hn.
  cbn [print_members parse_members]. unfold quote. rewrite !string_app_assoc. cbn [append].
  rewrite head_sep by reflexivity. rewrite string_app_assoc. cbn [append].
  rewrite parse_chars_escape. rewrite head_sep by reflexivity.
  destruct r as [|y r'].
  - rewrite Hx by (lia || apply delim_brace). reflexivity.
  - cbn [append].
    rewrite Hx by (lia || apply delim_comma). rewrite head_sep by reflexivity.
    rewrite IH by (congruence || lia || exact Hd). reflexivity.
Qed.

Lemma parse_print (v : pyval) : parses v.
Proof.
  induction v as [| b | z | m e | s | xs IH | kvs IH] using pyval_ind';
    intros n rest Hn Hd; (destruct n as [|n]; [cbn in Hn; lia|]).
  - reflexivity.
  - destruct b; reflexivity.
  - cbn [print_json]. rewrite parse_value_py_str_Z. now apply parse_number_int.
  - cbn [print_json]. destruct (print_float_head m e) as (c & r & Hs & Hc). rewrite Hs. cbn [append].
    rewrite parse_value_number by apply (number_head_facts c Hc).
    change (String c (r ++ rest)) with (String c r ++ rest)%string. rewrite <- Hs.
    now apply parse_number_print_float.
  - cbn [print_json]. unfold quote. cbn [append]. rewrite parse_value_string.
    rewrite string_app_assoc. cbn [append]. rewrite parse_chars_escape. reflexivity.
  - cbn [print_json]. rewrite string_app_assoc. cbn [append fuel] in *.
    destruct xs as [|x r]; [reflexivity|].
    rewrite parse_value_list. destruct (items_start x r rest) as [E1 E2]. rewrite E1, E2.
    inversion IH; subst. rewrite parse_print_items by (auto || congruence || lia). reflexivity.
  - cbn [print_json]. rewrite string_app_assoc. cbn [append fuel] in *.
    destruct kvs as [|[k x] r]; [reflexivity|].
    rewrite parse_value_dict, members_start.
    rewrite parse_print_members by (auto || congruence || lia). reflexivity.
Qed.


Lemma print_length_pos (v : pyval) : (1 <= String.length (print_json v))%nat.
Proof. destruct (print_head v) as (c & r & -> & _). cbn. lia. Qed.

Lemma fuel_le_length (v : pyval) : (fuel v <= String.length (print_json v))%nat.
Proof.
  induction v as [| b | z | m e | s | xs IH | kvs IH] using pyval_ind';
    try (apply print_length_pos); cbn [fuel print_json]; rewrite string_length_app; cbn [String.length].
  - enough (items_fuel fuel xs <= String.length (print_items print_json xs))%nat by lia.
    induction IH as [|x r Hx Hr IHr]; [cbn; lia|].
    cbn [items_fuel print_items]. rewrite string_length_app.
    destruct r as [|y r']; cbn [String.length items_fuel append]; [lia|].
    cbn [items_fuel] in IHr. lia.
  - enough (items_fuel (fun '(_, x) => fuel x) kvs <= String.length (print_members print_json kvs))%nat by lia.
    induction IH as [|[k x] r Hx Hr IHr]; [cbn; lia|]. cbn [snd] in Hx.
    cbn [items_fuel print_members]. rewrite !string_length_app. cbn [String.length].
    destruct r as [|y r']; cbn [String.length items_fuel append]; [lia|].
    cbn [items_fuel] in IHr. lia.
Qed.

Lemma skip_ws_app (a s : string) : all_ws a = true -> skip_ws (a ++ s) = skip_ws s.
Proof.
  induction a as [|c a IH]; intros H; [reflexivity|]. cbn [all_ws] in H.
  apply andb_prop in H as [Hc Ha]. cbn [append skip_ws]. rewrite Hc. exact (IH Ha).
Qed.

Lemma all_ws_skip (b : string) : all_ws b = true -> skip_ws b = EmptyString.
Proof. intros H. rewrite (append_nil_r_string b), skip_ws_app by exact H. reflexivity. Qed.

Lemma parse_value_ws (a s : string) (n : nat) :
  all_ws a = true -> parse_value (S n) (a ++ s) = parse_value (S n) s.
Proof. intros H. cbn [parse_value]. now rewrite skip_ws_app. Qed.

Lemma delim_ws (b : string) : all_ws b = true -> delim b.
Proof. destruct b as [|c r]; [exact (fun _ => I)|]. cbn [all_ws delim]. intros H. apply andb_prop in H. tauto. Qed.

(** [json.loads] of the text of any value, with whitespace around it,
    is that value. *)
Lemma json_loads_print_ws (v : pyval) (pre post : string) :
  all_ws pre = true -> all_ws post = true -> json_loads (pre ++ print_json v ++ post) = Some v.
Proof.
  intros Hpre Hpost. unfold json_loads. rewrite parse_value_ws by exact Hpre.
  rewrite parse_print by (apply delim_ws, Hpost ||
    (rewrite !string_length_app; pose proof (fuel_le_length v); lia)).
  now rewrite all_ws_skip.
Qed.

Lemma json_loads_print (v : pyval) : json_loads (print_json v) = Some v.
Proof.
  rewrite (append_nil_r_string (print_json v)). exact (json_loads_print_ws v EmptyString EmptyString eq_refl eq_refl).
Qed.

(** ** Evaluation *)

(** The shape of an answer of the pricing API, as the server sends it. *)
Example json_loads_api_example :
  json_loads ("{" ++ quote "count" ++ ": 2, " ++ quote "results" ++ ": [{" ++ quote "value_inc_vat"
              ++ ": 25.41}, {" ++ quote "value_inc_vat" ++ ": -1.5e1}]}")
  = Some (PDict [("count", PInt 2);
                 ("results", PList [PDict [("value_inc_vat", PFloat 2541 (-2))];
                                    PDict [("value_inc_vat", PFloat (-15) 0)]])]).
Proof. vm_compute. reflexivity. Qed.

