(* ===== verification/Calendar.v ===== *)
(** * The [datetime] and [time.localtime] semantics used by [get_prices]

    Lines 103-108 of the script build a [datetime] from the first five
    fields of [time.localtime()] and shift it by [timedelta(hours=1)] and
    [-timedelta(minutes=30)].  This file models what those library calls
    compute: the proleptic Gregorian calendar of the [datetime] module
    the MicroPython script imports (micropython-lib's [datetime.py],
    whose [_leap], [_dby], [_dim], [_dbm], [_ymd2o] and [_o2ymd] are
    the algorithms of CPython's [_is_leap], [_days_before_year],
    [_days_in_month], [_days_before_month], [_ymd2ord] and [_ord2ymd],
    whose names the definitions keep), the validating constructor,
    [datetime + timedelta] through ordinals (a bare [ValueError] out of
    range), and [localtime] on seconds since 1970-01-01.

    A [datetime] here has no second or microsecond field: the script
    passes five fields, so both are 0, and whole-minute deltas keep them
    0. *)

From Stdlib Require Import ZArith List String Bool Lia.
From S2P Require Import Prelude PyValue.
Import ListNotations.
Open Scope Z_scope.

Definition MINYEAR : Z := 1.
Definition MAXYEAR : Z := 9999.
Definition MAXORDINAL : Z := 3652059.
Definition DI400Y : Z := 146097.
Definition DI100Y : Z := 36524.
Definition DI4Y : Z := 1461.

(** [_DAYS_IN_MONTH]; index 0 is a placeholder. *)
Definition DAYS_IN_MONTH : list Z :=
  [-1; 31; 28; 31; 30; 31; 30; 31; 31; 30; 31; 30; 31].

(** [_DAYS_BEFORE_MONTH], built by the accumulation loop of the library. *)
Fixpoint days_before_table (dbm : Z) (dims : list Z) : list Z :=
  match dims with
  | [] => []
  | dim :: rest => dbm :: days_before_table (dbm + dim) rest
  end.

Definition DAYS_BEFORE_MONTH : list Z := -1 :: days_before_table 0 (tl DAYS_IN_MONTH).

(** Python list indexing on the two tables (indices are months 0..12). *)
Definition tbl (t : list Z) (i : Z) : Z := nth (Z.to_nat i) t 0.

Definition is_leap (year : Z) : bool :=
  (year mod 4 =? 0) && (negb (year mod 100 =? 0) || (year mod 400 =? 0)).

Definition days_before_year (year : Z) : Z :=
  let y := year - 1 in y * 365 + y / 4 - y / 100 + y / 400.

Definition days_in_month (year month : Z) : Z :=
  if (month =? 2) && is_leap year then 29 else tbl DAYS_IN_MONTH month.

Definition days_before_month (year month : Z) : Z :=
  tbl DAYS_BEFORE_MONTH month + (if (month >? 2) && is_leap year then 1 else 0).

Definition ymd2ord (year month day : Z) : Z :=
  days_before_year year + days_before_month year month + day.

(** The month search at the end of [_ord2ymd]: [n] is the 0-based day of
    the year; the estimate [(n + 50) >> 5] is at most one too large. *)
Definition month_of_day (leapyear : bool) (n : Z) : Z * Z :=
  let month := Z.shiftr (n + 50) 5 in
  let preceding := tbl DAYS_BEFORE_MONTH month
                   + (if (month >? 2) && leapyear then 1 else 0) in
  if preceding >? n then
    let month' := month - 1 in
    let preceding' := preceding - (tbl DAYS_IN_MONTH month'
                                   + (if (month' =? 2) && leapyear then 1 else 0)) in
    (month', n - preceding' + 1)
  else (month, n - preceding + 1).

Definition ord2ymd (n0 : Z) : Z * Z * Z :=
  let n := n0 - 1 in
  let n400 := n / DI400Y in
  let n := n mod DI400Y in
  let year := n400 * 400 + 1 in
  let n100 := n / DI100Y in
  let n := n mod DI100Y in
  let n4 := n / DI4Y in
  let n := n mod DI4Y in
  let n1 := n / 365 in
  let n := n mod 365 in
  let year := year + n100 * 100 + n4 * 4 + n1 in
  if (n1 =? 4) || (n100 =? 4) then (year - 1, 12, 31)
  else
    let leapyear := (n1 =? 3) && (negb (n4 =? 24) || (n100 =? 3)) in
    let '(month, day) := month_of_day leapyear n in
    (year, month, day).

(** ** [datetime] objects *)

Record datetime := mk_datetime {
  year : Z; month : Z; day : Z; hour : Z; minute : Z }.

(** The checks of the constructor: micropython-lib's [_date] and
    [_time] raise a bare [ValueError] when a field is out of range
    (CPython checks the same ranges).  The script always passes five
    fields; micropython-lib's extra form [datetime(0, 0, ordinal)] is
    not reached, since [localtime] gives years from 1970 on. *)
Definition datetime_new (args : list Z) : exc + datetime :=
  match args with
  | [y; mo; d; h; mi] =>
      if negb ((MINYEAR <=? y) && (y <=? MAXYEAR)) then inl (ValueError EmptyString)
      else if negb ((1 <=? mo) && (mo <=? 12)) then inl (ValueError EmptyString)
      else if negb ((1 <=? d) && (d <=? days_in_month y mo)) then inl (ValueError EmptyString)
      else if negb ((0 <=? h) && (h <=? 23)) then inl (ValueError EmptyString)
      else if negb ((0 <=? mi) && (mi <=? 59)) then inl (ValueError EmptyString)
      else inr (mk_datetime y mo d h mi)
  | _ => inl (TypeError "function takes five arguments")
  end.

(** [toordinal()] in minutes, plus the time of day: the [timedelta] that
    [datetime.__add__] builds before adding. *)
Definition to_minutes (dt : datetime) : Z :=
  ymd2ord (year dt) (month dt) (day dt) * 1440 + hour dt * 60 + minute dt.

(** The constructor's arguments that rebuild [dt]; [dt] is a value the
    constructor accepts exactly when [datetime_ok dt]. *)
Definition fields (dt : datetime) : list Z :=
  [year dt; month dt; day dt; hour dt; minute dt].

Definition datetime_ok (dt : datetime) : Prop := datetime_new (fields dt) = inr dt.

(** The documented ranges of a [datetime]'s fields ([MINYEAR <= year <=
    MAXYEAR], [1 <= month <= 12], [1 <= day <=] the days of that month,
    [0 <= hour <= 23], [0 <= minute <= 59]), stated on their own. *)
Definition datetime_valid (dt : datetime) : bool :=
  (MINYEAR <=? year dt) && (year dt <=? MAXYEAR) && (1 <=? month dt) && (month dt <=? 12) &&
  (1 <=? day dt) && (day dt <=? days_in_month (year dt) (month dt)) &&
  (0 <=? hour dt) && (hour dt <=? 23) && (0 <=? minute dt) && (minute dt <=? 59).

(** [dt + timedelta(minutes=k)] (and [dt - timedelta(minutes=-k)]):
    normalise to days and minutes, rebuild the date from the ordinal,
    or raise outside the ordinal range.  micropython-lib's [__add__]
    builds [datetime(0, 0, d, ...)], whose [_date] check raises a bare
    [ValueError] when [d] is not in [1..MAXORDINAL] (CPython raises
    [OverflowError] instead). *)
Definition add_minutes (dt : datetime) (k : Z) : exc + datetime :=
  let total := to_minutes dt + k in
  let days := total / 1440 in
  let rem := total mod 1440 in
  if (0 <? days) && (days <=? MAXORDINAL) then
    let '(y, mo, d) := ord2ymd days in
    inr (mk_datetime y mo d (rem / 60) (rem mod 60))
  else inl (ValueError EmptyString).

(** ** [time.localtime] *)

(** [date(1970, 1, 1).toordinal()]. *)
Definition EPOCH_ORD : Z := 719163.

(** The 8-tuple (year, month, mday, hour, minute, second, weekday,
    yearday) for [s] seconds since 1970-01-01 00:00. *)
Definition localtime (s : Z) : list Z :=
  let days := s / 86400 in
  let secs := s mod 86400 in
  let ord := EPOCH_ORD + days in
  let '(y, mo, d) := ord2ymd ord in
  [y; mo; d; secs / 3600; (secs mod 3600) / 60; secs mod 60;
   (ord + 6) mod 7; days_before_month y mo + d].

Example days_before_month_table :
  DAYS_BEFORE_MONTH = [-1; 0; 31; 59; 90; 120; 151; 181; 212; 243; 273; 304; 334].
Proof. reflexivity. Qed.

Example localtime_spec_example :
  firstn 5 (localtime 1705315620) = [2024; 1; 15; 10; 47].
Proof. reflexivity. Qed.

(** ** The calendar arithmetic *)

(** The facts [month_of_day] establishes, as a boolean test. *)
Definition month_of_day_ok (leap : bool) (n : Z) : bool :=
  let '(m, d) := month_of_day leap n in
  (1 <=? m) && (m <=? 12) && (1 <=? d)
  && (d <=? tbl DAYS_IN_MONTH m + (if (m =? 2) && leap then 1 else 0))
  && (tbl DAYS_BEFORE_MONTH m + (if (m >? 2) && leap then 1 else 0) + d =? n + 1).

Lemma month_of_day_table (leap : bool) (n : Z) :
  0 <= n < 365 -> month_of_day_ok leap n = true.
Proof.
  intros Hn. apply (forallb_zrange _ 0 n 365); [|lia].
  destruct leap; vm_compute; reflexivity.
Qed.

(** The day of the year of a valid date ([days_before_month + day - 1])
    and what [month_of_day] makes of it, as a boolean test: below 365
    the search gives the date back; day 365 is December 31 of a leap
    year, which [_ord2ymd] handles before the search. *)
Definition day_of_year_ok (leap : bool) (m d : Z) : bool :=
  let r := tbl DAYS_BEFORE_MONTH m + (if (m >? 2) && leap then 1 else 0) + d - 1 in
  (0 <=? r) &&
  if r <? 365 then
    let '(m', d') := month_of_day leap r in (m' =? m) && (d' =? d)
  else (r =? 365) && leap && (m =? 12) && (d =? 31).

Lemma day_of_year_table (leap : bool) (m d : Z) :
  1 <= m <= 12 -> 1 <= d <= tbl DAYS_IN_MONTH m + (if (m =? 2) && leap then 1 else 0) ->
  day_of_year_ok leap m d = true.
Proof.
  intros Hm Hd.
  assert (Hall : forallb (fun m =>
            (tbl DAYS_IN_MONTH m + (if (m =? 2) && leap then 1 else 0) <=? 31) &&
            forallb (fun d =>
              implb (d <=? tbl DAYS_IN_MONTH m + (if (m =? 2) && leap then 1 else 0))
                    (day_of_year_ok leap m d)) (zrange 1 31)) (zrange 1 12) = true)
    by (destruct leap; vm_compute; reflexivity).
  pose proof (forallb_zrange _ 1 m 12 Hall ltac:(lia)) as Hrow. cbv beta in Hrow.
  andb_split. Zbool.
  pose proof (forallb_zrange _ 1 d 31 H0 ltac:(lia)) as Hcell. cbv beta in Hcell.
  destruct Hd as [_ Hd]. apply Z.leb_le in Hd. rewrite Hd in Hcell. exact Hcell.
Qed.

Lemma days_in_month_leap (y m : Z) :
  days_in_month y m = tbl DAYS_IN_MONTH m + (if (m =? 2) && is_leap y then 1 else 0).
Proof.
  unfold days_in_month. destruct (Z.eqb_spec m 2) as [->|]; simpl; [|lia].
  destruct (is_leap y); reflexivity.
Qed.

(** A year written in the 400/100/4/1-year cycles of the Gregorian
    calendar: the days before it are the sum of the cycles' days. *)
Lemma days_before_year_cycles (y a b c d : Z) :
  y = 400 * a + 100 * b + 4 * c + d + 1 -> 0 <= b <= 3 -> 0 <= c <= 24 -> 0 <= d <= 3 ->
  days_before_year y = 146097 * a + 36524 * b + 1461 * c + 365 * d.
Proof.
  intros -> Hb Hc Hd. unfold days_before_year.
  replace (400 * a + 100 * b + 4 * c + d + 1 - 1) with (400 * a + 100 * b + 4 * c + d) by lia.
  rewrite <- (Z.div_unique_pos (400 * a + 100 * b + 4 * c + d) 4 (100 * a + 25 * b + c) d) by lia.
  rewrite <- (Z.div_unique_pos (400 * a + 100 * b + 4 * c + d) 100 (4 * a + b) (4 * c + d)) by lia.
  rewrite <- (Z.div_unique_pos (400 * a + 100 * b + 4 * c + d) 400 a (100 * b + 4 * c + d)) by lia.
  lia.
Qed.

Lemma is_leap_cycles (y a b c d : Z) :
  y = 400 * a + 100 * b + 4 * c + d + 1 -> 0 <= b <= 3 -> 0 <= c <= 24 -> 0 <= d <= 3 ->
  is_leap y = (d =? 3) && (negb (c =? 24) || (b =? 3)).
Proof.
  intros Hy Hb Hc Hd. unfold is_leap.
  name_divmod y 4 q4 r4. name_divmod y 100 q100 r100. name_divmod y 400 q400 r400.
  destruct (Z.eqb_spec r4 0), (Z.eqb_spec r100 0), (Z.eqb_spec r400 0),
    (Z.eqb_spec d 3), (Z.eqb_spec c 24), (Z.eqb_spec b 3);
    simpl; try reflexivity; exfalso; lia.
Qed.

(** [_ord2ymd] inverts [_ymd2ord]: every ordinal from 1 on is mapped to a
    valid date of the proleptic Gregorian calendar whose ordinal it is. *)
Lemma ord2ymd_spec (n : Z) : 1 <= n ->
  let '(y, m, d) := ord2ymd n in
  MINYEAR <= y /\ (n <= MAXORDINAL -> y <= MAXYEAR) /\
  1 <= m <= 12 /\ 1 <= d <= days_in_month y m /\ ymd2ord y m d = n.
Proof.
  intros Hn. unfold ord2ymd, MINYEAR, MAXYEAR, MAXORDINAL, DI400Y, DI100Y, DI4Y.
  cbv zeta.
  name_divmod (n - 1) 146097 a r1. name_divmod r1 36524 b r2.
  name_divmod r2 1461 c r3. name_divmod r3 365 d r4.
  assert (0 <= a) by lia.
  destruct ((d =? 4) || (b =? 4)) eqn:Ebr.
  - apply orb_true_iff in Ebr. rewrite days_in_month_leap. simpl.
    unfold ymd2ord, days_before_month.
    change (tbl DAYS_BEFORE_MONTH 12) with 334. change (tbl DAYS_IN_MONTH 12) with 31.
    destruct Ebr as [E|E]; Zbool.
    + rewrite (days_before_year_cycles _ a b c 3) by lia.
      rewrite (is_leap_cycles _ a b c 3) by lia.
      destruct (Z.eqb_spec c 24); [lia|]. bsimpl. lia.
    + rewrite (days_before_year_cycles _ a 3 24 3) by lia.
      rewrite (is_leap_cycles _ a 3 24 3) by lia. bsimpl. lia.
  - apply orb_false_iff in Ebr. destruct Ebr as [E1 E2]. Zbool.
    rewrite <- (is_leap_cycles (a * 400 + 1 + b * 100 + c * 4 + d) a b c d) by lia.
    set (y := a * 400 + 1 + b * 100 + c * 4 + d).
    pose proof (month_of_day_table (is_leap y) r4 ltac:(lia)) as Hok.
    unfold month_of_day_ok in Hok.
    destruct (month_of_day (is_leap y) r4) as [m dd]. andb_split. Zbool.
    rewrite days_in_month_leap. unfold ymd2ord, days_before_month.
    rewrite (days_before_year_cycles y a b c d) by (unfold y; lia).
    unfold y in *. repeat split; lia.
Qed.

(** A valid date in the 400/100/4/1-year cycles, with its day of the
    year [r]: the decomposition [_ord2ymd] recovers from its ordinal. *)
Lemma ymd2ord_cycles (y m d : Z) :
  MINYEAR <= y -> 1 <= m <= 12 -> 1 <= d <= days_in_month y m ->
  exists a b c e r,
    y = 400 * a + 100 * b + 4 * c + e + 1 /\ 0 <= a /\ 0 <= b <= 3 /\ 0 <= c <= 24 /\
    0 <= e <= 3 /\ 0 <= r /\
    ymd2ord y m d = 146097 * a + 36524 * b + 1461 * c + 365 * e + r + 1 /\
    is_leap y = (e =? 3) && (negb (c =? 24) || (b =? 3)) /\
    ((r < 365 /\ month_of_day (is_leap y) r = (m, d)) \/
     (r = 365 /\ e = 3 /\ (c <> 24 \/ b = 3) /\ m = 12 /\ d = 31)).
Proof.
  intros Hy Hm Hd. unfold MINYEAR in Hy.
  name_divmod (y - 1) 400 a Y1. name_divmod Y1 100 b Y2. name_divmod Y2 4 c e.
  assert (Hcyc : y = 400 * a + 100 * b + 4 * c + e + 1) by lia.
  rewrite days_in_month_leap in Hd.
  pose proof (day_of_year_table (is_leap y) m d Hm Hd) as Ht. unfold day_of_year_ok in Ht.
  pose proof (is_leap_cycles y a b c e Hcyc ltac:(lia) ltac:(lia) ltac:(lia)) as HL.
  exists a, b, c, e, (tbl DAYS_BEFORE_MONTH m + (if (m >? 2) && is_leap y then 1 else 0) + d - 1).
  unfold ymd2ord, days_before_month. rewrite (days_before_year_cycles y a b c e Hcyc) by lia.
  andb_split. Zbool. do 8 (split; [lia || exact HL|]).
  destruct (Z.ltb_spec (tbl DAYS_BEFORE_MONTH m + (if (m >? 2) && is_leap y then 1 else 0) + d - 1) 365).
  - left. destruct (month_of_day _ _) as [m' d']. andb_split. Zbool. subst. split; [lia | reflexivity].
  - right. andb_split. Zbool. rewrite HL in *. andb_split. Zbool.
    destruct (Z.eqb_spec c 24); destruct (Z.eqb_spec b 3); cbn [negb orb] in *; try discriminate; lia.
Qed.

(** [_ord2ymd] undoes [_ymd2ord] on valid dates. *)
Lemma ymd2ord_ord2ymd (y m d : Z) :
  MINYEAR <= y -> 1 <= m <= 12 -> 1 <= d <= days_in_month y m ->
  ord2ymd (ymd2ord y m d) = (y, m, d).
Proof.
  intros Hy Hm Hd.
  destruct (ymd2ord_cycles y m d Hy Hm Hd) as (a & b & c & e & r & Hy' & Ha & Hb & Hc & He & Hr & -> & HL & Hcase).
  unfold ord2ymd, DI400Y, DI100Y, DI4Y. cbv zeta.
  replace (146097 * a + 36524 * b + 1461 * c + 365 * e + r + 1 - 1)
    with (146097 * a + 36524 * b + 1461 * c + 365 * e + r) by lia.
  name_divmod (146097 * a + 36524 * b + 1461 * c + 365 * e + r) 146097 q1 r1.
  name_divmod r1 36524 q2 r2. name_divmod r2 1461 q3 r3. name_divmod r3 365 q4 r4.
  destruct Hcase as [(Hr' & Emd) | (-> & -> & Hcb & -> & ->)].
  - assert (q1 = a) by lia. subst q1. assert (q2 = b) by lia. subst q2.
    assert (q3 = c) by lia. subst q3. assert (q4 = e /\ r4 = r) as [-> ->] by lia.
    destruct (Z.eqb_spec e 4); [lia|]. destruct (Z.eqb_spec b 4); [lia|]. cbn [orb].
    rewrite <- HL, Emd. f_equal. f_equal. lia.
  - assert (q1 = a) by lia. subst q1.
    destruct (Z.eqb_spec c 24) as [->|Hc24].
    + assert (b = 3) as -> by lia. assert (q2 = 4) as -> by lia.
      cbn [Z.eqb orb Pos.eqb]. rewrite orb_true_r. f_equal. f_equal. lia.
    + assert (q2 = b) by lia. subst q2. assert (q3 = c) by lia. subst q3.
      assert (q4 = 4) as -> by lia. cbn [Z.eqb orb Pos.eqb]. f_equal. f_equal. lia.
Qed.

(** The ordinals of the dates of years 1..9999 are 1..[MAXORDINAL]. *)
Lemma ymd2ord_range (y m d : Z) :
  MINYEAR <= y <= MAXYEAR -> 1 <= m <= 12 -> 1 <= d <= days_in_month y m ->
  1 <= ymd2ord y m d <= MAXORDINAL.
Proof.
  intros Hy Hm Hd.
  destruct (ymd2ord_cycles y m d ltac:(lia) Hm Hd) as (a & b & c & e & r & Hy' & Ha & Hb & Hc & He & Hr & -> & _ & Hcase).
  unfold MAXYEAR, MAXORDINAL in *. destruct Hcase as [(Hr' & _) | (-> & -> & Hcb & _ & _)]; lia.
Qed.

(** The date [fromordinal] builds, with a time of day, is accepted by the
    constructor and its minute count is the one it was built from. *)
Lemma datetime_of_ord (days h mi : Z) :
  1 <= days <= MAXORDINAL -> 0 <= h <= 23 -> 0 <= mi <= 59 ->
  let '(y, mo, d) := ord2ymd days in
  datetime_ok (mk_datetime y mo d h mi) /\
  to_minutes (mk_datetime y mo d h mi) = days * 1440 + h * 60 + mi.
Proof.
  intros Hd Hh Hm. pose proof (ord2ymd_spec days ltac:(lia)) as Hs.
  destruct (ord2ymd days) as [[y mo] d].
  destruct Hs as (Hy1 & Hy2 & Hmo & Hday & Hord).
  unfold datetime_ok, fields, datetime_new, to_minutes, MINYEAR, MAXYEAR in *; cbn [year month day hour minute].
  specialize (Hy2 ltac:(lia)).
  repeat match goal with
         | |- context [(?x <=? ?y)] => destruct (Z.leb_spec x y); try lia
         end; bsimpl; split; [reflexivity | lia].
Qed.

(** [datetime + timedelta(minutes=k)] inside the ordinal range: a valid
    datetime exactly [k] minutes later. *)
Lemma add_minutes_spec (dt : datetime) (k : Z) :
  1 <= (to_minutes dt + k) / 1440 <= MAXORDINAL ->
  exists dt', add_minutes dt k = inr dt' /\ datetime_ok dt' /\ to_minutes dt' = to_minutes dt + k.
Proof.
  intros Hr. unfold add_minutes.
  destruct (Z.ltb_spec 0 ((to_minutes dt + k) / 1440)); [|lia].
  destruct (Z.leb_spec ((to_minutes dt + k) / 1440) MAXORDINAL); [|lia]. bsimpl.
  remember (to_minutes dt + k) as t eqn:Ht.
  pose proof (Z.mod_pos_bound t 1440 ltac:(lia)).
  pose proof (datetime_of_ord (t / 1440) ((t mod 1440) / 60) ((t mod 1440) mod 60) Hr
                ltac:(zlia) ltac:(zlia)) as Hd.
  destruct (ord2ymd (t / 1440)) as [[y mo] d]. destruct Hd as [Hok Hmin].
  eexists; split; [reflexivity|]. split; [exact Hok|]. rewrite Hmin.
  pose proof (Z.div_mod t 1440 ltac:(lia)). pose proof (Z.div_mod (t mod 1440) 60 ltac:(lia)). lia.
Qed.

(** The minute count of the instant [s] seconds after 1970-01-01 00:00. *)
Definition epoch_minutes (s : Z) : Z := EPOCH_ORD * 1440 + s / 60.

(** [datetime] applied to [time.localtime()[0:5]]: the constructor accepts the
    first five fields of [localtime s], and the datetime is the instant
    [s] truncated to the minute. *)
Lemma localtime_datetime (s : Z) :
  1 <= EPOCH_ORD + s / 86400 <= MAXORDINAL ->
  exists dt, datetime_new (firstn 5 (localtime s)) = inr dt /\ datetime_ok dt /\
             to_minutes dt = epoch_minutes s.
Proof.
  intros Hr. unfold localtime, epoch_minutes.
  pose proof (Z.mod_pos_bound s 86400 ltac:(lia)).
  pose proof (datetime_of_ord (EPOCH_ORD + s / 86400) ((s mod 86400) / 3600)
                ((s mod 86400 mod 3600) / 60) Hr
                ltac:(zlia) ltac:(zlia)) as Hd.
  destruct (ord2ymd (EPOCH_ORD + s / 86400)) as [[y mo] d]. destruct Hd as [Hok Hmin].
  exists (mk_datetime y mo d (s mod 86400 / 3600) (s mod 86400 mod 3600 / 60)).
  split; [exact Hok|]. split; [exact Hok|]. rewrite Hmin. unfold EPOCH_ORD in *.
  zlia.
Qed.

(** A datetime the constructor accepts has its fields in range. *)
Lemma datetime_ok_bounds (dt : datetime) : datetime_ok dt ->
  MINYEAR <= year dt <= MAXYEAR /\ 1 <= month dt <= 12 /\
  1 <= day dt <= days_in_month (year dt) (month dt) /\
  0 <= hour dt <= 23 /\ 0 <= minute dt <= 59.
Proof.
  unfold datetime_ok, fields, datetime_new. intros H.
  repeat match type of H with
         | context [if negb ((?a <=? ?b) && (?c <=? ?d)) then _ else _] =>
             destruct (Z.leb_spec a b); destruct (Z.leb_spec c d); bsimpl; try discriminate H
         end.
  lia.
Qed.

(** Valid datetimes are determined by their minute count. *)
Lemma to_minutes_inj (dt dt' : datetime) :
  datetime_ok dt -> datetime_ok dt' -> to_minutes dt = to_minutes dt' -> dt = dt'.
Proof.
  intros Hok Hok' Heq.
  destruct (datetime_ok_bounds dt Hok) as (Hy & Hm & Hd & Hh & Hmi).
  destruct (datetime_ok_bounds dt' Hok') as (Hy' & Hm' & Hd' & Hh' & Hmi').
  unfold to_minutes in Heq.
  assert (Ho : ymd2ord (year dt) (month dt) (day dt) = ymd2ord (year dt') (month dt') (day dt')
               /\ hour dt = hour dt' /\ minute dt = minute dt') by lia.
  destruct Ho as (Ho & Ehr & Emi).
  pose proof (ymd2ord_ord2ymd (year dt) (month dt) (day dt) ltac:(lia) Hm Hd) as E.
  rewrite Ho, (ymd2ord_ord2ymd (year dt') (month dt') (day dt') ltac:(lia) Hm' Hd') in E.
  destruct dt, dt'; cbn in *. injection E as -> -> ->. congruence.
Qed.

(** What an addition that does not raise returns. *)
Lemma add_minutes_inr (dt dt' : datetime) (k : Z) :
  add_minutes dt k = inr dt' -> datetime_ok dt' /\ to_minutes dt' = to_minutes dt + k.
Proof.
  intros H.
  assert (Hr : 1 <= (to_minutes dt + k) / 1440 <= MAXORDINAL).
  { unfold add_minutes in H. cbv zeta in H.
    destruct ((0 <? (to_minutes dt + k) / 1440) && ((to_minutes dt + k) / 1440 <=? MAXORDINAL)) eqn:E;
      [|discriminate H].
    andb_split. Zbool. lia. }
  destruct (add_minutes_spec dt k Hr) as (dt'' & E & Hok & Hm).
  rewrite E in H. injection H as <-. auto.
Qed.

(** What the constructor returns is its arguments, as a valid datetime. *)
Lemma datetime_new_inr (args : list Z) (dt : datetime) :
  datetime_new args = inr dt -> datetime_ok dt /\ fields dt = args.
Proof.
  intros H. destruct args as [|y [|mo [|d [|h [|mi [|]]]]]]; try discriminate H.
  assert (Hf : fields dt = [y; mo; d; h; mi]).
  { unfold datetime_new in H.
    repeat match type of H with context [if ?b then _ else _] => destruct b; try discriminate H end.
    injection H as <-. reflexivity. }
  split; [unfold datetime_ok; now rewrite Hf | exact Hf].
Qed.

Lemma datetime_ok_valid (dt : datetime) : datetime_ok dt -> datetime_valid dt = true.
Proof.
  intros H. destruct (datetime_ok_bounds dt H) as (Hy & Hm & Hd & Hh & Hmi).
  unfold datetime_valid. repeat rewrite andb_true_iff. rewrite !Z.leb_le. lia.
Qed.

(** C28: Validity is the type invariant of the script's datetimes: every
    datetime the constructor returns (line 106) has its fields in the
    documented ranges and carries its arguments, and every datetime a
    [timedelta] addition returns (lines 107-108), from any datetime,
    has its fields in range again. *)
Theorem datetime_valid_closed (args : list Z) (dt dt' : datetime) (k : Z) :
  (datetime_new args = inr dt -> datetime_valid dt = true /\ fields dt = args) /\
  (add_minutes dt k = inr dt' -> datetime_valid dt' = true).
Proof.
  split.
  - intros H. destruct (datetime_new_inr args dt H) as [Hok Hf]. split; [apply datetime_ok_valid, Hok | exact Hf].
  - intros H. apply datetime_ok_valid. exact (proj1 (add_minutes_inr dt dt' k H)).
Qed.

(** C27: Adding [k] minutes and then [-k] minutes gives the datetime back:
    when [dt + timedelta(minutes=k)] does not raise, subtracting the
    same delta from the result does not raise either and returns [dt]. *)
Theorem add_minutes_inverse (dt dt' : datetime) (k : Z) :
  datetime_ok dt -> add_minutes dt k = inr dt' -> add_minutes dt' (- k) = inr dt.
Proof.
  intros Hok H. destruct (add_minutes_inr dt dt' k H) as [Hok' Hm'].
  destruct (datetime_ok_bounds dt Hok) as (Hy & Hmo & Hd & Hh & Hmi).
  pose proof (ymd2ord_range (year dt) (month dt) (day dt) Hy Hmo Hd) as Hr.
  assert (Hq : (to_minutes dt' + - k) / 1440 = ymd2ord (year dt) (month dt) (day dt)).
  { rewrite Hm'. unfold to_minutes. zlia. }
  destruct (add_minutes_spec dt' (- k) ltac:(rewrite Hq; exact Hr)) as (dt'' & E & Hok'' & Hm'').
  rewrite E. f_equal. apply to_minutes_inj; [exact Hok'' | exact Hok | lia].
Qed.

(** [_ord2ymd] and [_ymd2ord] are inverse bijections between the
    ordinals from 1 on and the valid dates: [ord2ymd n] is the date
    [(y, m, d)] exactly when that date's ordinal is [n]. *)
Lemma ord2ymd_iff (n y m d : Z) :
  1 <= n -> MINYEAR <= y -> 1 <= m <= 12 -> 1 <= d <= days_in_month y m ->
  ord2ymd n = (y, m, d) <-> ymd2ord y m d = n.
Proof.
  intros Hn Hy Hm Hd. split.
  - intros E. pose proof (ord2ymd_spec n Hn) as Hs. rewrite E in Hs. tauto.
  - intros <-. exact (ymd2ord_ord2ymd y m d Hy Hm Hd).
Qed.

(** C26: [toordinal] and [fromordinal] are inverse on the datetimes the
    constructor accepts: the day count [datetime + timedelta] computes
    for a valid datetime is an ordinal in range, and [_ord2ymd] maps it
    back to the datetime's own date. *)
Theorem datetime_ordinal_roundtrip (dt : datetime) :
  datetime_ok dt ->
  1 <= to_minutes dt / 1440 <= MAXORDINAL /\
  ord2ymd (to_minutes dt / 1440) = (year dt, month dt, day dt).
Proof.
  intros Hok. destruct (datetime_ok_bounds dt Hok) as (Hy & Hm & Hd & Hh & Hmi).
  assert (Hq : to_minutes dt / 1440 = ymd2ord (year dt) (month dt) (day dt))
    by (unfold to_minutes; zlia).
  rewrite Hq. split; [exact (ymd2ord_range _ _ _ Hy Hm Hd)|].
  apply ymd2ord_ord2ymd; [lia | exact Hm | exact Hd].
Qed.

(** ** Witnesses *)

Lemma ord2ymd_spec_witness :
  let '(y, m, d) := ord2ymd 738900 in
  MINYEAR <= y /\ (738900 <= MAXORDINAL -> y <= MAXYEAR) /\
  1 <= m <= 12 /\ 1 <= d <= days_in_month y m /\ ymd2ord y m d = 738900.
Proof. exact (ord2ymd_spec 738900 ltac:(lia)). Defined.

Lemma add_minutes_spec_witness :
  exists dt', add_minutes (mk_datetime 2024 12 31 23 47) 60 = inr dt' /\ datetime_ok dt' /\
              to_minutes dt' = to_minutes (mk_datetime 2024 12 31 23 47) + 60.
Proof. apply add_minutes_spec. decide_Z. Defined.

Lemma localtime_datetime_witness :
  exists dt, datetime_new (firstn 5 (localtime 1705315620)) = inr dt /\ datetime_ok dt /\
             to_minutes dt = epoch_minutes 1705315620.
Proof. apply localtime_datetime. decide_Z. Defined.

Lemma add_minutes_inverse_witness :
  datetime_ok (mk_datetime 2024 2 29 23 47) /\
  add_minutes (mk_datetime 2024 2 29 23 47) 60 = inr (mk_datetime 2024 3 1 0 47) /\
  add_minutes (mk_datetime 2024 3 1 0 47) (- 60) = inr (mk_datetime 2024 2 29 23 47).
Proof.
  assert (Hok : datetime_ok (mk_datetime 2024 2 29 23 47)) by (vm_compute; reflexivity).
  assert (Hadd : add_minutes (mk_datetime 2024 2 29 23 47) 60 = inr (mk_datetime 2024 3 1 0 47))
    by (vm_compute; reflexivity).
  split; [exact Hok|]. split; [exact Hadd|].
  exact (add_minutes_inverse _ _ 60 Hok Hadd).
Defined.

Lemma datetime_ordinal_roundtrip_witness :
  datetime_ok (mk_datetime 2024 2 29 23 47) /\
  1 <= to_minutes (mk_datetime 2024 2 29 23 47) / 1440 <= MAXORDINAL /\
  ord2ymd (to_minutes (mk_datetime 2024 2 29 23 47) / 1440) = (2024, 2, 29).
Proof.
  assert (Hok : datetime_ok (mk_datetime 2024 2 29 23 47)) by (vm_compute; reflexivity).
  split; [exact Hok | exact (datetime_ordinal_roundtrip _ Hok)].
Defined.

Lemma datetime_valid_closed_witness :
  let dt := mk_datetime 2024 12 31 23 30 in
  let dt' := mk_datetime 2025 1 1 0 30 in
  datetime_new [2024; 12; 31; 23; 30] = inr dt /\ add_minutes dt 60 = inr dt' /\
  datetime_valid dt = true /\ datetime_valid dt' = true.
Proof.
  cbv zeta.
  assert (H1 : datetime_new [2024; 12; 31; 23; 30] = inr (mk_datetime 2024 12 31 23 30)) by reflexivity.
  assert (H2 : add_minutes (mk_datetime 2024 12 31 23 30) 60 = inr (mk_datetime 2025 1 1 0 30))
    by (vm_compute; reflexivity).
  destruct (datetime_valid_closed [2024; 12; 31; 23; 30] (mk_datetime 2024 12 31 23 30)
              (mk_datetime 2025 1 1 0 30) 60) as [Ha Hb].
  split; [exact H1|]. split; [exact H2|]. split; [exact (proj1 (Ha H1)) | exact (Hb H2)].
Defined.
