(* ===== verification/Ntp.v ===== *)
(** * Clock synchronisation: [ntptime.settime()]

    Line 58 of the script calls [ntptime.settime()] of micropython-lib
    ([micropython/net/ntptime/ntptime.py]), which is not in the
    repository and is modelled here from that module:

    - [time()] sends the 48-byte query (first byte [0x1B]: version 3,
      client mode) to the server, receives at most 48 bytes
      ([s.recv(48)]), reads the transmit timestamp's seconds, bytes 40
      to 43, as a big-endian unsigned 32-bit integer
      ([struct.unpack("!I", msg[40:44])]), takes a value below
      [MIN_NTP_TIMESTAMP] (2024-01-01) to have wrapped around the 32-bit
      era (adds [2^32]), and subtracts [NTP_DELTA], the seconds from
      1900 to the port's epoch (1970 here, [gmtime(0)[0]]);
    - [settime()] converts the instant with [gmtime] and sets the RTC
      to [(year, month, mday, weekday + 1, hour, minute, second, 0)].

    The socket's outcome (an exception of [getaddrinfo], [sendto] or
    [recv], such as a timeout, or the datagram received) is the
    environment's answer.  A datagram shorter than 44 bytes makes
    [struct.unpack] raise [ValueError].

    The server side is the NTP packet format (RFC 5905): the transmit
    timestamp's seconds since 1900, modulo [2^32], big-endian at offset
    40 ([ntp_reply]).  Theorems: the 4-byte round trip of the encoding,
    the era round trip (every instant of the 136 years from 2024 on is
    read back exactly, across the 2036 wrap-around), and the bounds of
    the instant [time()] returns. *)

From Stdlib Require Import ZArith List String Bool Lia.
From Stdlib Require Import Strings.Byte.
From S2P Require Import Prelude PyValue Calendar.
Import ListNotations.
Open Scope Z_scope.

(** ** Bytes *)

(** A byte's value, [0 <= v < 256]. *)
Definition byte_val (b : byte) : Z := Z.of_N (Byte.to_N b).

(** The byte of [z mod 256]: what a server writes, [(z >> 8k) & 0xFF]. *)
Definition byte_of_Z (z : Z) : byte :=
  match Byte.of_N (Z.to_N (z mod 256)) with Some b => b | None => x00 end.

(** Big-endian bytes to an unsigned integer: each byte shifts the value
    so far eight bits up and is or-ed in. *)
Fixpoint be_acc (acc : Z) (l : list byte) : Z :=
  match l with
  | [] => acc
  | b :: r => be_acc (Z.lor (Z.shiftl acc 8) (byte_val b)) r
  end.

Definition be_combine (l : list byte) : Z := be_acc 0 l.

(** [struct.unpack("!I", buf)[0]]: four bytes, big-endian, unsigned;
    a shorter buffer raises [ValueError]. *)
Definition unpack_I_be (buf : list byte) : exc + Z :=
  if (List.length buf <? 4)%nat then inl (ValueError "buffer too small")
  else inr (be_combine (firstn 4 buf)).

(** [msg[i:j]] on a list, for [0 <= i <= j]: the indices clipped to its
    length. *)
Definition py_slice {A : Type} (l : list A) (i j : nat) : list A :=
  firstn (j - i) (skipn i l).

(** The 32-bit big-endian encoding of [v mod 2^32]. *)
Definition be_split4 (v : Z) : list byte :=
  [byte_of_Z (Z.shiftr v 24); byte_of_Z (Z.shiftr v 16); byte_of_Z (Z.shiftr v 8); byte_of_Z v].

(** ** [ntptime] *)

(** 2024-01-01 00:00:00 in seconds from the NTP epoch (1900). *)
Definition MIN_NTP_TIMESTAMP : Z := 3913056000.

(** [utime.gmtime(0)[0]]: the year of the port's epoch. *)
Definition EPOCH_YEAR : Z := hd 0 (localtime 0).

(** [ntptime.time()]: the server's instant in seconds since the epoch,
    from the outcome of the socket exchange. *)
Definition ntp_time (reply : exc + list byte) : exc + Z :=
  msg <-? (match reply with inl e => inl e | inr d => inr (firstn 48 d) end) ;;
  val <-? unpack_I_be (py_slice msg 40 44) ;;
  let val := if val <? MIN_NTP_TIMESTAMP then val + 4294967296 else val in
  NTP_DELTA <-? (if EPOCH_YEAR =? 2000 then inr 3155673600
                 else if EPOCH_YEAR =? 1970 then inr 2208988800
                 else inl (Exception "Unsupported epoch")) ;;
  inr (val - NTP_DELTA).

(** The tuple [settime] passes to [machine.RTC().datetime]. *)
Definition rtc_tuple (tm : list Z) : list Z :=
  [nth 0 tm 0; nth 1 tm 0; nth 2 tm 0; nth 6 tm 0 + 1; nth 3 tm 0; nth 4 tm 0; nth 5 tm 0; 0].

(** [ntptime.settime()]: the RTC setting, or the exception raised. *)
Definition settime (reply : exc + list byte) : exc + list Z :=
  t <-? ntp_time reply ;;
  inr (rtc_tuple (localtime t)).

(** ** The server side *)

(** An NTP reply whose transmit timestamp is the instant [t] (seconds
    since 1970): 40 bytes [pre], the seconds since 1900 modulo [2^32],
    then [post]. *)
Definition ntp_reply (pre : list byte) (t : Z) (post : list byte) : list byte :=
  pre ++ be_split4 (t + 2208988800) ++ post.

(** ** Lemmas *)

Lemma byte_val_bounds (b : byte) : 0 <= byte_val b < 256.
Proof. unfold byte_val. pose proof (Byte.to_N_bounded b). lia. Qed.

Lemma byte_val_of_Z (z : Z) : byte_val (byte_of_Z z) = z mod 256.
Proof.
  unfold byte_of_Z, byte_val. pose proof (Z.mod_pos_bound z 256 ltac:(lia)) as Hb.
  pose proof (Byte.to_of_N_option_map (Z.to_N (z mod 256))) as H.
  destruct (Byte.of_N (Z.to_N (z mod 256))) as [b|]; cbn in H.
  - destruct (N.leb_spec (Z.to_N (z mod 256)) 255); [|lia]. injection H as ->. lia.
  - destruct (N.leb_spec (Z.to_N (z mod 256)) 255); [discriminate|lia].
Qed.

Lemma lor_shiftl_byte (a v : Z) : 0 <= v < 256 -> Z.lor (Z.shiftl a 8) v = a * 256 + v.
Proof.
  intros Hv. rewrite <- Z.lxor_lor, <- Z.add_nocarry_lxor; [rewrite Z.shiftl_mul_pow2 by lia; reflexivity| |];
  apply Z.bits_inj'; intros i Hi; rewrite Z.land_spec, Z.testbit_0_l, Z.shiftl_spec by lia;
  (destruct (Z.ltb_spec i 8);
   [rewrite Z.testbit_neg_r by lia; reflexivity
   |rewrite <- (Z.mod_small v (2 ^ 8)) by (cbn; lia); rewrite Z.mod_pow2_bits_high by lia; apply andb_false_r]).
Qed.

Lemma be_combine4 (b0 b1 b2 b3 : byte) :
  be_combine [b0; b1; b2; b3] = ((byte_val b0 * 256 + byte_val b1) * 256 + byte_val b2) * 256 + byte_val b3.
Proof.
  unfold be_combine. cbn [be_acc].
  rewrite !lor_shiftl_byte by apply byte_val_bounds. lia.
Qed.

Lemma mod_mul_split (a b c : Z) : 0 < b -> 0 < c -> a mod (b * c) = a mod b + b * ((a / b) mod c).
Proof.
  intros Hb Hc. rewrite !Z.mod_eq by lia. rewrite <- Z.div_div by lia. ring.
Qed.

Lemma be_combine_split4 (v : Z) : be_combine (be_split4 v) = v mod 2 ^ 32.
Proof.
  unfold be_split4. rewrite be_combine4, !byte_val_of_Z, !Z.shiftr_div_pow2 by lia.
  change (2 ^ 24) with 16777216. change (2 ^ 16) with 65536. change (2 ^ 8) with 256.
  change (2 ^ 32) with (256 * (256 * (256 * 256))).
  rewrite !mod_mul_split by lia. rewrite !Z.div_div by lia.
  change (256 * 256 * 256) with 16777216. change (256 * 256) with 65536. lia.
Qed.

Lemma EPOCH_YEAR_1970 : EPOCH_YEAR = 1970.
Proof. vm_compute. reflexivity. Qed.

Lemma unpack_I_be_bounds (buf : list byte) (v : Z) : unpack_I_be buf = inr v -> 0 <= v < 2 ^ 32.
Proof.
  unfold unpack_I_be. intros H.
  destruct buf as [|b0 [|b1 [|b2 [|b3 r]]]]; try discriminate H.
  cbn [List.length firstn Nat.ltb Nat.leb] in H. injection H as <-.
  rewrite be_combine4. pose proof (byte_val_bounds b0). pose proof (byte_val_bounds b1).
  pose proof (byte_val_bounds b2). pose proof (byte_val_bounds b3). cbn. lia.
Qed.

Lemma length_be_split4 (v : Z) : List.length (be_split4 v) = 4%nat.
Proof. reflexivity. Qed.

(** The timestamp field of a reply: bytes 40 to 43 of what [recv(48)]
    keeps. *)
Lemma slice_reply (pre s post : list byte) :
  List.length pre = 40%nat -> List.length s = 4%nat -> py_slice (firstn 48 (pre ++ s ++ post)) 40 44 = s.
Proof.
  intros Hp Hs. unfold py_slice. rewrite firstn_app, (firstn_all2 pre) by lia.
  rewrite skipn_app, (skipn_all2 pre) by lia. rewrite Hp, Nat.sub_diag. cbn [app skipn].
  rewrite firstn_firstn, firstn_app, Hs. replace (Nat.min (44 - 40) (48 - 40)) with 4%nat by reflexivity.
  rewrite (firstn_all2 s) by lia. replace (4 - 4)%nat with 0%nat by reflexivity. apply app_nil_r.
Qed.

(** The era correction: a 32-bit value read as the instant of the 136
    years from [MIN_NTP_TIMESTAMP] on that it denotes. *)
Lemma era_correct (x : Z) :
  MIN_NTP_TIMESTAMP <= x < MIN_NTP_TIMESTAMP + 2 ^ 32 ->
  (if x mod 2 ^ 32 <? MIN_NTP_TIMESTAMP then x mod 2 ^ 32 + 4294967296 else x mod 2 ^ 32) = x.
Proof.
  unfold MIN_NTP_TIMESTAMP. intros Hx. destruct (Z.ltb_spec x (2 ^ 32)).
  - rewrite Z.mod_small by lia. destruct (Z.ltb_spec x 3913056000); lia.
  - replace (x mod 2 ^ 32) with (x - 2 ^ 32) by (apply Z.mod_unique with 1; lia).
    destruct (Z.ltb_spec (x - 2 ^ 32) 3913056000); lia.
Qed.

(** The era round trip: for every instant [t] from 2024-01-01 on,
    for the [2^32] seconds (136 years) after it, a reply whose transmit
    timestamp is [t] (its seconds since 1900 modulo [2^32], big-endian
    at offset 40, after any 40 bytes and followed by anything) is read
    back by [ntptime.time()] as exactly [t]: the 32-bit wrap-around of
    2036 is undone. *)
Lemma ntp_time_era (pre post : list byte) (t : Z) :
  List.length pre = 40%nat -> 1704067200 <= t < 1704067200 + 2 ^ 32 ->
  ntp_time (inr (ntp_reply pre t post)) = inr t.
Proof.
  intros Hp Ht. unfold ntp_time, ntp_reply. cbv beta iota.
  rewrite slice_reply by (exact Hp || reflexivity).
  unfold unpack_I_be. rewrite length_be_split4. cbv beta iota.
  rewrite (firstn_all2 (be_split4 _)) by (rewrite length_be_split4; lia).
  rewrite be_combine_split4, EPOCH_YEAR_1970.
  change ((4 <? 4)%nat) with false. change (1970 =? 2000) with false. change (1970 =? 1970) with true.
  cbv beta iota zeta. rewrite era_correct by (unfold MIN_NTP_TIMESTAMP; lia). cbn -[Z.sub Z.add]. f_equal. lia.
Qed.

Lemma ntp_time_bounds (r : exc + list byte) (t : Z) :
  ntp_time r = inr t -> 1704067200 <= t < 1704067200 + 2 ^ 32.
Proof.
  unfold ntp_time. intros H. destruct r as [e|d]; [discriminate H|]. cbv beta iota in H.
  destruct (unpack_I_be (py_slice (firstn 48 d) 40 44)) as [e|v] eqn:E; [discriminate H|].
  apply unpack_I_be_bounds in E. rewrite EPOCH_YEAR_1970 in H. cbv beta iota zeta in H.
  cbn -[Z.sub Z.add Z.ltb] in H. unfold MIN_NTP_TIMESTAMP in H.
  destruct (Z.ltb_spec v 3913056000); injection H as <-; lia.
Qed.

(** A datagram shorter than 44 bytes makes [struct.unpack] raise. *)
Lemma ntp_time_short (d : list byte) :
  (List.length d < 44)%nat -> ntp_time (inr d) = inl (ValueError "buffer too small").
Proof.
  intros Hd. unfold ntp_time. cbv beta iota. unfold unpack_I_be, py_slice.
  rewrite !length_firstn, length_skipn, length_firstn.
  destruct (Nat.ltb_spec (Nat.min (44 - 40) (Nat.min 48 (List.length d) - 40)) 4); [reflexivity|lia].
Qed.

Lemma localtime_shape (s : Z) :
  exists y mo d, ord2ymd (EPOCH_ORD + s / 86400) = (y, mo, d) /\
    localtime s = [y; mo; d; s mod 86400 / 3600; s mod 86400 mod 3600 / 60; s mod 86400 mod 60;
                   (EPOCH_ORD + s / 86400 + 6) mod 7; days_before_month y mo + d].
Proof. unfold localtime. destruct (ord2ymd (EPOCH_ORD + s / 86400)) as [[y mo] d]. eauto. Qed.

(** What [ntptime.settime()] sets: when it does not raise, the
    instant [t] it read lies in the [2^32] seconds from 2024-01-01, and
    the RTC receives a valid datetime at [t] truncated to the minute
    ([datetime_ok], [to_minutes] is [t]'s minute count), the weekday
    [1..7] of that date, and the seconds [t mod 60]. *)
Lemma settime_rtc (r : exc + list byte) (rtc : list Z) :
  settime r = inr rtc ->
  exists t dt, ntp_time r = inr t /\ 1704067200 <= t < 1704067200 + 2 ^ 32 /\
    datetime_ok dt /\ to_minutes dt = epoch_minutes t /\
    rtc = [year dt; month dt; day dt; (EPOCH_ORD + t / 86400 + 6) mod 7 + 1;
           hour dt; minute dt; t mod 60; 0].
Proof.
  unfold settime. intros H. destruct (ntp_time r) as [e|t] eqn:Et; [discriminate H|].
  injection H as <-. pose proof (ntp_time_bounds r t Et) as Hb.
  destruct (localtime_datetime t ltac:(unfold EPOCH_ORD, MAXORDINAL; zlia)) as (dt & Hnew & Hok & Hmin).
  destruct (datetime_new_inr _ _ Hnew) as [_ Hf].
  destruct (localtime_shape t) as (y & mo & d & _ & Hl). rewrite Hl in Hf |- *.
  unfold fields in Hf. cbn in Hf. injection Hf as Hy Hmo Hd Hh Hmi.
  exists t, dt. repeat split; auto; try lia.
  unfold rtc_tuple. cbn [nth]. rewrite Hy, Hmo, Hd, Hh, Hmi.
  replace (t mod 86400 mod 60) with (t mod 60) by (symmetry; apply Z.mod_mod_divide; exists 1440; reflexivity).
  reflexivity.
Qed.

(** A reply carrying 2024-01-15 10:47:00 UTC. *)
Definition sample_reply : list byte := ntp_reply (repeat x00 40) 1705315620 (repeat x00 4).
