(* ===== verification/Effects.v ===== *)
(** * The world the script runs in, and the monad of its statements

    The script talks to four external collaborators: the clock
    ([time.time], [time.localtime], [time.sleep], set by
    [ntptime.settime()]), the Wi-Fi interface ([network.WLAN]), the
    HTTP client ([requests.get] and [Response.json]) and the display
    ([PicoGraphics], [PicoVector], [Presto.update]).  They are modelled
    as an environment of oracles ([env]: the successive clock readings,
    the successive answers of [wlan.isconnected()], the NTP exchange,
    the server's answer to each URL) and a record of
    what has been consumed and done ([world]: how many readings were
    taken, and the trace of observable events, newest first).

    A statement of the script is a computation of [M A]: it runs on a
    world and returns a value or a raised exception, with the world it
    leaves.  A raised exception keeps the events that happened before
    it, as the program's output does.  Two closure properties are
    proved compositionally, with their hint databases and tactics:
    [quiet] statements send no request and read no clock ([quiet_tac]),
    and every statement only appends to the trace ([grows_tac]).

    The server's answer is held decoded ([response]); [decode_body] and
    [text_server] relate it to a server that sends text, through the
    [json_loads] of [Json]. *)

From Stdlib Require Import ZArith List String Ascii Bool Lia.
From Stdlib Require Import Strings.Byte.
From S2P Require Import Prelude PyValue Json Calendar Ntp.
Import ListNotations.
Open Scope Z_scope.

(** ** Display operations *)

(** A pen: the colour [display.create_pen(r, g, b)] was given. *)
Record pen := mk_pen { pen_r : Z; pen_g : Z; pen_b : Z }.

(** The anti-aliasing levels of [picovector]. *)
Inductive antialias : Type := ANTIALIAS_NONE | ANTIALIAS_FAST | ANTIALIAS_BEST.

Inductive draw_op : Type :=
| SetPen (p : pen)                        (* display.set_pen *)
| Clear                                   (* display.clear *)
| DText (s : string) (x y wrap scale : Z) (* display.text *)
| VSetAntialiasing (level : antialias)    (* vector.set_antialiasing *)
| VSetFont (name : string) (size : Z)     (* vector.set_font *)
| VSetLetterSpacing (n : Z)               (* vector.set_font_letter_spacing *)
| VSetWordSpacing (n : Z)                 (* vector.set_font_word_spacing *)
| VSetTransform                           (* vector.set_transform *)
| VSetFontSize (n : Z)                    (* vector.set_font_size *)
| VCircle (x y r : Z)                     (* v.circle(...); vector.draw(v) *)
| VText (s : string) (x y : Z).           (* vector.text *)

(** ** Observable events *)

Inductive event : Type :=
| EvPrint (s : string)
| EvClock (t : Z)                     (* a reading of the clock *)
| EvWlanActive (on : bool)
| EvWlanConnect (ssid password : string)
| EvPoll (connected : bool)           (* an answer of wlan.isconnected() *)
| EvSleep (secs : Z)
| EvNtpSetTime (rtc : list Z)        (* machine.RTC().datetime(rtc) *)
| EvHttpGet (url : string)
| EvDraw (op : draw_op)
| EvUpdate.                           (* presto.update(display) *)

(** The body of an HTTP response: JSON that [json()] decodes, or text on
    which it raises [ValueError]. *)
Inductive response : Type :=
| RespJson (v : pyval)
| RespMalformed.

(** [request.json()] (line 116) on a body of text: [json.loads] of it,
    or the [ValueError] it raises. *)
Definition decode_body (body : string) : response :=
  match json_loads body with
  | Some v => RespJson v
  | None => RespMalformed
  end.

(** [requests.get(url)] (line 115) from a server answering each URL with
    a transport error or a body of text, seen through [json()]. *)
Definition text_server (answer : string -> exc + string) (url : string) : exc + response :=
  match answer url with
  | inl e => inl e
  | inr body => inr (decode_body body)
  end.

(** ** The environment and the world *)

Record env := mk_env {
  e_clock : nat -> Z;                    (* the k-th clock reading, in seconds since 1970 *)
  e_link : nat -> bool;                  (* the k-th answer of wlan.isconnected() *)
  e_ip : string;                         (* wlan.ipconfig('addr4')[0] *)
  e_ntp : exc + list byte;               (* the NTP exchange: a socket error or the datagram *)
  e_bounds : Z * Z;                      (* display.get_bounds() *)
  e_float_str : Z -> Z -> string;        (* the runtime's str() of the float m * 10^e *)
  e_server : string -> exc + response }. (* the answer to a GET, or a transport error *)

Record world := mk_world {
  w_env : env;
  w_tick : nat;            (* clock readings taken *)
  w_polls : nat;           (* link-status polls taken *)
  w_trace : list event }.  (* events, newest first *)

Definition record_event (ev : event) (w : world) : world :=
  mk_world (w_env w) (w_tick w) (w_polls w) (ev :: w_trace w).

(** ** The monad *)

Definition M (A : Type) : Type := world -> (exc + A) * world.

Definition ret {A} (a : A) : M A := fun w => (inr a, w).

Definition bind {A B} (m : M A) (k : A -> M B) : M B :=
  fun w => match m w with
           | (inl e, w') => (inl e, w')
           | (inr a, w') => k a w'
           end.

Definition raise {A} (e : exc) : M A := fun w => (inl e, w).

(** A pure computation that may raise, as a statement. *)
Definition lift {A} (r : exc + A) : M A := fun w => (r, w).

(** [try: m except <class>: h]: [catches e] is the [isinstance] test of
    the handler's class. *)
Definition try_except {A} (m : M A) (catches : exc -> bool) (h : exc -> M A) : M A :=
  fun w => match m w with
           | (inl e, w') => if catches e then h e w' else (inl e, w')
           | r => r
           end.

Declare Scope io_scope.
Delimit Scope io_scope with io.
Notation "x <- m ;; k" := (bind m (fun x => k))
  (at level 61, m at next level, right associativity) : io_scope.
Notation "' pat <- m ;; k" := (bind m (fun x => match x with pat => k end))
  (at level 61, pat pattern, m at next level, right associativity) : io_scope.
Notation "m ;; k" := (bind m (fun _ => k))
  (at level 61, right associativity) : io_scope.
Open Scope io_scope.

(** ** Primitive statements *)

Definition emit (ev : event) : M unit := fun w => (inr tt, record_event ev w).

Definition print (s : string) : M unit := emit (EvPrint s).

(** [time.time()]: the next clock reading. *)
Definition time_time : M Z :=
  fun w => let t := e_clock (w_env w) (w_tick w) in
           (inr t, mk_world (w_env w) (S (w_tick w)) (w_polls w) (EvClock t :: w_trace w)).

(** [time.localtime()]: the calendar fields of the next clock reading. *)
Definition time_localtime : M (list Z) := t <- time_time ;; ret (localtime t).

Definition time_sleep (secs : Z) : M unit := emit (EvSleep secs).

(** [wlan.isconnected()]: the next answer of the link. *)
Definition wlan_isconnected : M bool :=
  fun w => let b := e_link (w_env w) (w_polls w) in
           (inr b, mk_world (w_env w) (w_tick w) (S (w_polls w)) (EvPoll b :: w_trace w)).

(** [requests.get(url)]: the GET is an event; a transport failure raises. *)
Definition requests_get (url : string) : M response :=
  emit (EvHttpGet url) ;; (fun w => (e_server (w_env w) url, w)).

(** [request.json()]. *)
Definition response_json (r : response) : M pyval :=
  match r with
  | RespJson v => ret v
  | RespMalformed => raise (ValueError "syntax error in JSON")
  end.

(** [wlan.ipconfig('addr4')[0]]. *)
Definition wlan_ip : M string := fun w => (inr (e_ip (w_env w)), w).

(** [ntptime.settime()]: sets the RTC from the server's answer, or
    raises (a socket error, or [ValueError] on a short datagram). *)
Definition ntp_settime : M unit :=
  fun w => match settime (e_ntp (w_env w)) with
           | inl e => (inl e, w)
           | inr rtc => (inr tt, record_event (EvNtpSetTime rtc) w)
           end.

(** [display.get_bounds()]. *)
Definition display_get_bounds : M (Z * Z) := fun w => (inr (e_bounds (w_env w)), w).

Definition draw (op : draw_op) : M unit := emit (EvDraw op).

Definition presto_update : M unit := emit EvUpdate.

(** ** Laws and running lemmas *)

(** The JSON text of a value decodes to it. *)
Lemma decode_print (v : pyval) : decode_body (print_json v) = RespJson v.
Proof. unfold decode_body. now rewrite json_loads_print. Qed.

(** C12: [request.json()] on the JSON text of any value returns that value
    (null, booleans, integers, decimal floats, strings of any
    characters, nested arrays and objects) and leaves the world alone,
    also when whitespace surrounds the text (a trailing newline, say):
    [json.loads] inverts the serialisation, and the fuel it is given
    (one more than the length of the text) is always enough. *)
Theorem json_roundtrip (v : pyval) (pre post : string) (w : world) :
  all_ws pre = true -> all_ws post = true ->
  response_json (decode_body (pre ++ print_json v ++ post)) w = (inr v, w).
Proof. intros Hpre Hpost. unfold decode_body. now rewrite json_loads_print_ws. Qed.

Lemma bind_ret_l {A B} (a : A) (k : A -> M B) : bind (ret a) k = k a.
Proof. reflexivity. Qed.

Lemma bind_assoc {A B C} (m : M A) (k : A -> M B) (k' : B -> M C) (w : world) :
  bind (bind m k) k' w = bind m (fun a => bind (k a) k') w.
Proof. unfold bind. destruct (m w) as [[e|a] w']; reflexivity. Qed.

Lemma bind_inr {A B} (m : M A) (k : A -> M B) (w w' : world) (a : A) :
  m w = (inr a, w') -> bind m k w = k a w'.
Proof. intros H. unfold bind. now rewrite H. Qed.

Lemma bind_inl {A B} (m : M A) (k : A -> M B) (w w' : world) (e : exc) :
  m w = (inl e, w') -> bind m k w = (inl e, w').
Proof. intros H. unfold bind. now rewrite H. Qed.

Lemma try_except_inr {A} (m : M A) c h (w w' : world) (a : A) :
  m w = (inr a, w') -> try_except m c h w = (inr a, w').
Proof. intros H. unfold try_except. now rewrite H. Qed.

Lemma try_except_caught {A} (m : M A) c h (w w' : world) (e : exc) :
  m w = (inl e, w') -> c e = true -> try_except m c h w = h e w'.
Proof. intros H Hc. unfold try_except. now rewrite H, Hc. Qed.

Lemma try_except_uncaught {A} (m : M A) c h (w w' : world) (e : exc) :
  m w = (inl e, w') -> c e = false -> try_except m c h w = (inl e, w').
Proof. intros H Hc. unfold try_except. now rewrite H, Hc. Qed.

#[export] Hint Rewrite @bind_ret_l : presto_rw.

(** ** Statements that neither read the clock nor send a request *)

Definition is_get (ev : event) : bool :=
  match ev with EvHttpGet _ => true | _ => false end.

(** [quiet m]: whatever the world, [m] only appends events that are not
    GETs, and leaves the environment and the clock readings alone. *)
Definition quiet {A} (m : M A) : Prop :=
  forall w, exists l,
    w_trace (snd (m w)) = l ++ w_trace w /\ forallb (fun ev => negb (is_get ev)) l = true /\
    w_env (snd (m w)) = w_env w /\ w_tick (snd (m w)) = w_tick w.

Lemma quiet_ret {A} (a : A) : quiet (ret a).
Proof. intros w. exists []. auto. Qed.

Lemma quiet_raise {A} (e : exc) : quiet (@raise A e).
Proof. intros w. exists []. auto. Qed.

Lemma quiet_emit (ev : event) : is_get ev = false -> quiet (emit ev).
Proof. intros H w. exists [ev]. cbn. rewrite H. auto. Qed.

Lemma quiet_bind {A B} (m : M A) (k : A -> M B) :
  quiet m -> (forall a, quiet (k a)) -> quiet (bind m k).
Proof.
  intros Hm Hk w. unfold bind. destruct (Hm w) as (l1 & Ht1 & Hg1 & He1 & Hk1).
  destruct (m w) as [[e|a] w1]; cbn in *.
  - exists l1. auto.
  - destruct (Hk a w1) as (l2 & Ht2 & Hg2 & He2 & Hk2).
    exists (l2 ++ l1). rewrite Ht2, Ht1, forallb_app, Hg1, Hg2, app_assoc.
    repeat split; congruence.
Qed.

Lemma quiet_try_except {A} (m : M A) c (h : exc -> M A) :
  quiet m -> (forall e, quiet (h e)) -> quiet (try_except m c h).
Proof.
  intros Hm Hh w. unfold try_except. destruct (Hm w) as (l1 & Ht1 & Hg1 & He1 & Hk1).
  destruct (m w) as [[e|a] w1]; cbn in *.
  - destruct (c e).
    + destruct (Hh e w1) as (l2 & Ht2 & Hg2 & He2 & Hk2).
      exists (l2 ++ l1). rewrite Ht2, Ht1, forallb_app, Hg1, Hg2, app_assoc.
      repeat split; congruence.
    + exists l1. auto.
  - exists l1. auto.
Qed.

Lemma quiet_wlan_isconnected : quiet wlan_isconnected.
Proof. intros w. exists [EvPoll (e_link (w_env w) (w_polls w))]. auto. Qed.

Lemma quiet_wlan_ip : quiet wlan_ip.
Proof. intros w. exists []. auto. Qed.

Lemma quiet_ntp_settime : quiet ntp_settime.
Proof.
  intros w. unfold ntp_settime. destruct (settime (e_ntp (w_env w))) as [e|rtc].
  - exists []. auto.
  - exists [EvNtpSetTime rtc]. auto.
Qed.

Lemma quiet_display_get_bounds : quiet display_get_bounds.
Proof. intros w. exists []. auto. Qed.

Create HintDb quiet discriminated.
#[export] Hint Resolve quiet_ret quiet_raise quiet_wlan_isconnected quiet_wlan_ip
  quiet_ntp_settime quiet_display_get_bounds : quiet.

(** [quiet_tac]: decompose a statement built from quiet pieces. *)
Ltac quiet_tac :=
  repeat first
    [ progress intros
    | apply quiet_bind
    | apply quiet_try_except
    | apply quiet_emit; reflexivity
    | solve [eauto with quiet]
    | match goal with
      | |- quiet (match ?x with _ => _ end) => destruct x
      | |- quiet (if ?b then _ else _) => destruct b
      | |- quiet (draw _) => apply quiet_emit; reflexivity
      | |- quiet (print _) => apply quiet_emit; reflexivity
      | |- quiet (time_sleep _) => apply quiet_emit; reflexivity
      | |- quiet presto_update => apply quiet_emit; reflexivity
      end ].

(** ** Statements only append to the trace *)

(** [grows m]: whatever the world, [m] only adds events in front of the
    trace; what happened stays recorded. *)
Definition grows {A} (m : M A) : Prop :=
  forall w, exists l, w_trace (snd (m w)) = l ++ w_trace w.

Lemma quiet_grows {A} (m : M A) : quiet m -> grows m.
Proof. intros Hq w. destruct (Hq w) as (l & Ht & _). eauto. Qed.

Lemma grows_emit (ev : event) : grows (emit ev).
Proof. intros w. exists [ev]. reflexivity. Qed.

Lemma grows_lift {A} (r : exc + A) : grows (lift r).
Proof. intros w. exists []. reflexivity. Qed.

Lemma grows_time_time : grows time_time.
Proof. intros w. exists [EvClock (e_clock (w_env w) (w_tick w))]. reflexivity. Qed.

Lemma grows_bind {A B} (m : M A) (k : A -> M B) :
  grows m -> (forall a, grows (k a)) -> grows (bind m k).
Proof.
  intros Hm Hk w. unfold bind. destruct (Hm w) as (l1 & Ht1).
  destruct (m w) as [[e|a] w1]; cbn in *; [eauto|].
  destruct (Hk a w1) as (l2 & Ht2). exists (l2 ++ l1). rewrite Ht2, Ht1, app_assoc. reflexivity.
Qed.

Lemma grows_try_except {A} (m : M A) c (h : exc -> M A) :
  grows m -> (forall e, grows (h e)) -> grows (try_except m c h).
Proof.
  intros Hm Hh w. unfold try_except. destruct (Hm w) as (l1 & Ht1).
  destruct (m w) as [[e|a] w1]; cbn in *; [|eauto].
  destruct (c e); [|eauto].
  destruct (Hh e w1) as (l2 & Ht2). exists (l2 ++ l1). rewrite Ht2, Ht1, app_assoc. reflexivity.
Qed.

Lemma grows_requests_get (url : string) : grows (requests_get url).
Proof. intros w. exists [EvHttpGet url]. reflexivity. Qed.

Lemma grows_response_json (r : response) : grows (response_json r).
Proof. intros w. exists []. destruct r; reflexivity. Qed.

Lemma grows_in {A} (m : M A) (w : world) (ev : event) :
  grows m -> In ev (w_trace w) -> In ev (w_trace (snd (m w))).
Proof. intros Hm Hin. destruct (Hm w) as (l & ->). apply in_or_app. now right. Qed.

(** An event recorded by [m] is still recorded after any continuation
    that only appends. *)
Lemma bind_in {A B} (m : M A) (k : A -> M B) (w : world) (ev : event) :
  In ev (w_trace (snd (m w))) -> (forall a, grows (k a)) -> In ev (w_trace (snd (bind m k w))).
Proof.
  intros Hin Hk. unfold bind. destruct (m w) as [[e|a] w1]; cbn in *; [exact Hin|].
  apply grows_in; auto.
Qed.

Create HintDb grows discriminated.
#[export] Hint Resolve grows_emit grows_lift grows_time_time grows_requests_get grows_response_json
  quiet_grows : grows.

(** [grows_tac]: decompose a statement built from appending pieces. *)
Ltac grows_tac :=
  repeat first
    [ progress intros
    | apply grows_bind
    | apply grows_try_except
    | solve [eauto with grows quiet]
    | match goal with
      | |- grows (match ?x with _ => _ end) => destruct x
      | |- grows (if ?b then _ else _) => destruct b
      end ].

(** C29: Line 58 across the NTP era: when the server's reply carries an
    instant [t] of the [2^32] seconds from 2024-01-01 (its seconds since
    1900 modulo [2^32], big-endian at offset 40, after any 40 bytes),
    [ntptime.settime()] sets the RTC to [gmtime(t)] for exactly that [t],
    also after the 32-bit field wraps around in 2036. *)
Theorem ntp_settime_era (pre post : list byte) (t : Z) (w : world) :
  List.length pre = 40%nat -> 1704067200 <= t < 1704067200 + 2 ^ 32 ->
  e_ntp (w_env w) = inr (ntp_reply pre t post) ->
  ntp_settime w = (inr tt, record_event (EvNtpSetTime (rtc_tuple (localtime t))) w).
Proof.
  intros Hp Ht He. unfold ntp_settime, settime. rewrite He, ntp_time_era by assumption. reflexivity.
Qed.

(** C30: What line 58 sets when it does not raise: the instant [t] read
    from the server lies in the [2^32] seconds from 2024-01-01 (so within
    the range the datetime arithmetic of [get_prices] handles), and the
    RTC receives a valid datetime at [t] truncated to the minute, the
    weekday [1..7] of that date and the seconds [t mod 60]. *)
Theorem ntp_settime_rtc (w w' : world) :
  ntp_settime w = (inr tt, w') ->
  exists t dt, 1704067200 <= t < 1704067200 + 2 ^ 32 /\ datetime_ok dt /\ to_minutes dt = epoch_minutes t /\
    w' = record_event (EvNtpSetTime [year dt; month dt; day dt; (EPOCH_ORD + t / 86400 + 6) mod 7 + 1;
                                     hour dt; minute dt; t mod 60; 0]) w.
Proof.
  unfold ntp_settime. intros H. destruct (settime (e_ntp (w_env w))) as [ex|rtc] eqn:E; [discriminate H|].
  injection H as <-. destruct (settime_rtc _ _ E) as (t & dt & _ & Hb & Hok & Hmin & ->).
  exists t, dt. auto.
Qed.

(** ** Witnesses *)

(** A world whose oracles are never consulted. *)
Definition idle_world : world :=
  mk_world (mk_env (fun _ => 0) (fun _ => true) EmptyString (inl (OSError "ETIMEDOUT")) (0, 0) (fun _ _ => EmptyString)
                   (fun _ => inr RespMalformed)) 0 0 [].

(** A nested answer with a trailing newline. *)
Lemma json_roundtrip_witness :
  all_ws EmptyString = true /\ all_ws (String (ascii_of_nat 10) EmptyString) = true /\
  response_json (decode_body (EmptyString ++ print_json (PDict [("results"%string, PList [PFloat 2541 (-2); PStr "a\b"])])
                               ++ String (ascii_of_nat 10) EmptyString)) idle_world
  = (inr (PDict [("results"%string, PList [PFloat 2541 (-2); PStr "a\b"])]), idle_world).
Proof. split; [reflexivity|]. split; [reflexivity|]. apply json_roundtrip; reflexivity. Defined.

(** The world of the witnesses, with an NTP server answering [reply]. *)
Definition ntp_world (reply : list byte) : world :=
  mk_world (mk_env (fun _ => 0) (fun _ => true) EmptyString (inr reply) (0, 0) (fun _ _ => EmptyString)
                   (fun _ => inr RespMalformed)) 0 0 [].

(** 2040-01-01 00:00:00 UTC, after the 32-bit NTP era ends (2036-02-07). *)
Lemma ntp_settime_era_witness :
  List.length (repeat x00 40) = 40%nat /\ 1704067200 <= 2208988800 < 1704067200 + 2 ^ 32 /\
  ntp_settime (ntp_world (ntp_reply (repeat x00 40) 2208988800 []))
  = (inr tt, record_event (EvNtpSetTime (rtc_tuple (localtime 2208988800)))
                          (ntp_world (ntp_reply (repeat x00 40) 2208988800 []))).
Proof.
  split; [reflexivity|]. split; [lia|].
  apply (ntp_settime_era (repeat x00 40) []); [reflexivity | lia | reflexivity].
Defined.

Lemma ntp_settime_rtc_witness :
  exists t dt, 1704067200 <= t < 1704067200 + 2 ^ 32 /\ datetime_ok dt /\ to_minutes dt = epoch_minutes t /\
    record_event (EvNtpSetTime [2024; 1; 15; 1; 10; 47; 0; 0]) (ntp_world sample_reply)
    = record_event (EvNtpSetTime [year dt; month dt; day dt; (EPOCH_ORD + t / 86400 + 6) mod 7 + 1;
                                  hour dt; minute dt; t mod 60; 0]) (ntp_world sample_reply).
Proof. apply (ntp_settime_rtc (ntp_world sample_reply)). vm_compute. reflexivity. Defined.

