(* ===== verification/Fetcher.v ===== *)
(** * [get_prices] (lines 99-123)

    [window_url] is lines 103-115 up to the GET: the current period from
    [localtime], the next period one hour later, the last period thirty
    minutes earlier, and the URL with the query string of lines 111-112.
    [extract_prices] is line 119: entries 0, 1 and 2 of [results], in
    that order.  [get_prices_body] is the [try] block and [get_prices]
    wraps it in [except ValueError: return 0, 0, 0]. *)

From Stdlib Require Import ZArith List String Bool Lia.
From S2P Require Import Prelude PyValue Calendar Ntp Effects.
Import ListNotations.
Open Scope Z_scope.
Open Scope string_scope.

Definition API_URL : string :=
  "https://api.octopus.energy/v1/products/AGILE-FLEX-22-11-25/electricity-tariffs/E-1R-AGILE-FLEX-22-11-25-C/standard-unit-rates/".

(** One boundary of the query: [{p.year}-{p.month}-{p.day}T{p.hour}:{mm}Z]. *)
Definition stamp (p : datetime) (mm : string) : string :=
  py_str_Z (year p) ++ "-" ++ py_str_Z (month p) ++ "-" ++ py_str_Z (day p)
  ++ "T" ++ py_str_Z (hour p) ++ ":" ++ mm ++ "Z".

(** Lines 111-112.  In the first f-string the else branch is the integer
    [30], formatted by [str]; in the second it is the string ['30']. *)
Definition request_string (period_last period_next : datetime) : string :=
  "?period_from="
  ++ stamp period_last (if (minute period_last <=? 29)%Z then "00" else py_str_Z 30)
  ++ "&period_to="
  ++ stamp period_next (if (minute period_next <=? 29)%Z then "00" else "30").

(** Lines 106-115 up to the request: [t] is [time.localtime()]. *)
Definition window_url (t : list Z) : exc + string :=
  period_current <-? datetime_new (firstn 5 t) ;;
  period_next <-? add_minutes period_current 60 ;;
  period_last <-? add_minutes period_current (-30) ;;
  inr (API_URL ++ request_string period_last period_next).

(** [json['results'][i]['value_inc_vat']]. *)
Definition price_value (json : pyval) (i : Z) : exc + pyval :=
  results <-? getitem json (PStr "results") ;;
  entry <-? getitem results (PInt i) ;;
  getitem entry (PStr "value_inc_vat").

(** Line 119: the returned tuple, evaluated left to right. *)
Definition extract_prices (json : pyval) : exc + (pyval * pyval * pyval) :=
  a <-? price_value json 0 ;;
  b <-? price_value json 1 ;;
  c <-? price_value json 2 ;;
  inr (a, b, c).

Definition get_prices_body : M (pyval * pyval * pyval) :=
  t <- time_localtime ;;
  url <- lift (window_url t) ;;
  request <- requests_get url ;;
  json <- response_json request ;;
  lift (extract_prices json).

(** The value of [except ValueError: return 0, 0, 0]. *)
Definition SENTINEL : pyval * pyval * pyval := (PInt 0, PInt 0, PInt 0).

Definition get_prices : M (pyval * pyval * pyval) :=
  try_except get_prices_body is_value_error (fun _ => ret SENTINEL).

(** ** Evaluation *)

(** At the spec's example instant, 2024-01-15 10:47 UTC (epoch
    1705315620), the URL asks for the periods from 10:00 (the last
    period) to 11:30 (the end of the next one). *)
Example window_url_spec_example :
  window_url (localtime 1705315620)
  = inr (API_URL ++ "?period_from=2024-1-15T10:00Z&period_to=2024-1-15T11:30Z").
Proof. reflexivity. Qed.

(** At 10:05 the last period is 09:35: the integer 30 is printed. *)
Example window_url_int_thirty :
  window_url (localtime 1705313100)
  = inr (API_URL ++ "?period_from=2024-1-15T9:30Z&period_to=2024-1-15T11:00Z").
Proof. reflexivity. Qed.

(** ** Running [get_prices] *)

(** The clock reading [get_prices] takes. *)
Definition now_reading (w : world) : Z := e_clock (w_env w) (w_tick w).

(** The world after the reading of the clock and the GET of [url]. *)
Definition after_fetch (w : world) (url : string) : world :=
  mk_world (w_env w) (S (w_tick w)) (w_polls w)
           (EvHttpGet url :: EvClock (now_reading w) :: w_trace w).

(** What the [try] block computes once the GET is sent. *)
Definition body_outcome (answer : exc + response) : exc + (pyval * pyval * pyval) :=
  match answer with
  | inl e => inl e
  | inr (RespJson j) => extract_prices j
  | inr RespMalformed => inl (ValueError "syntax error in JSON")
  end.

(** The instants the datetime arithmetic of lines 106-108 handles: from
    1970 to 9999-12-31 23:00. *)
Definition clock_in_range (s : Z) : Prop := 0 <= s < 253402297200.

Lemma get_prices_body_run (w : world) (url : string) :
  window_url (localtime (now_reading w)) = inr url ->
  get_prices_body w = (body_outcome (e_server (w_env w) url), after_fetch w url).
Proof.
  intros Hurl. destruct w as [ev tick polls tr].
  unfold get_prices_body, time_localtime, time_time, lift, bind, ret.
  cbn [w_env w_tick w_polls w_trace]. unfold now_reading in Hurl. cbn in Hurl.
  rewrite Hurl. unfold requests_get, emit, bind, record_event, after_fetch, now_reading.
  cbn. destruct (e_server ev url) as [e|[j|]]; reflexivity.
Qed.

(** Lines 106-112 on an instant in range: the period ends are thirty
    minutes before and an hour after the instant truncated to the
    minute, and both are datetimes the constructor accepts. *)
Lemma window_url_ok (s : Z) : clock_in_range s ->
  exists last next,
    window_url (localtime s) = inr (API_URL ++ request_string last next) /\
    datetime_ok last /\ datetime_ok next /\
    to_minutes last = epoch_minutes s - 30 /\ to_minutes next = epoch_minutes s + 60.
Proof.
  unfold clock_in_range. intros Hs.
  destruct (localtime_datetime s ltac:(unfold EPOCH_ORD, MAXORDINAL; zlia))
    as (cur & Hcur & _ & Hmin).
  destruct (add_minutes_spec cur 60 ltac:(rewrite Hmin; unfold epoch_minutes, EPOCH_ORD, MAXORDINAL; zlia))
    as (next & Hnext & Hnok & Hnmin).
  destruct (add_minutes_spec cur (-30) ltac:(rewrite Hmin; unfold epoch_minutes, EPOCH_ORD, MAXORDINAL; zlia))
    as (last & Hlast & Hlok & Hlmin).
  exists last, next. unfold window_url. rewrite Hcur, Hnext, Hlast.
  repeat split; auto; lia.
Qed.

(** ** The extraction of line 119 *)

(** Subscription never raises [ValueError], so neither does line 119. *)
Lemma getitem_not_value_error (c k : pyval) (e : exc) :
  getitem c k = inl e -> is_value_error e = false.
Proof.
  destruct c, k; cbn;
  repeat match goal with
         | |- context [match ?x with _ => _ end] => destruct x
         end; intros H; inv H; reflexivity.
Qed.

Lemma extract_prices_not_value_error (j : pyval) (e : exc) :
  extract_prices j = inl e -> is_value_error e = false.
Proof.
  unfold extract_prices, price_value.
  repeat match goal with
         | |- context [match getitem ?c ?k with _ => _ end] =>
             let E := fresh "E" in destruct (getitem c k) eqn:E
         end; intros H; inv H; eauto using getitem_not_value_error.
Qed.

(** C16: For a response with at least three entries in [results], each with a
    [value_inc_vat], line 119 returns the three values in the order
    entry 0, entry 1, entry 2. *)
Theorem extract_prices_ok (kvs e0 e1 e2 : list (string * pyval)) (rest : list pyval)
    (v0 v1 v2 : pyval) :
  dict_lookup "results" kvs = Some (PList (PDict e0 :: PDict e1 :: PDict e2 :: rest)) ->
  dict_lookup "value_inc_vat" e0 = Some v0 ->
  dict_lookup "value_inc_vat" e1 = Some v1 ->
  dict_lookup "value_inc_vat" e2 = Some v2 ->
  extract_prices (PDict kvs) = inr (v0, v1, v2).
Proof.
  intros Hr H0 H1 H2. unfold extract_prices, price_value.
  rewrite (getitem_dict_found _ _ _ Hr). cbv beta iota.
  rewrite (getitem_list_index _ 0 (PDict e0)), (getitem_list_index _ 1 (PDict e1)),
    (getitem_list_index _ 2 (PDict e2)) by (reflexivity || lia).
  cbv beta iota.
  rewrite (getitem_dict_found _ _ _ H0), (getitem_dict_found _ _ _ H1),
    (getitem_dict_found _ _ _ H2).
  reflexivity.
Qed.

(** C17: With fewer than three entries, all well formed, line 119 raises
    [IndexError], which [except ValueError] does not catch. *)
Theorem extract_prices_short (kvs : list (string * pyval)) (es : list (list (string * pyval))) :
  dict_lookup "results" kvs = Some (PList (map PDict es)) ->
  (List.length es < 3)%nat ->
  Forall (fun e => dict_lookup "value_inc_vat" e <> None) es ->
  extract_prices (PDict kvs) = inl (IndexError "list index out of range").
Proof.
  intros Hr Hlen Hall. unfold extract_prices, price_value.
  rewrite (getitem_dict_found _ _ _ Hr). cbv beta iota.
  destruct es as [|e0 [|e1 [|e2 es]]]; cbn in Hlen; try lia; cbn [map];
  repeat match goal with
         | H : Forall _ (_ :: _) |- _ => inv H
         | H : dict_lookup _ ?e <> None |- _ =>
             let v := fresh "v" in let E := fresh "E" in
             destruct (dict_lookup "value_inc_vat" e) as [v|] eqn:E; [clear H|congruence]
         end;
  repeat first
    [ rewrite (getitem_list_short _ 0) by (cbn; lia)
    | rewrite (getitem_list_short _ 1) by (cbn; lia)
    | rewrite (getitem_list_short _ 2) by (cbn; lia)
    | rewrite (getitem_list_index _ 0 (PDict e0)) by (reflexivity || lia)
    | rewrite (getitem_list_index _ 1 (PDict e1)) by (reflexivity || lia)
    | progress cbv beta iota
    | match goal with
      | E : dict_lookup _ ?e = Some _ |- context [getitem (PDict ?e) _] =>
          rewrite (getitem_dict_found _ _ _ E)
      end ];
  reflexivity.
Qed.

(** ** The outcomes of [get_prices] *)

Lemma grows_get_prices : grows get_prices.
Proof. unfold get_prices, get_prices_body, time_localtime. grows_tac. Qed.

#[export] Hint Resolve grows_get_prices : grows.

(** Once the URL is built, the outcome of [get_prices] is the outcome of
    the [try] block with [ValueError] replaced by the sentinel. *)
Lemma get_prices_on_answer (w : world) (url : string) :
  window_url (localtime (now_reading w)) = inr url ->
  get_prices w =
  (match body_outcome (e_server (w_env w) url) with
   | inl e => if is_value_error e then inr SENTINEL else inl e
   | inr p => inr p
   end, after_fetch w url).
Proof.
  intros Hurl. unfold get_prices, try_except. rewrite (get_prices_body_run w url Hurl).
  destruct (body_outcome (e_server (w_env w) url)) as [e|p]; [|reflexivity].
  destruct (is_value_error e); reflexivity.
Qed.

(** C13: A well-formed answer: the three extracted values are returned, after
    one clock reading and one GET of the window's URL. *)
Theorem get_prices_returns_entries (w : world) (url : string) (j : pyval)
    (p : pyval * pyval * pyval) :
  window_url (localtime (now_reading w)) = inr url ->
  e_server (w_env w) url = inr (RespJson j) ->
  extract_prices j = inr p ->
  get_prices w = (inr p, after_fetch w url).
Proof.
  intros Hurl Hsrv Hx. rewrite (get_prices_on_answer w url Hurl), Hsrv. cbn. now rewrite Hx.
Qed.

(** C15: A body [json()] cannot decode raises [ValueError], which is caught:
    the sentinel triple (0, 0, 0) is returned. *)
Theorem get_prices_malformed_sentinel (w : world) (url : string) :
  window_url (localtime (now_reading w)) = inr url ->
  e_server (w_env w) url = inr RespMalformed ->
  get_prices w = (inr SENTINEL, after_fetch w url).
Proof.
  intros Hurl Hsrv. rewrite (get_prices_on_answer w url Hurl), Hsrv. reflexivity.
Qed.

(** C14: A decoded answer without the expected fields (no [results], fewer
    than three entries, an entry without [value_inc_vat]) raises a
    [KeyError], [IndexError] or [TypeError] that escapes [get_prices]:
    the sentinel is not returned. *)
Theorem get_prices_lookup_error_escapes (w : world) (url : string) (j : pyval) (e : exc) :
  window_url (localtime (now_reading w)) = inr url ->
  e_server (w_env w) url = inr (RespJson j) ->
  extract_prices j = inl e ->
  get_prices w = (inl e, after_fetch w url).
Proof.
  intros Hurl Hsrv Hx. rewrite (get_prices_on_answer w url Hurl), Hsrv. cbn.
  now rewrite Hx, (extract_prices_not_value_error j e Hx).
Qed.

(** C18: A transport failure of [requests.get] propagates. *)
Theorem get_prices_transport_error (w : world) (url : string) (e : exc) :
  window_url (localtime (now_reading w)) = inr url ->
  e_server (w_env w) url = inl e ->
  is_value_error e = false ->
  get_prices w = (inl e, after_fetch w url).
Proof.
  intros Hurl Hsrv Hv. rewrite (get_prices_on_answer w url Hurl), Hsrv. cbn. now rewrite Hv.
Qed.

(** ** Every outcome of [get_prices] *)

(** The triple [get_prices] returns for a server's answer, when it
    returns one. *)
Definition answer_prices (answer : exc + response) : option (pyval * pyval * pyval) :=
  match answer with
  | inr (RespJson j) => match extract_prices j with inr p => Some p | inl _ => None end
  | inr RespMalformed => Some SENTINEL
  | inl e => if is_value_error e then Some SENTINEL else None
  end.

(** [get_prices] reads the clock once; when it returns a triple, either
    it is the sentinel (the [ValueError] came before the GET), or it
    sent one GET and the triple is what the server's answer to it
    yields. *)
Lemma get_prices_cases (w : world) :
  let '(r, w') := get_prices w in
  w_env w' = w_env w /\ w_tick w' = S (w_tick w) /\ w_polls w' = w_polls w /\
  match r with
  | inl _ => True
  | inr p =>
      (p = SENTINEL /\ w_trace w' = EvClock (now_reading w) :: w_trace w) \/
      exists url, w_trace w' = EvHttpGet url :: EvClock (now_reading w) :: w_trace w /\
                  answer_prices (e_server (w_env w) url) = Some p
  end.
Proof.
  destruct (window_url (localtime (now_reading w))) as [e|url] eqn:Hurl.
  - unfold get_prices, try_except, get_prices_body, time_localtime, time_time, bind, ret, lift.
    unfold now_reading in Hurl. rewrite Hurl.
    destruct (is_value_error e); cbn; auto 10.
  - unfold get_prices, try_except. rewrite (get_prices_body_run w url Hurl).
    unfold body_outcome, answer_prices.
    destruct (e_server (w_env w) url) as [e|[j|]] eqn:Hsrv.
    + destruct (is_value_error e) eqn:Hv; cbn.
      * repeat split; auto. right. exists url. rewrite Hsrv, Hv. auto.
      * auto.
    + destruct (extract_prices j) as [e|p] eqn:Hx.
      * rewrite (extract_prices_not_value_error j e Hx). cbn. auto 10.
      * cbn. repeat split; auto. right. exists url. rewrite Hsrv, Hx. auto.
    + cbn. repeat split; auto. right. exists url. rewrite Hsrv. auto.
Qed.

(** With the clock in range, [get_prices] returns whenever the answer to
    its GET yields a triple. *)
Lemma get_prices_answered (w : world) :
  clock_in_range (now_reading w) ->
  (forall url, answer_prices (e_server (w_env w) url) <> None) ->
  exists url q, get_prices w = (inr q, after_fetch w url).
Proof.
  intros Hs Hans. destruct (window_url_ok _ Hs) as (last & next & Hurl & _).
  set (url := API_URL ++ request_string last next) in *.
  specialize (Hans url). exists url. unfold get_prices, try_except.
  rewrite (get_prices_body_run w url Hurl). unfold body_outcome.
  unfold answer_prices in Hans.
  destruct (e_server (w_env w) url) as [e|[j|]].
  - destruct (is_value_error e); [eexists; reflexivity | congruence].
  - destruct (extract_prices j) as [e|q]; [congruence | eexists; reflexivity].
  - eexists; reflexivity.
Qed.

(** ** Witnesses *)

(** An answer of the API: three periods, newest first. *)
Definition sample_results : list (string * pyval) :=
  [("count", PInt 3);
   ("results", PList [PDict [("value_inc_vat", PFloat 2541 (-2))];
                      PDict [("value_inc_vat", PFloat 1932 (-2))];
                      PDict [("value_inc_vat", PInt 21)]])].

Definition sample_env (server : string -> exc + response) : env :=
  mk_env (fun _ => 1705315620) (fun _ => true) "192.168.1.42" (inr sample_reply) (240, 240)
         (fun m _ => py_str_Z m) server.

Definition sample_world (server : string -> exc + response) : world :=
  mk_world (sample_env server) 0 0 [].

Definition sample_url : string :=
  API_URL ++ "?period_from=2024-1-15T10:00Z&period_to=2024-1-15T11:30Z".

Lemma extract_prices_ok_witness :
  extract_prices (PDict sample_results) = inr (PFloat 2541 (-2), PFloat 1932 (-2), PInt 21).
Proof.
  apply (extract_prices_ok _ [("value_inc_vat", PFloat 2541 (-2))]
           [("value_inc_vat", PFloat 1932 (-2))] [("value_inc_vat", PInt 21)] []);
  reflexivity.
Defined.

Lemma extract_prices_short_witness :
  extract_prices (PDict [("results", PList [PDict [("value_inc_vat", PInt 20)]])])
  = inl (IndexError "list index out of range").
Proof.
  apply (extract_prices_short _ [[("value_inc_vat", PInt 20)]]).
  - reflexivity.
  - cbn. lia.
  - repeat constructor. discriminate.
Defined.

Lemma get_prices_returns_entries_witness :
  get_prices (sample_world (fun _ => inr (RespJson (PDict sample_results))))
  = (inr (PFloat 2541 (-2), PFloat 1932 (-2), PInt 21),
     after_fetch (sample_world (fun _ => inr (RespJson (PDict sample_results)))) sample_url).
Proof. apply (get_prices_returns_entries _ _ (PDict sample_results)); vm_compute; reflexivity. Defined.

Lemma get_prices_malformed_sentinel_witness :
  get_prices (sample_world (fun _ => inr RespMalformed))
  = (inr SENTINEL, after_fetch (sample_world (fun _ => inr RespMalformed)) sample_url).
Proof. apply get_prices_malformed_sentinel; vm_compute; reflexivity. Defined.

(** The API's error answer [{"detail": ...}] makes the script crash. *)
Lemma get_prices_lookup_error_escapes_witness :
  get_prices (sample_world (fun _ => inr (RespJson (PDict [("detail", PStr "Invalid period")]))))
  = (inl (KeyError (PStr "results")),
     after_fetch (sample_world (fun _ => inr (RespJson (PDict [("detail", PStr "Invalid period")]))))
                 sample_url).
Proof.
  apply (get_prices_lookup_error_escapes _ _ (PDict [("detail", PStr "Invalid period")]));
    vm_compute; reflexivity.
Defined.

Lemma get_prices_transport_error_witness :
  get_prices (sample_world (fun _ => inl (OSError "ECONNRESET")))
  = (inl (OSError "ECONNRESET"), after_fetch (sample_world (fun _ => inl (OSError "ECONNRESET"))) sample_url).
Proof. apply get_prices_transport_error; vm_compute; reflexivity. Defined.

