(* ===== verification/PricingApi.v ===== *)
(** * The pricing API, and what [get_prices] obtains from it

    The Octopus API is outside the repository; it is modelled from its
    documented contract (spec sections 4.3 and 6): a GET with query
    parameters [period_from] and [period_to] in the format
    [Y-M-DTH:MMZ] answers [{"results": [...]}] with one entry per
    half-hour period that starts in the window, newest first, each with
    its [value_inc_vat].

    [parse_query] reads the two boundaries back; the first theorem shows
    that the query the script builds denotes the window from the start
    of the previous half hour to the end of the next one.  The contract
    is the class [PricingContract]; [get_prices_refines] is proved
    against it: from any server that honours the contract, [get_prices]
    returns the prices of the next, current and last half hour.  The
    same contract on the JSON text the server sends
    ([TextPricingContract]) implies it, through [json.loads]. *)

From Stdlib Require Import ZArith List String Ascii Bool Lia.
From S2P Require Import Prelude PyValue Json Calendar Effects Fetcher.
Import ListNotations.
Open Scope Z_scope.
Open Scope string_scope.

(** ** Reading the query back *)

Definition parse_stamp (s : string) : option (Z * Z * Z * Z * Z * string) :=
  '(ys, s1) <-o split_at "-" s ;;
  '(ms, s2) <-o split_at "-" s1 ;;
  '(ds, s3) <-o split_at "T" s2 ;;
  '(hs, s4) <-o split_at ":" s3 ;;
  '(mins, s5) <-o split_at "Z" s4 ;;
  y <-o parse_N ys ;; mo <-o parse_N ms ;; d <-o parse_N ds ;;
  h <-o parse_N hs ;; mi <-o parse_N mins ;;
  Some (Z.of_N y, Z.of_N mo, Z.of_N d, Z.of_N h, Z.of_N mi, s5).

(** The instant a boundary denotes, in minutes on the ordinal scale. *)
Definition stamp_minutes (y mo d h mi : Z) : Z := ymd2ord y mo d * 1440 + h * 60 + mi.

Definition parse_query (url : string) : option (Z * Z) :=
  q <-o strip_prefix (API_URL ++ "?period_from=") url ;;
  '(y1, mo1, d1, h1, mi1, rest) <-o parse_stamp q ;;
  q' <-o strip_prefix "&period_to=" rest ;;
  '(y2, mo2, d2, h2, mi2, rest') <-o parse_stamp q' ;;
  match rest' with
  | EmptyString => Some (stamp_minutes y1 mo1 d1 h1 mi1, stamp_minutes y2 mo2 d2 h2 mi2)
  | String _ _ => None
  end.

(** ** The API's answer *)

(** The starts of the [n] half-hour periods from [f] on. *)
Fixpoint slots_from (f : Z) (n : nat) : list Z :=
  match n with
  | O => []
  | S n' => f :: slots_from (f + 30) n'
  end.

(** The periods that start in [[f, t)], newest first. *)
Definition slots_desc (f t : Z) : list Z :=
  rev (slots_from f (Z.to_nat ((t - f + 29) / 30))).

Definition api_entry (tariff : Z -> pyval) (slot : Z) : pyval :=
  PDict [("value_inc_vat", tariff slot)].

Definition api_answer (tariff : Z -> pyval) (f t : Z) : pyval :=
  PDict [("count", PInt (Z.of_nat (List.length (slots_desc f t))));
         ("results", PList (map (api_entry tariff) (slots_desc f t)))].

(** The contract of the API for the tariff [tariff] (the price of the
    half hour starting at a given minute): a well-formed query over a
    window aligned on half hours is answered with that window's
    periods. *)
Class PricingContract (server : string -> exc + response) (tariff : Z -> pyval) : Prop :=
  serves_window : forall url f t,
    parse_query url = Some (f, t) -> f mod 30 = 0 -> t mod 30 = 0 -> f < t ->
    server url = inr (RespJson (api_answer tariff f t)).

(** A server that answers every query it can read, and reports an error
    detail otherwise. *)
Definition octopus_server (tariff : Z -> pyval) (url : string) : exc + response :=
  match parse_query url with
  | Some (f, t) => inr (RespJson (api_answer tariff f t))
  | None => inr (RespJson (PDict [("detail", PStr "Invalid query")]))
  end.

#[export] Instance octopus_server_contract (tariff : Z -> pyval) :
  PricingContract (octopus_server tariff) tariff.
Proof. intros url f t H _ _ _. unfold octopus_server. now rewrite H. Qed.

(** The contract on the wire: the server sends the JSON text of the
    answer, which [request.json()] decodes. *)
Class TextPricingContract (answer : string -> exc + string) (tariff : Z -> pyval) : Prop :=
  serves_text : forall url f t,
    parse_query url = Some (f, t) -> f mod 30 = 0 -> t mod 30 = 0 -> f < t ->
    answer url = inr (print_json (api_answer tariff f t)).
(** Decoding refines the text contract into the contract on values. *)
#[export] Instance text_contract_decodes (answer : string -> exc + string) (tariff : Z -> pyval) :
  TextPricingContract answer tariff -> PricingContract (text_server answer) tariff.
Proof.
  intros Hc url f t Hq H1 H2 H3. unfold text_server.
  rewrite (serves_text url f t Hq H1 H2 H3). now rewrite decode_print.
Qed.

(** ** Reading back what the script writes *)

Lemma parse_stamp_stamp (p : datetime) (mm rest : string) (m : N) :
  datetime_ok p -> parse_N mm = Some m -> all_digits mm = true ->
  parse_stamp (stamp p mm ++ rest) = Some (year p, month p, day p, hour p, Z.of_N m, rest).
Proof.
  intros Hok Hm Hd. destruct (datetime_ok_bounds p Hok) as (Hy & Hmo & Hday & Hh & _).
  unfold stamp. rewrite !string_app_assoc.
  rewrite !py_str_Z_nonneg by (unfold MINYEAR in *; lia).
  unfold parse_stamp. cbn [append].
  rewrite !split_at_digits by (reflexivity || apply py_str_N_digits || exact Hd).
  rewrite !parse_py_str_N, Hm, !Z2N.id by (unfold MINYEAR in *; lia).
  reflexivity.
Qed.

(** A boundary as lines 111-112 print it reads back as the instant
    rounded down to its half hour. *)
Lemma parse_boundary (p : datetime) (thirty rest : string) :
  datetime_ok p -> thirty = "30" ->
  exists y mo d h mi,
    parse_stamp (stamp p (if (minute p <=? 29)%Z then "00" else thirty) ++ rest)
    = Some (y, mo, d, h, mi, rest) /\
    stamp_minutes y mo d h mi = floor_to 30 (to_minutes p).
Proof.
  intros Hok ->. destruct (datetime_ok_bounds p Hok) as (_ & _ & _ & _ & Hmi).
  destruct (Z.leb_spec (minute p) 29).
  - rewrite (parse_stamp_stamp p "00" rest 0) by reflexivity || exact Hok.
    do 5 eexists. split; [reflexivity|].
    unfold stamp_minutes, to_minutes, floor_to. cbn [Z.of_N]. zlia.
  - rewrite (parse_stamp_stamp p "30" rest 30) by reflexivity || exact Hok.
    do 5 eexists. split; [reflexivity|].
    unfold stamp_minutes, to_minutes, floor_to. cbn [Z.of_N]. zlia.
Qed.

(** The window the query of lines 111-112 denotes. *)
Lemma window_query (s : Z) : clock_in_range s ->
  exists url, window_url (localtime s) = inr url /\
    parse_query url = Some (floor_to 30 (epoch_minutes s) - 30, floor_to 30 (epoch_minutes s) + 60)%Z.
Proof.
  intros Hs. destruct (window_url_ok s Hs) as (last & next & Hurl & Hlok & Hnok & Hlm & Hnm).
  eexists. split; [exact Hurl|]. unfold request_string, parse_query.
  rewrite <- (string_app_assoc API_URL), strip_prefix_app. cbv beta iota.
  destruct (parse_boundary last (py_str_Z 30) ("&period_to=" ++
              stamp next (if (minute next <=? 29)%Z then "00" else "30")) Hlok eq_refl)
    as (y1 & mo1 & d1 & h1 & mi1 & Hp1 & Hf).
  rewrite Hp1, strip_prefix_app. cbv beta iota.
  rewrite (append_nil_r_string (stamp next (if (minute next <=? 29)%Z then "00" else "30"))).
  destruct (parse_boundary next "30" EmptyString Hnok eq_refl) as (y2 & mo2 & d2 & h2 & mi2 & Hp2 & Ht).
  rewrite Hp2, Hf, Ht, Hlm, Hnm.
  replace (epoch_minutes s - 30)%Z with (epoch_minutes s + -1 * 30)%Z by lia.
  replace (epoch_minutes s + 60)%Z with (epoch_minutes s + 2 * 30)%Z by lia.
  rewrite !floor_to_shift by lia. do 2 f_equal; lia.
Qed.

(** The window [F - 30, F + 60) holds three periods: newest first, the
    next, the current and the last. *)
Lemma slots_desc_window (F : Z) : slots_desc (F - 30) (F + 60) = [F + 30; F; F - 30]%Z.
Proof.
  unfold slots_desc. replace (F + 60 - (F - 30) + 29)%Z with 119%Z by lia.
  replace (Z.to_nat (119 / 30)) with 3%nat by reflexivity.
  cbn [slots_from rev app].
  f_equal; [lia|]. f_equal. lia.
Qed.

Lemma extract_api_window (tariff : Z -> pyval) (F : Z) :
  extract_prices (api_answer tariff (F - 30) (F + 60))
  = inr (tariff (F + 30)%Z, tariff F, tariff (F - 30)%Z).
Proof.
  unfold api_answer. rewrite slots_desc_window. reflexivity.
Qed.

(** What [get_prices] returns from a server honouring the contract. *)
Lemma get_prices_contract (tariff : Z -> pyval) (w : world) :
  PricingContract (e_server (w_env w)) tariff ->
  clock_in_range (now_reading w) ->
  let F := floor_to 30 (epoch_minutes (now_reading w)) in
  exists url, get_prices w = (inr (tariff (F + 30)%Z, tariff F, tariff (F - 30)%Z), after_fetch w url).
Proof.
  intros Hc Hs. cbv zeta.
  remember (floor_to 30 (epoch_minutes (now_reading w))) as F eqn:HF.
  destruct (window_query (now_reading w) Hs) as (url & Hurl & Hq). rewrite <- HF in Hq.
  assert (Hm : (F mod 30 = 0)%Z) by (rewrite HF; apply floor_to_mod; lia).
  exists url. rewrite (get_prices_on_answer w url Hurl).
  rewrite (Hc url (F - 30) (F + 60) Hq ltac:(zlia) ltac:(zlia) ltac:(lia)).
  cbn [body_outcome]. now rewrite extract_api_window.
Qed.

(** C1: [get_prices] refines its specification: from a server that honours
    the API contract for a tariff, at an instant in range, it returns
    the tariff's prices for the next, the current and the last half
    hour, where the current half hour [F] is the one containing the
    instant; the names of line 127 (next, current, last) are right. *)
Theorem get_prices_refines (tariff : Z -> pyval) (w : world) :
  PricingContract (e_server (w_env w)) tariff ->
  clock_in_range (now_reading w) ->
  let F := floor_to 30 (epoch_minutes (now_reading w)) in
  (F <= epoch_minutes (now_reading w) < F + 30)%Z /\
  exists url, get_prices w = (inr (tariff (F + 30)%Z, tariff F, tariff (F - 30)%Z), after_fetch w url).
Proof.
  intros Hc Hs F. split; [apply floor_to_bounds; lia|].
  exact (get_prices_contract tariff w Hc Hs).
Qed.

(** C11: The query of lines 111-112 denotes the window from the start of the
    previous half hour to the end of the next one: [F - 30] to [F + 60],
    where [F], a multiple of 30 minutes, is the start of the half hour
    containing the instant; both boundaries are printed in the format
    the API reads. *)
Theorem request_window (s : Z) : clock_in_range s ->
  let F := floor_to 30 (epoch_minutes s) in
  (F mod 30 = 0 /\ F <= epoch_minutes s < F + 30)%Z /\
  exists url, window_url (localtime s) = inr url /\ parse_query url = Some (F - 30, F + 60)%Z.
Proof.
  intros Hs F. split; [split; [apply floor_to_mod | apply floor_to_bounds]; lia|].
  exact (window_query s Hs).
Qed.

(** ** Witnesses *)

(** A tariff: the price of the period starting at minute [m]. *)
Definition demo_tariff (m : Z) : pyval := PFloat (1500 + (m / 30) mod 1000) (-2).

Lemma request_window_witness :
  clock_in_range 1705315620 /\
  let F := floor_to 30 (epoch_minutes 1705315620) in
  (F mod 30 = 0 /\ F <= epoch_minutes 1705315620 < F + 30)%Z /\
  exists url, window_url (localtime 1705315620) = inr url /\ parse_query url = Some (F - 30, F + 60)%Z.
Proof.
  assert (H : clock_in_range 1705315620) by (unfold clock_in_range; lia).
  split; [exact H | exact (request_window 1705315620 H)].
Defined.

Lemma get_prices_refines_witness :
  let w := sample_world (octopus_server demo_tariff) in
  let F := floor_to 30 (epoch_minutes (now_reading w)) in
  (F <= epoch_minutes (now_reading w) < F + 30)%Z /\
  exists url, get_prices w = (inr (demo_tariff (F + 30)%Z, demo_tariff F, demo_tariff (F - 30)%Z),
                              after_fetch w url).
Proof.
  apply get_prices_refines.
  - apply octopus_server_contract.
  - unfold clock_in_range, now_reading. cbn. lia.
Defined.
