(* ===== verification/Network.v ===== *)
(** * Network bootstrap: the secrets check and [network_connect]

    [check_secrets] is lines 17-26: the import of the credentials, the
    two emptiness checks that raise [ValueError], and the handlers:
    [except ImportError] re-raises with its own message, [except
    ValueError as e] prints the message and lets the script go on.
    [network_connect] is lines 34-44: activate the interface, start the
    association, then poll [isconnected()] once per iteration, printing
    and sleeping a second after each failed poll, and raise [OSError]
    once the attempt counter exceeds 10.

    The [while] loop is [connect_loop] with a fuel argument; a run that
    exhausts the fuel ends in the model's [OutOfFuel] outcome, which is
    neither a return nor the script's exception.  The counter bounds
    the loop: [connect_loop_fuel] shows that any fuel of at least
    [11 - attempts] gives the same result, and the termination theorem
    that [NETWORK_FUEL] (11) never runs out, which holds only because
    of the [attempts > 10] exit. *)

From Stdlib Require Import ZArith List String Bool Lia.
From S2P Require Import Prelude PyValue Calendar Ntp Effects.
Import ListNotations.
Open Scope Z_scope.
Open Scope string_scope.

(** [str(e)] of the exceptions the script prints. *)
Definition exc_message (e : exc) : string :=
  match e with
  | ValueError m | IndexError m | TypeError m
  | ImportError m | OSError m | Exception m => m
  | KeyError _ => "KeyError"
  | OutOfFuel => "out of fuel"
  end.

(** The result of [from secrets import WIFI_SSID, WIFI_PASSWORD]: [None]
    when the module or one of the names is missing. *)
Definition secrets : Type := option (string * string).

(** Lines 17-26; returns the two names the rest of the script uses. *)
Definition check_secrets (sec : secrets) : M (string * string) :=
  match sec with
  | None => raise (ImportError "'secrets.py' is missing from your Plasma 2350 W!")
  | Some (WIFI_SSID, WIFI_PASSWORD) =>
      try_except
        (if String.eqb WIFI_SSID EmptyString then raise (ValueError "WIFI_SSID in 'secrets.py' is empty!")
         else if String.eqb WIFI_PASSWORD EmptyString then
           raise (ValueError "WIFI_PASSWORD in 'secrets.py' is empty!")
         else ret tt)
        is_value_error (fun e => print (exc_message e)) ;;
      ret (WIFI_SSID, WIFI_PASSWORD)
  end.

Definition CONNECT_ERROR : exc :=
  OSError "Unable to connect to wireless network. Check your WIFI_SSID and WIFI_PASSWORD and try again.".

(** The [while wlan.isconnected() is False] loop of lines 39-44. *)
Fixpoint connect_loop (fuel : nat) (WIFI_SSID : string) (attempts : Z) : M unit :=
  match fuel with
  | O => raise OutOfFuel
  | S fuel' =>
      connected <- wlan_isconnected ;;
      if connected then ret tt
      else
        print ("Attempting connection to " ++ WIFI_SSID) ;;
        time_sleep 1 ;;
        let attempts := attempts + 1 in
        if attempts >? 10 then raise CONNECT_ERROR
        else connect_loop fuel' WIFI_SSID attempts
  end.

Definition NETWORK_FUEL : nat := 11.

(** Lines 34-44. *)
Definition network_connect (WIFI_SSID WIFI_PASSWORD : string) : M unit :=
  emit (EvWlanActive true) ;;
  emit (EvWlanConnect WIFI_SSID WIFI_PASSWORD) ;;
  connect_loop NETWORK_FUEL WIFI_SSID 0.

(** The events of [k] failed iterations of the loop, newest first. *)
Fixpoint failed_attempts (WIFI_SSID : string) (k : nat) : list event :=
  match k with
  | O => []
  | S k' => failed_attempts WIFI_SSID k'
            ++ [EvSleep 1; EvPrint ("Attempting connection to " ++ WIFI_SSID); EvPoll false]
  end.

(** ** The loop, one iteration at a time *)

Lemma connect_loop_step (f : nat) (ssid : string) (a : Z) (w : world) :
  connect_loop (S f) ssid a w =
  if e_link (w_env w) (w_polls w)
  then (inr tt, mk_world (w_env w) (w_tick w) (S (w_polls w)) (EvPoll true :: w_trace w))
  else
    let w' := mk_world (w_env w) (w_tick w) (S (w_polls w))
                ([EvSleep 1; EvPrint ("Attempting connection to " ++ ssid); EvPoll false]
                 ++ w_trace w) in
    if a + 1 >? 10 then (inl CONNECT_ERROR, w') else connect_loop f ssid (a + 1) w'.
Proof.
  destruct w as [ev tick polls tr]. cbn [connect_loop].
  unfold bind, wlan_isconnected, print, time_sleep, emit, record_event, ret, raise.
  cbn. destruct (e_link ev polls); [reflexivity|]. destruct (a + 1 >? 10); reflexivity.
Qed.

(** The fuel is never the limit: any two fuels of at least [11 - a]
    give the same run, since the counter raises first. *)
Lemma connect_loop_fuel (f f' : nat) (ssid : string) (a : Z) (w : world) :
  0 <= a <= 10 -> 11 - a <= Z.of_nat f -> 11 - a <= Z.of_nat f' ->
  connect_loop f ssid a w = connect_loop f' ssid a w.
Proof.
  revert f' a w. induction f as [|f IH]; intros f' a w Ha Hf Hf'; [lia|].
  destruct f' as [|f']; [lia|]. rewrite !connect_loop_step.
  destruct (e_link (w_env w) (w_polls w)); [reflexivity|]. cbv zeta.
  destruct (Z.gtb_spec (a + 1) 10); [reflexivity|]. apply IH; lia.
Qed.

(** The poll after [k] failed ones answers [true] (and [k] failures do
    not exhaust the counter): the loop returns after [k + 1] polls. *)
Lemma connect_loop_success (k f : nat) (ssid : string) (a : Z) (w : world) :
  0 <= a -> a + Z.of_nat k <= 10 -> (k < f)%nat ->
  (forall i, (i < k)%nat -> e_link (w_env w) (w_polls w + i) = false) ->
  e_link (w_env w) (w_polls w + k) = true ->
  connect_loop f ssid a w =
  (inr tt, mk_world (w_env w) (w_tick w) (w_polls w + S k)
             (EvPoll true :: failed_attempts ssid k ++ w_trace w)).
Proof.
  revert f a w. induction k as [|k IH]; intros f a w Ha Hk Hf Hfail Hok;
    destruct f as [|f]; try lia; rewrite connect_loop_step.
  - rewrite Nat.add_0_r in Hok. rewrite Hok, Nat.add_1_r. reflexivity.
  - pose proof (Hfail 0%nat ltac:(lia)) as H0. rewrite Nat.add_0_r in H0. rewrite H0. cbv zeta.
    destruct (Z.gtb_spec (a + 1) 10); [lia|].
    rewrite IH; cbn [w_env w_tick w_polls w_trace failed_attempts]; try lia.
    + replace (S (w_polls w) + S k)%nat with (w_polls w + S (S k))%nat by lia.
      rewrite <- !app_assoc. reflexivity.
    + intros i Hi. rewrite Nat.add_succ_comm. apply Hfail. lia.
    + rewrite Nat.add_succ_comm. exact Hok.
Qed.

(** [n] failed polls when the counter is at [11 - n]: the loop raises
    [OSError] after exactly those [n] polls. *)
Lemma connect_loop_failure (n f : nat) (ssid : string) (w : world) :
  (1 <= n <= f)%nat ->
  (forall i, (i < n)%nat -> e_link (w_env w) (w_polls w + i) = false) ->
  connect_loop f ssid (11 - Z.of_nat n) w =
  (inl CONNECT_ERROR, mk_world (w_env w) (w_tick w) (w_polls w + n)
                        (failed_attempts ssid n ++ w_trace w)).
Proof.
  revert f w. induction n as [|n IH]; intros f w Hn Hfail; [lia|].
  destruct f as [|f]; [lia|]. rewrite connect_loop_step.
  pose proof (Hfail 0%nat ltac:(lia)) as H0. rewrite Nat.add_0_r in H0. rewrite H0. cbv zeta.
  destruct (Z.gtb_spec (11 - Z.of_nat (S n) + 1) 10).
  - assert (n = 0%nat) as -> by lia. cbn. rewrite Nat.add_1_r. reflexivity.
  - replace (11 - Z.of_nat (S n) + 1) with (11 - Z.of_nat n) by lia.
    rewrite IH; cbn [w_env w_tick w_polls w_trace failed_attempts]; try lia.
    + replace (S (w_polls w) + n)%nat with (w_polls w + S n)%nat by lia.
      rewrite <- !app_assoc. reflexivity.
    + intros i Hi. rewrite Nat.add_succ_comm. apply Hfail. lia.
Qed.

(** ** [network_connect] *)

Lemma network_connect_unfold (ssid pw : string) (w : world) :
  network_connect ssid pw w =
  connect_loop NETWORK_FUEL ssid 0
    (mk_world (w_env w) (w_tick w) (w_polls w)
              (EvWlanConnect ssid pw :: EvWlanActive true :: w_trace w)).
Proof. reflexivity. Qed.

(** C21: Eleven failed polls in a row: [network_connect] raises the
    connectivity [OSError] after exactly eleven polls, eleven messages and
    eleven one-second sleeps (the spec says ten). *)
Theorem network_connect_gives_up (ssid pw : string) (w : world) :
  (forall i, (i < 11)%nat -> e_link (w_env w) (w_polls w + i) = false) ->
  network_connect ssid pw w =
  (inl CONNECT_ERROR,
   mk_world (w_env w) (w_tick w) (w_polls w + 11)
            (failed_attempts ssid 11 ++ EvWlanConnect ssid pw :: EvWlanActive true :: w_trace w)).
Proof.
  intros Hfail. rewrite network_connect_unfold.
  exact (connect_loop_failure 11 NETWORK_FUEL ssid
           (mk_world (w_env w) (w_tick w) (w_polls w)
                     (EvWlanConnect ssid pw :: EvWlanActive true :: w_trace w))
           ltac:(unfold NETWORK_FUEL; lia) Hfail).
Qed.

(** C22: The first successful poll is the [k+1]-th, with [k <= 10]: the
    connection is established after [k] failed attempts; in particular
    ten failed polls do not abort the start-up. *)
Theorem network_connect_succeeds (k : nat) (ssid pw : string) (w : world) :
  (k < 11)%nat ->
  (forall i, (i < k)%nat -> e_link (w_env w) (w_polls w + i) = false) ->
  e_link (w_env w) (w_polls w + k) = true ->
  network_connect ssid pw w =
  (inr tt, mk_world (w_env w) (w_tick w) (w_polls w + S k)
             (EvPoll true :: failed_attempts ssid k
                ++ EvWlanConnect ssid pw :: EvWlanActive true :: w_trace w)).
Proof.
  intros Hk Hfail Hok. rewrite network_connect_unfold.
  exact (connect_loop_success k NETWORK_FUEL ssid 0
           (mk_world (w_env w) (w_tick w) (w_polls w)
                     (EvWlanConnect ssid pw :: EvWlanActive true :: w_trace w))
           ltac:(lia) ltac:(lia) ltac:(unfold NETWORK_FUEL; lia) Hfail Hok).
Qed.

(** C23: The loop terminates whatever the link answers: [network_connect]
    returns or raises the connectivity error, after between one and
    eleven polls. *)
Theorem network_connect_terminates (ssid pw : string) (w : world) :
  let '(r, w') := network_connect ssid pw w in
  (r = inr tt \/ r = inl CONNECT_ERROR) /\
  (w_polls w < w_polls w' <= w_polls w + 11)%nat.
Proof.
  destruct (first_true_or_all_false (fun i => e_link (w_env w) (w_polls w + i)) 11)
    as [Hall|(k & Hk & Hbefore & Hk')].
  - rewrite network_connect_unfold, (connect_loop_failure 11 NETWORK_FUEL ssid)
      by (cbn [w_polls w_env]; unfold NETWORK_FUEL; auto with arith).
    cbn [w_polls]. split; [right; reflexivity | lia].
  - rewrite network_connect_unfold, (connect_loop_success k NETWORK_FUEL ssid 0)
      by (cbn [w_polls w_env]; unfold NETWORK_FUEL; auto with zarith).
    cbn [w_polls]. split; [left; reflexivity | lia].
Qed.

(** ** The secrets check *)

(** C24: An empty [WIFI_PASSWORD] with a non-empty SSID does not stop
    the script either: the message is printed and the credentials are
    returned to the rest of the start-up. *)
Theorem check_secrets_empty_password (ssid : string) (w : world) :
  ssid <> EmptyString ->
  check_secrets (Some (ssid, EmptyString)) w =
  (inr (ssid, EmptyString), record_event (EvPrint "WIFI_PASSWORD in 'secrets.py' is empty!") w).
Proof.
  intros Hs. unfold check_secrets.
  destruct (String.eqb_spec ssid EmptyString); [contradiction|]. reflexivity.
Qed.

(** With both names present, the check returns them, after at most a
    printed message. *)
Lemma check_secrets_some (ssid pw : string) (w : world) :
  exists l, (l = [] \/ exists msg, l = [EvPrint msg]) /\
            check_secrets (Some (ssid, pw)) w =
            (inr (ssid, pw), mk_world (w_env w) (w_tick w) (w_polls w) (l ++ w_trace w)).
Proof.
  destruct w as [ev tk pl tr]. unfold check_secrets.
  destruct (String.eqb ssid EmptyString); [|destruct (String.eqb pw EmptyString)].
  - exists [EvPrint "WIFI_SSID in 'secrets.py' is empty!"]. split; [eauto | reflexivity].
  - exists [EvPrint "WIFI_PASSWORD in 'secrets.py' is empty!"]. split; [eauto | reflexivity].
  - exists []. split; [auto | reflexivity].
Qed.

(** Non-empty credentials pass the check silently. *)
Lemma check_secrets_ok (ssid pw : string) (w : world) :
  ssid <> EmptyString -> pw <> EmptyString -> check_secrets (Some (ssid, pw)) w = (inr (ssid, pw), w).
Proof.
  intros Hs Hp. unfold check_secrets.
  destruct (String.eqb_spec ssid EmptyString); [contradiction|].
  destruct (String.eqb_spec pw EmptyString); [contradiction|]. reflexivity.
Qed.

(** The secrets check and the connection send no request and do not read
    the clock. *)
Lemma quiet_check_secrets (sec : secrets) : quiet (check_secrets sec).
Proof. unfold check_secrets. quiet_tac. Qed.

Lemma quiet_connect_loop (f : nat) (ssid : string) (a : Z) : quiet (connect_loop f ssid a).
Proof.
  revert a. induction f as [|f IH]; intros a; cbn [connect_loop]; [apply quiet_raise|].
  quiet_tac.
Qed.

Lemma quiet_network_connect (ssid pw : string) : quiet (network_connect ssid pw).
Proof. unfold network_connect. apply quiet_bind; [quiet_tac|]. intros _. apply quiet_bind; [quiet_tac|]. intros _. apply quiet_connect_loop. Qed.

#[export] Hint Resolve quiet_check_secrets quiet_connect_loop quiet_network_connect : quiet.

(** ** Witnesses *)

Definition link_env (link : nat -> bool) : env :=
  mk_env (fun _ => 0%Z) link "192.168.1.42" (inr sample_reply) (240, 240) (fun m _ => py_str_Z m)
         (fun _ => inr RespMalformed).

Lemma network_connect_gives_up_witness :
  network_connect "presto-net" "secret" (mk_world (link_env (fun _ => false)) 0 0 [])
  = (inl CONNECT_ERROR,
     mk_world (link_env (fun _ => false)) 0 11
              (failed_attempts "presto-net" 11
                 ++ [EvWlanConnect "presto-net" "secret"; EvWlanActive true])).
Proof. apply network_connect_gives_up. intros i Hi. reflexivity. Defined.

(** Ten failed polls, then the link is up: the start-up goes on. *)
Lemma network_connect_succeeds_witness :
  network_connect "presto-net" "secret" (mk_world (link_env (fun i => (10 <=? i)%nat)) 0 0 [])
  = (inr tt,
     mk_world (link_env (fun i => (10 <=? i)%nat)) 0 11
              (EvPoll true :: failed_attempts "presto-net" 10
                 ++ [EvWlanConnect "presto-net" "secret"; EvWlanActive true])).
Proof.
  apply (network_connect_succeeds 10).
  - lia.
  - intros i Hi. change ((10 <=? 0 + i)%nat = false). apply Nat.leb_gt. lia.
  - reflexivity.
Defined.

Lemma check_secrets_empty_password_witness :
  check_secrets (Some ("presto-net", EmptyString)) (mk_world (link_env (fun _ => true)) 0 0 [])
  = (inr ("presto-net", EmptyString),
     record_event (EvPrint "WIFI_PASSWORD in 'secrets.py' is empty!")
                  (mk_world (link_env (fun _ => true)) 0 0 [])).
Proof. apply check_secrets_empty_password. discriminate. Defined.
