(* ===== verification/Display.v ===== *)
(** * The drawing of one frame (lines 76-92 and 133-173)

    The pens of lines 77-82, [MARGIN], Python's [str] on the values the
    prices can be ([py_str]; the runtime's formatting of floats is the
    environment's [e_float_str]), the background of lines 133-140 and
    the labelled prices of lines 149-173, ending with [presto.update].
    [price_events] lists the events [draw_prices] produces. *)

From Stdlib Require Import ZArith List String Ascii Bool Lia.
From S2P Require Import Prelude PyValue Calendar Effects.
Import ListNotations.
Open Scope Z_scope.
Open Scope string_scope.

Definition ORANGE : pen := mk_pen 255 99 71.
Definition ORANGE_2 : pen := mk_pen 255 (99 + 50) (71 + 50).
Definition ORANGE_3 : pen := mk_pen 255 (99 + 20) (71 + 20).
Definition ORANGE_4 : pen := mk_pen 255 (99 + 70) (71 + 70).
Definition WHITE : pen := mk_pen 255 255 255.
Definition BLACK : pen := mk_pen 0 0 0.

Definition MARGIN : Z := 15.

(** ** [str] of a decoded value *)

Fixpoint join (sep : string) (xs : list string) : string :=
  match xs with
  | [] => EmptyString
  | [x] => x
  | x :: rest => x ++ sep ++ join sep rest
  end.

(** One character of a string inside [repr]'s quotes [q]: backslash, the
    quote itself, tab, newline and carriage return are escaped, other
    control characters are written [\xNN]. *)
Definition repr_char (q c : ascii) : string :=
  let n := nat_of_ascii c in
  if Ascii.eqb c "\" then String "\" (String "\" EmptyString)
  else if Ascii.eqb c q then String "\" (String q EmptyString)
  else if Nat.eqb n 9 then "\t"
  else if Nat.eqb n 10 then "\n"
  else if Nat.eqb n 13 then "\r"
  else if Nat.ltb n 32 || Nat.eqb n 127 then
    String "\" (String "x" (String (hex_digit (n / 16)) (String (hex_digit (n mod 16)) EmptyString)))
  else String c EmptyString.

Fixpoint repr_chars (q : ascii) (s : string) : string :=
  match s with
  | EmptyString => EmptyString
  | String c rest => repr_char q c ++ repr_chars q rest
  end.

Fixpoint has_char (c : ascii) (s : string) : bool :=
  match s with
  | EmptyString => false
  | String c' rest => Ascii.eqb c c' || has_char c rest
  end.

(** [repr] of a string: single quotes, unless the string contains a
    single quote and no double quote. *)
Definition repr_str (s : string) : string :=
  let q := if has_char "'" s && negb (has_char DQUOTE s) then DQUOTE else "'"%char in
  String q (repr_chars q s ++ String q EmptyString).

(** [repr]; [ff] is the runtime's formatting of floats. *)
Fixpoint py_repr (ff : Z -> Z -> string) (v : pyval) : string :=
  match v with
  | PNone => "None"
  | PBool b => if b then "True" else "False"
  | PInt z => py_str_Z z
  | PFloat m e => ff m e
  | PStr s => repr_str s
  | PList xs =>
      "[" ++ join ", " ((fix go (l : list pyval) : list string :=
                           match l with
                           | [] => []
                           | x :: r => py_repr ff x :: go r
                           end) xs) ++ "]"
  | PDict kvs =>
      "{" ++ join ", " ((fix go (l : list (string * pyval)) : list string :=
                           match l with
                           | [] => []
                           | (k, x) :: r => (repr_str k ++ ": " ++ py_repr ff x) :: go r
                           end) kvs) ++ "}"
  end.

(** [str]: a string is itself, anything else its [repr]. *)
Definition py_str (ff : Z -> Z -> string) (v : pyval) : string :=
  match v with
  | PStr s => s
  | _ => py_repr ff v
  end.

(** [str(["a", "it's"])] is [['a', "it's"]]; a nested dict is shown with
    its keys quoted. *)
Example py_str_list_example :
  py_str (fun m _ => py_str_Z m) (PList [PStr "a"; PStr "it's"])
  = "['a', " ++ String DQUOTE ("it's" ++ String DQUOTE "]").
Proof. reflexivity. Qed.

Example py_str_dict_example :
  py_str (fun m _ => py_str_Z m) (PDict [("value_inc_vat", PInt 21); ("note", PNone)])
  = "{'value_inc_vat': 21, 'note': None}".
Proof. reflexivity. Qed.

(** [f"{v}p"]. *)
Definition price_text (v : pyval) : M string :=
  fun w => (inr (py_str (e_float_str (w_env w)) v ++ "p"), w).

(** ** The frame *)

(** Lines 133-140 (and the [Polygon] of lines 138-140). *)
Definition draw_background (HEIGHT : Z) : M unit :=
  draw (SetPen ORANGE) ;;
  draw Clear ;;
  draw (SetPen ORANGE_4) ;;
  draw (VCircle 0 (HEIGHT / 2) 190).

(** Lines 149-173. *)
Definition draw_prices (next_price current_price last_price : pyval) : M unit :=
  draw (VSetFontSize 28) ;;
  draw (SetPen ORANGE_2) ;;
  draw (VText "last:" MARGIN 50) ;;
  s1 <- price_text last_price ;;
  draw (VText s1 MARGIN 70) ;;
  draw (VSetFontSize 52) ;;
  draw (SetPen BLACK) ;;
  draw (VText "Now:" (MARGIN + 2) (120 + 2)) ;;
  draw (VSetFontSize 58) ;;
  s2 <- price_text current_price ;;
  draw (VText s2 (MARGIN + 2) (160 + 2)) ;;
  draw (SetPen WHITE) ;;
  draw (VSetFontSize 52) ;;
  draw (VText "Now:" MARGIN 120) ;;
  draw (VSetFontSize 58) ;;
  s3 <- price_text current_price ;;
  draw (VText s3 MARGIN 160) ;;
  draw (VSetFontSize 28) ;;
  draw (SetPen ORANGE_3) ;;
  draw (VText "Next:" MARGIN 195) ;;
  s4 <- price_text next_price ;;
  draw (VText s4 MARGIN 215) ;;
  presto_update.

(** The events of [draw_prices], newest first. *)
Definition price_events (ff : Z -> Z -> string) (next_price current_price last_price : pyval)
    : list event :=
  let t v := py_str ff v ++ "p" in
  [EvUpdate;
   EvDraw (VText (t next_price) MARGIN 215);
   EvDraw (VText "Next:" MARGIN 195);
   EvDraw (SetPen ORANGE_3);
   EvDraw (VSetFontSize 28);
   EvDraw (VText (t current_price) MARGIN 160);
   EvDraw (VSetFontSize 58);
   EvDraw (VText "Now:" MARGIN 120);
   EvDraw (VSetFontSize 52);
   EvDraw (SetPen WHITE);
   EvDraw (VText (t current_price) (MARGIN + 2) (160 + 2));
   EvDraw (VSetFontSize 58);
   EvDraw (VText "Now:" (MARGIN + 2) (120 + 2));
   EvDraw (SetPen BLACK);
   EvDraw (VSetFontSize 52);
   EvDraw (VText (t last_price) MARGIN 70);
   EvDraw (VText "last:" MARGIN 50);
   EvDraw (SetPen ORANGE_2);
   EvDraw (VSetFontSize 28)].

Definition background_events (HEIGHT : Z) : list event :=
  [EvDraw (VCircle 0 (HEIGHT / 2) 190); EvDraw (SetPen ORANGE_4); EvDraw Clear;
   EvDraw (SetPen ORANGE)].

Lemma draw_background_run (HEIGHT : Z) (w : world) :
  draw_background HEIGHT w =
  (inr tt, mk_world (w_env w) (w_tick w) (w_polls w) (background_events HEIGHT ++ w_trace w)).
Proof. destruct w; reflexivity. Qed.

Lemma draw_prices_run (n c l : pyval) (w : world) :
  draw_prices n c l w =
  (inr tt, mk_world (w_env w) (w_tick w) (w_polls w)
                    (price_events (e_float_str (w_env w)) n c l ++ w_trace w)).
Proof. destruct w; reflexivity. Qed.
