(* ===== verification/App.v ===== *)
(** * The application: start-up and the render loop (lines 17-173)

    The script's global variables [next_price], [current_price],
    [last_price], [last_updated], [WIDTH] and [HEIGHT] are the record
    [globals], passed explicitly.  [startup] is everything from the
    secrets check to the first [get_prices] (lines 17-127); [frame] is
    one iteration of [while True] (lines 132-173); [loop n] runs [n]
    iterations and [run] is the whole script cut after [n] frames.  The
    states the script can be in are [reachable]: those [startup]
    produces, and those a [frame] produces from a reachable one.

    The theorems describe one frame (with and without a refresh, the
    number of requests it sends, the age of the prices it draws), the
    invariants of the reachable states proved by rule induction (the
    price triple comes from one answer; fetch decisions are more than
    1800 seconds apart, hence a bound on the number of requests), and
    progress (the loop fetches again within a bounded number of
    frames). *)

From Stdlib Require Import ZArith List String Bool Lia.
From S2P Require Import Prelude PyValue Calendar Ntp Effects Fetcher PricingApi Network Display.
Import ListNotations.
Open Scope Z_scope.
Open Scope string_scope.

Record globals := mk_globals {
  next_price : pyval;
  current_price : pyval;
  last_price : pyval;
  last_updated : Z;
  WIDTH : Z;
  HEIGHT : Z }.

(** Lines 17-92: credentials, connection, clock, display set-up and the
    "Getting prices..." screen; returns [display.get_bounds()]. *)
Definition setup (sec : secrets) : M (Z * Z) :=
  '(WIFI_SSID, WIFI_PASSWORD) <- check_secrets sec ;;
  network_connect WIFI_SSID WIFI_PASSWORD ;;
  ip_addr <- wlan_ip ;;
  print ("Successfully connected to " ++ WIFI_SSID ++ ". Your Pimoroni Presto IP is: " ++ ip_addr) ;;
  ntp_settime ;;
  bounds <- display_get_bounds ;;
  draw (VSetAntialiasing ANTIALIAS_BEST) ;;
  draw (VSetFont "Roboto-Medium.af" 54) ;;
  draw (VSetLetterSpacing 100) ;;
  draw (VSetWordSpacing 100) ;;
  draw VSetTransform ;;
  draw (SetPen ORANGE) ;;
  draw Clear ;;
  draw (SetPen ORANGE_3) ;;
  draw (DText "Getting prices..." 10 (90 + 2) (fst bounds) 4) ;;
  presto_update ;;
  presto_update ;;
  ret bounds.

(** Lines 17-127: the set-up, [last_updated = time.time()] and the first
    [get_prices]. *)
Definition startup (sec : secrets) : M globals :=
  '(W, H) <- setup sec ;;
  t0 <- time_time ;;
  '(n, c, l) <- get_prices ;;
  ret (mk_globals n c l t0 W H).

(** Lines 144-146: the refresh when more than half an hour has passed. *)
Definition refresh (g : globals) : M globals :=
  '(n, c, l) <- get_prices ;;
  t <- time_time ;;
  ret (mk_globals n c l t (WIDTH g) (HEIGHT g)).

(** Lines 132-173: one iteration of the render loop. *)
Definition frame (g : globals) : M globals :=
  draw_background (HEIGHT g) ;;
  now <- time_time ;;
  g' <- (if now - last_updated g >? 1800 then refresh g else ret g) ;;
  draw_prices (next_price g') (current_price g') (last_price g') ;;
  ret g'.

Fixpoint loop (n : nat) (g : globals) : M globals :=
  match n with
  | O => ret g
  | S n' => g' <- frame g ;; loop n' g'
  end.

(** The script cut after [n] frames. *)
Definition run (sec : secrets) (n : nat) : M globals :=
  g <- startup sec ;; loop n g.

Definition initial_world (e : env) : world := mk_world e 0 0 [].

(** The states of the script after start-up and any number of frames. *)
Inductive reachable (sec : secrets) (e : env) : globals -> world -> Prop :=
| reach_startup g w :
    startup sec (initial_world e) = (inr g, w) -> reachable sec e g w
| reach_frame g w g' w' :
    reachable sec e g w -> frame g w = (inr g', w') -> reachable sec e g' w'.

(** ** One frame *)

Definition add_events (l : list event) (w : world) : world :=
  mk_world (w_env w) (w_tick w) (w_polls w) (l ++ w_trace w).

(** The world after [time.time()]. *)
Definition tick_world (w : world) : world :=
  mk_world (w_env w) (S (w_tick w)) (w_polls w) (EvClock (now_reading w) :: w_trace w).

Lemma frame_unfold (g : globals) (w : world) :
  frame g w =
  match (if now_reading w - last_updated g >? 1800 then refresh g else ret g)
          (tick_world (add_events (background_events (HEIGHT g)) w)) with
  | (inl e, w') => (inl e, w')
  | (inr g', w') =>
      (inr g', add_events (price_events (e_float_str (w_env w')) (next_price g')
                                         (current_price g') (last_price g')) w')
  end.
Proof.
  unfold frame. rewrite (bind_inr _ _ w _ tt (draw_background_run (HEIGHT g) w)).
  unfold bind at 1. unfold time_time at 1. cbn [w_env w_tick w_polls w_trace].
  unfold tick_world, add_events, now_reading. cbn [w_env w_tick w_polls w_trace].
  unfold bind.
  destruct ((if e_clock (w_env w) (w_tick w) - last_updated g >? 1800 then refresh g else ret g) _)
    as [[e|g'] w']; [reflexivity|].
  rewrite draw_prices_run. reflexivity.
Qed.

(** The frame when no refresh is due. *)
Lemma frame_idle (g : globals) (w : world) :
  now_reading w - last_updated g <= 1800 ->
  frame g w =
  (inr g, add_events (price_events (e_float_str (w_env w)) (next_price g) (current_price g)
                                   (last_price g))
                     (tick_world (add_events (background_events (HEIGHT g)) w))).
Proof.
  intros H. rewrite frame_unfold. destruct (Z.gtb_spec (now_reading w - last_updated g) 1800); [lia|].
  reflexivity.
Qed.

(** C6: Elapsed time of at most 1800 seconds (1800 included, unlike the
    spec): the frame keeps the globals, reads the clock once, draws the
    background and the same three prices, and sends no request. *)
Theorem frame_no_refresh (g : globals) (w : world) :
  now_reading w - last_updated g <= 1800 ->
  exists w', frame g w = (inr g, w') /\
    w_env w' = w_env w /\ w_polls w' = w_polls w /\ w_tick w' = S (w_tick w) /\
    w_trace w' = (price_events (e_float_str (w_env w)) (next_price g) (current_price g) (last_price g)
                 ++ EvClock (now_reading w) :: background_events (HEIGHT g) ++ w_trace w)%list.
Proof.
  intros H. rewrite (frame_idle g w H). eexists. split; [reflexivity|].
  destruct w; repeat split.
Qed.

Lemma refresh_run (g : globals) (w : world) :
  refresh g w =
  match get_prices w with
  | (inl e, w') => (inl e, w')
  | (inr (n, c, l), w') => (inr (mk_globals n c l (now_reading w') (WIDTH g) (HEIGHT g)), tick_world w')
  end.
Proof.
  unfold refresh, bind. destruct (get_prices w) as [[e|[[n c] l]] w']; reflexivity.
Qed.

(** C7: Elapsed time of more than 1800 seconds and a well-formed answer:
    the frame fetches, takes the three values of the answer as the new
    prices, sets [last_updated] to the clock reading after the fetch,
    and draws the new prices. *)
Theorem frame_refresh (g : globals) (w : world) (url : string) (j n c l : pyval) :
  let w1 := tick_world (add_events (background_events (HEIGHT g)) w) in
  now_reading w - last_updated g > 1800 ->
  window_url (localtime (now_reading w1)) = inr url ->
  e_server (w_env w) url = inr (RespJson j) ->
  extract_prices j = inr (n, c, l) ->
  frame g w =
  (inr (mk_globals n c l (now_reading (after_fetch w1 url)) (WIDTH g) (HEIGHT g)),
   add_events (price_events (e_float_str (w_env w)) n c l) (tick_world (after_fetch w1 url))).
Proof.
  intros w1 Hgt Hurl Hsrv Hx. rewrite frame_unfold.
  destruct (Z.gtb_spec (now_reading w - last_updated g) 1800); [|lia].
  rewrite refresh_run. fold w1.
  rewrite (get_prices_on_answer w1 url Hurl).
  change (e_server (w_env w1) url) with (e_server (w_env w) url). rewrite Hsrv. cbn [body_outcome]. now rewrite Hx.
Qed.

(** C19: A refresh whose answer cannot be decoded: the frame keeps running
    and shows "0p" for the last, current and next prices. *)
Theorem frame_malformed_shows_0p (g : globals) (w : world) (url : string) :
  let w1 := tick_world (add_events (background_events (HEIGHT g)) w) in
  now_reading w - last_updated g > 1800 ->
  window_url (localtime (now_reading w1)) = inr url ->
  e_server (w_env w) url = inr RespMalformed ->
  exists w',
    frame g w = (inr (mk_globals (PInt 0) (PInt 0) (PInt 0) (now_reading (after_fetch w1 url))
                                 (WIDTH g) (HEIGHT g)), w') /\
    In (EvDraw (VText "0p" MARGIN 70)) (w_trace w') /\
    In (EvDraw (VText "0p" MARGIN 160)) (w_trace w') /\
    In (EvDraw (VText "0p" MARGIN 215)) (w_trace w').
Proof.
  intros w1 Hgt Hurl Hsrv. rewrite frame_unfold.
  destruct (Z.gtb_spec (now_reading w - last_updated g) 1800); [|lia].
  rewrite refresh_run. fold w1.
  rewrite (get_prices_on_answer w1 url Hurl).
  change (e_server (w_env w1) url) with (e_server (w_env w) url). rewrite Hsrv. cbn [body_outcome is_value_error].
  eexists. split; [reflexivity|].
  cbn [w_trace add_events tick_world price_events app].
  repeat split; repeat (first [left; reflexivity | right]).
Qed.

(** ** Invariants of the reachable states *)

Definition prices (g : globals) : pyval * pyval * pyval :=
  (next_price g, current_price g, last_price g).

(** The number of GETs in a trace. *)
Definition count_gets (tr : list event) : nat := List.length (filter is_get tr).

Definition no_gets (l : list event) : bool := forallb (fun ev => negb (is_get ev)) l.

(** The URL of the most recent GET of a trace (newest first). *)
Fixpoint last_get (tr : list event) : option string :=
  match tr with
  | [] => None
  | EvHttpGet url :: _ => Some url
  | _ :: rest => last_get rest
  end.

(** For each GET of a trace, the clock reading taken before the one of
    [time.localtime()] inside [get_prices]: the reading the decision to
    fetch was based on (line 144, or line 96 for the first fetch). *)
Fixpoint fetch_checks (tr : list event) : list Z :=
  match tr with
  | EvHttpGet _ :: EvClock _ :: EvClock t :: rest => t :: fetch_checks rest
  | _ :: rest => fetch_checks rest
  | [] => []
  end.

(** Successive values (newest first) more than [gap] apart. *)
Fixpoint spaced (gap : Z) (l : list Z) : Prop :=
  match l with
  | x :: ((y :: _) as rest) => x - y > gap /\ spaced gap rest
  | _ => True
  end.

Definition clock_monotone (e : env) : Prop :=
  forall i j, (i <= j)%nat -> e_clock e i <= e_clock e j.

Lemma last_get_no_gets (l tr : list event) :
  no_gets l = true -> last_get (l ++ tr) = last_get tr.
Proof.
  induction l as [|[] l IH]; cbn; intros H; try discriminate; auto.
Qed.

Lemma fetch_checks_no_gets (l tr : list event) :
  no_gets l = true -> fetch_checks (l ++ tr) = fetch_checks tr.
Proof.
  induction l as [|[] l IH]; cbn; intros H; try discriminate; auto.
Qed.

Lemma price_events_no_gets (ff : Z -> Z -> string) (n c l : pyval) :
  no_gets (price_events ff n c l) = true.
Proof. reflexivity. Qed.

Lemma background_events_no_gets (H : Z) : no_gets (background_events H) = true.
Proof. reflexivity. Qed.

Lemma no_gets_app (l1 l2 : list event) :
  no_gets l1 = true -> no_gets l2 = true -> no_gets (l1 ++ l2) = true.
Proof. unfold no_gets. rewrite forallb_app. intros -> ->. reflexivity. Qed.

#[export] Hint Resolve price_events_no_gets background_events_no_gets no_gets_app : presto.
#[export] Hint Rewrite last_get_no_gets fetch_checks_no_gets using auto with presto : presto_rw.

(** A frame that refreshes with the clock in range sends one request,
    whatever the answer. *)
Lemma frame_refresh_gets (g : globals) (w : world) :
  now_reading w - last_updated g > 1800 ->
  clock_in_range (e_clock (w_env w) (S (w_tick w))) ->
  count_gets (w_trace (snd (frame g w))) = S (count_gets (w_trace w)).
Proof.
  intros Hgt Hs. rewrite frame_unfold. unfold count_gets.
  destruct (Z.gtb_spec (now_reading w - last_updated g) 1800); [|lia].
  rewrite refresh_run. set (w1 := tick_world (add_events (background_events (HEIGHT g)) w)).
  destruct (window_url_ok (now_reading w1) Hs) as (last & next & Hurl & _).
  rewrite (get_prices_on_answer w1 _ Hurl).
  destruct (body_outcome _) as [e|[[n c] l]]; [destruct (is_value_error e)|];
    unfold w1, tick_world, add_events, after_fetch, price_events, background_events, SENTINEL;
    cbn; lia.
Qed.

(** C8: A frame sends exactly one price request when more than 1800
    seconds have passed since [last_updated], whatever the server
    answers, and none otherwise (at 1800 seconds exactly, none, where
    the spec asks for one). *)
Theorem frame_request_count (g : globals) (w : world) :
  clock_in_range (e_clock (w_env w) (S (w_tick w))) ->
  count_gets (w_trace (snd (frame g w))) =
  (count_gets (w_trace w) + if now_reading w - last_updated g >? 1800 then 1 else 0)%nat.
Proof.
  intros Hs. destruct (Z.gtb_spec (now_reading w - last_updated g) 1800) as [Hgt|Hle].
  - rewrite (frame_refresh_gets g w ltac:(lia) Hs). lia.
  - rewrite (frame_idle g w Hle). unfold count_gets, tick_world, add_events, price_events, background_events.
    cbn. lia.
Qed.

(** A frame that refreshes, whatever the answer: the new prices are the
    sentinel (no GET was sent) or what the answer to the one GET yields,
    and [last_updated] is the reading after the fetch. *)
Lemma frame_refresh_cases (g : globals) (w : world) :
  now_reading w - last_updated g > 1800 ->
  let '(r, w') := frame g w in
  match r with
  | inl _ => True
  | inr g' =>
      w_env w' = w_env w /\ w_tick w' = S (S (S (w_tick w))) /\
      last_updated g' = e_clock (w_env w) (S (S (w_tick w))) /\
      exists l, no_gets l = true /\
      ((prices g' = SENTINEL /\
        w_trace w' = (l ++ EvClock (e_clock (w_env w) (S (w_tick w)))
                       :: EvClock (now_reading w) :: background_events (HEIGHT g) ++ w_trace w)%list) \/
       exists url,
         w_trace w' = (l ++ EvHttpGet url :: EvClock (e_clock (w_env w) (S (w_tick w)))
                        :: EvClock (now_reading w) :: background_events (HEIGHT g) ++ w_trace w)%list /\
         answer_prices (e_server (w_env w) url) = Some (prices g'))
  end.
Proof.
  intros Hgt. rewrite frame_unfold.
  destruct (Z.gtb_spec (now_reading w - last_updated g) 1800); [|lia].
  rewrite refresh_run.
  set (w1 := tick_world (add_events (background_events (HEIGHT g)) w)).
  pose proof (get_prices_cases w1) as Hc.
  destruct (get_prices w1) as [[e|[[n c] l]] w2]; [exact I|].
  destruct Hc as (He & Ht & _ & Hcase). cbn in He, Ht.
  cbn [w_env w_tick w_trace add_events tick_world prices next_price current_price last_price
       last_updated].
  assert (Hn2 : now_reading w2 = e_clock (w_env w) (S (S (w_tick w))))
    by (unfold now_reading; rewrite He, Ht; reflexivity).
  rewrite Hn2, He, Ht. repeat split; auto.
  exists (price_events (e_float_str (w_env w)) n c l ++ [EvClock (e_clock (w_env w) (S (S (w_tick w))))])%list.
  split; [apply no_gets_app; auto with presto|].
  rewrite <- app_assoc. cbn [app].
  destruct Hcase as [[Hs Htr] | (url & Htr & Hans)]; [left | right].
  - split; [exact Hs|]. rewrite Htr. reflexivity.
  - exists url. rewrite Htr. split; [reflexivity | exact Hans].
Qed.

Lemma quiet_setup (sec : secrets) : quiet (setup sec).
Proof. unfold setup. quiet_tac. Qed.

(** Start-up: the set-up leaves no GET and no clock reading; then
    [last_updated] is the first reading and [get_prices] takes the
    second. *)
Lemma startup_cases (sec : secrets) (e : env) :
  let '(r, w) := startup sec (initial_world e) in
  match r with
  | inl _ => True
  | inr g =>
      w_env w = e /\ last_updated g = e_clock e 0 /\ w_tick w = 2%nat /\
      exists l, no_gets l = true /\
      ((prices g = SENTINEL /\ w_trace w = EvClock (e_clock e 1) :: EvClock (e_clock e 0) :: l) \/
       exists url, w_trace w = EvHttpGet url :: EvClock (e_clock e 1) :: EvClock (e_clock e 0) :: l /\
                   answer_prices (e_server e url) = Some (prices g))
  end.
Proof.
  unfold startup. unfold bind at 1.
  destruct (quiet_setup sec (initial_world e)) as (l0 & Ht & Hg & He & Hk).
  destruct (setup sec (initial_world e)) as [[ex|[W H]] w1]; [exact I|].
  cbn in Ht, He, Hk. rewrite app_nil_r in Ht.
  unfold bind, time_time. cbn [w_env w_tick w_polls w_trace].
  set (w2 := mk_world (w_env w1) (S (w_tick w1)) (w_polls w1)
                      (EvClock (e_clock (w_env w1) (w_tick w1)) :: w_trace w1)).
  pose proof (get_prices_cases w2) as Hc.
  destruct (get_prices w2) as [[ex|[[n c] l]] w3]; [exact I|].
  destruct Hc as (He3 & Ht3 & _ & Hcase). cbn in He3, Ht3.
  unfold ret. cbn [prices next_price current_price last_price last_updated].
  rewrite He, Hk in *. rewrite He3, Ht3. repeat split; auto.
  exists l0. split; [exact Hg|].
  destruct Hcase as [[Hs Htr] | (url & Htr & Hans)]; [left | right].
  - split; [exact Hs|]. rewrite Htr. unfold w2, now_reading. cbn. rewrite Ht, He, Hk. reflexivity.
  - exists url. rewrite Htr. unfold w2, now_reading. cbn. rewrite Ht, He, Hk.
    split; [reflexivity | unfold w2 in Hans; cbn in Hans; rewrite He in Hans; exact Hans].
Qed.

Lemma reachable_env (sec : secrets) (e : env) (g : globals) (w : world) :
  reachable sec e g w -> w_env w = e.
Proof.
  induction 1 as [g w Hs | g w g' w' Hr IH Hf].
  - pose proof (startup_cases sec e) as Hc. rewrite Hs in Hc. apply Hc.
  - destruct (Z.leb_spec (now_reading w - last_updated g) 1800) as [Hle|Hgt].
    + rewrite (frame_idle g w Hle) in Hf. injection Hf as _ Hw. rewrite <- Hw. exact IH.
    + pose proof (frame_refresh_cases g w ltac:(lia)) as Hc. rewrite Hf in Hc.
      destruct Hc as (He & _). congruence.
Qed.

(** C3: The price triple is never partially updated: in every state the
    script reaches, the three prices are the sentinel (0, 0, 0) or the
    three values the answer to the most recent GET yields. *)
Theorem reachable_prices_from_answer (sec : secrets) (e : env) (g : globals) (w : world) :
  reachable sec e g w ->
  prices g = SENTINEL \/
  exists url, last_get (w_trace w) = Some url /\ answer_prices (e_server e url) = Some (prices g).
Proof.
  induction 1 as [g w Hs | g w g' w' Hr IH Hf].
  - pose proof (startup_cases sec e) as Hc. rewrite Hs in Hc.
    destruct Hc as (_ & _ & _ & l & _ & [[Hp _] | (url & Htr & Hans)]); [left; exact Hp|].
    right. exists url. rewrite Htr. split; [reflexivity | exact Hans].
  - pose proof (reachable_env sec e g w Hr) as He.
    destruct (Z.leb_spec (now_reading w - last_updated g) 1800) as [Hle|Hgt].
    + rewrite (frame_idle g w Hle) in Hf. injection Hf as <- <-.
      cbn [w_trace add_events tick_world]. rewrite !last_get_no_gets by auto with presto.
      cbn [last_get]. rewrite last_get_no_gets by auto with presto. exact IH.
    + pose proof (frame_refresh_cases g w ltac:(lia)) as Hc. rewrite Hf in Hc.
      destruct Hc as (_ & _ & _ & l & Hl & [[Hp _] | (url & Htr & Hans)]); [left; exact Hp|].
      right. exists url. rewrite Htr, last_get_no_gets by exact Hl. cbn [last_get].
      rewrite <- He. split; [reflexivity | exact Hans].
Qed.

Lemma spaced_cons (gap x : Z) (l : list Z) :
  (forall y rest, l = y :: rest -> x - y > gap) -> spaced gap l -> spaced gap (x :: l).
Proof. destruct l as [|y rest]; cbn; auto. intros H Hs. split; [eapply H; reflexivity | exact Hs]. Qed.

Lemma fetch_checks_quiet (l : list event) : no_gets l = true -> fetch_checks l = [].
Proof. intros H. rewrite <- (app_nil_r l), fetch_checks_no_gets by exact H. reflexivity. Qed.

Lemma reachable_clock_facts (sec : secrets) (e : env) (g : globals) (w : world) :
  clock_monotone e -> reachable sec e g w ->
  (exists k, (k < w_tick w)%nat /\ last_updated g = e_clock e k) /\
  spaced 1800 (fetch_checks (w_trace w)) /\
  (forall t rest, fetch_checks (w_trace w) = t :: rest -> t <= last_updated g).
Proof.
  intros Hmono. induction 1 as [g w Hs | g w g' w' Hr IH Hf].
  - pose proof (startup_cases sec e) as Hc. rewrite Hs in Hc.
    destruct Hc as (_ & Hlu & Htick & l & Hl & [[_ Htr] | (url & Htr & _)]);
      rewrite Htr; cbn [fetch_checks]; rewrite (fetch_checks_quiet l Hl);
      (split; [exists 0%nat; split; [lia | exact Hlu]|]); cbn; split; auto;
      intros t rest [= <- _]; lia.
  - pose proof (reachable_env sec e g w Hr) as He.
    destruct IH as ((k & Hk & Hlu) & Hsp & Hhead).
    destruct (Z.leb_spec (now_reading w - last_updated g) 1800) as [Hle|Hgt].
    + rewrite (frame_idle g w Hle) in Hf. injection Hf as <- <-.
      cbn [w_trace w_tick add_events tick_world].
      rewrite fetch_checks_no_gets by auto with presto. cbn [fetch_checks].
      rewrite fetch_checks_no_gets by auto with presto.
      split; [exists k; split; [lia | exact Hlu] | auto].
    + pose proof (frame_refresh_cases g w ltac:(lia)) as Hc. rewrite Hf in Hc.
      destruct Hc as (_ & Htick & Hlu' & l & Hl & Hcase). rewrite He in Hlu'.
      assert (Hle : last_updated g <= last_updated g')
        by (rewrite Hlu, Hlu'; apply Hmono; lia).
      split; [exists (S (S (w_tick w))); split; [lia | exact Hlu']|].
      destruct Hcase as [[_ Htr] | (url & Htr & _)]; rewrite Htr, fetch_checks_no_gets by exact Hl;
        cbn [fetch_checks]; rewrite fetch_checks_no_gets by auto with presto.
      * split; [exact Hsp|]. intros t rest Ht. specialize (Hhead t rest Ht). lia.
      * split.
        -- apply spaced_cons; [|exact Hsp]. intros y rest Hy. specialize (Hhead y rest Hy). lia.
        -- intros t rest [= <- _]. rewrite Hlu'. unfold now_reading. rewrite He. apply Hmono. lia.
Qed.

(** C4: Rate limit: with a clock that does not run backwards, the readings
    on which successive fetches were decided are more than 1800 seconds
    apart, in every state the script reaches: at most one price request
    per half hour. *)
Theorem reachable_fetches_spaced (sec : secrets) (e : env) (g : globals) (w : world) :
  clock_monotone e -> reachable sec e g w -> spaced 1800 (fetch_checks (w_trace w)).
Proof. intros Hm Hr. apply (reachable_clock_facts sec e g w Hm Hr). Qed.

(** C10: The prices drawn are never more than half an hour old: with a
    clock that does not run backwards, after a frame [last_updated] is
    at least the frame's own clock reading minus 1800 seconds (the
    prices were kept because they were recent enough, or fetched during
    the frame). *)
Theorem frame_prices_fresh (g g' : globals) (w w' : world) :
  clock_monotone (w_env w) -> frame g w = (inr g', w') ->
  now_reading w - 1800 <= last_updated g'.
Proof.
  intros Hm Hf. destruct (Z.leb_spec (now_reading w - last_updated g) 1800) as [Hle|Hgt].
  - rewrite (frame_idle g w Hle) in Hf. injection Hf as <- _. lia.
  - pose proof (frame_refresh_cases g w ltac:(lia)) as Hc. rewrite Hf in Hc.
    destruct Hc as (_ & _ & -> & _).
    assert (now_reading w <= e_clock (w_env w) (S (S (w_tick w)))) by (apply Hm; lia). lia.
Qed.

Lemma count_gets_quiet (l tr : list event) :
  no_gets l = true -> count_gets (l ++ tr) = count_gets tr.
Proof. unfold count_gets. induction l as [|[] l IH]; cbn; intros H; try discriminate; auto. Qed.

Lemma count_gets_cons (ev : event) (tr : list event) :
  count_gets (ev :: tr) = ((if is_get ev then 1 else 0) + count_gets tr)%nat.
Proof. unfold count_gets. cbn. destruct (is_get ev); reflexivity. Qed.

#[export] Hint Rewrite count_gets_quiet using auto with presto : presto_rw.

(** In a reachable state every GET of the trace is preceded by the two
    clock readings of its decision, and those readings are not before
    the first one. *)
Lemma reachable_counts (sec : secrets) (e : env) (g : globals) (w : world) :
  clock_monotone e -> reachable sec e g w ->
  count_gets (w_trace w) = List.length (fetch_checks (w_trace w)) /\
  Forall (fun t => e_clock e 0 <= t) (fetch_checks (w_trace w)).
Proof.
  intros Hmono. induction 1 as [g w Hs | g w g' w' Hr IH Hf].
  - pose proof (startup_cases sec e) as Hc. rewrite Hs in Hc.
    destruct Hc as (_ & _ & _ & l & Hl & [[_ Htr] | (url & Htr & _)]); rewrite Htr;
      cbn [fetch_checks]; rewrite (fetch_checks_quiet l Hl);
      pose proof (count_gets_quiet l [] Hl) as H0; rewrite app_nil_r in H0;
      unfold count_gets in *; cbn in *.
    + split; [lia | constructor].
    + split; [lia|]. repeat constructor. lia.
  - pose proof (reachable_env sec e g w Hr) as He. destruct IH as [Hcount Hall].
    destruct (Z.leb_spec (now_reading w - last_updated g) 1800) as [Hle|Hgt].
    + rewrite (frame_idle g w Hle) in Hf. injection Hf as <- <-.
      cbn [w_trace w_tick add_events tick_world].
      autorewrite with presto_rw. cbn [fetch_checks].
      rewrite fetch_checks_no_gets by auto with presto.
      rewrite count_gets_cons, count_gets_quiet by auto with presto. auto.
    + pose proof (frame_refresh_cases g w ltac:(lia)) as Hc. rewrite Hf in Hc.
      destruct Hc as (_ & _ & _ & l & Hl & Hcase).
      destruct Hcase as [[_ Htr] | (url & Htr & _)]; rewrite Htr, fetch_checks_no_gets by exact Hl;
        rewrite (count_gets_quiet l _ Hl); cbn [fetch_checks];
        rewrite fetch_checks_no_gets by auto with presto;
        rewrite !count_gets_cons, count_gets_quiet by auto with presto; cbn [is_get].
      * auto.
      * split; [cbn; lia|]. constructor; [|exact Hall].
        unfold now_reading. rewrite He. apply Hmono. lia.
Qed.

(** Spaced readings between [lo] and [hi]: [n] of them span at least
    [1801 (n - 1)] seconds. *)
Lemma spaced_span (lo hi : Z) (l : list Z) :
  spaced 1800 l -> Forall (fun t => lo <= t) l -> lo <= hi ->
  (forall t rest, l = t :: rest -> t <= hi) ->
  1801 * (Z.of_nat (List.length l) - 1) <= hi - lo.
Proof.
  revert hi. induction l as [|x rest IH]; intros hi Hsp Hall Hlo Hhd; [cbn; lia|].
  inversion Hall as [|? ? Hx Hrest]; subst. specialize (Hhd x rest eq_refl).
  destruct rest as [|y rest']; [cbn; lia|].
  destruct Hsp as [Hxy Hsp]. inversion Hrest as [|? ? Hy _]; subst.
  specialize (IH y Hsp Hrest Hy (fun t r H => ltac:(injection H as <- _; lia))).
  cbn [List.length] in *. lia.
Qed.

(** C5: A quantitative rate limit: with a clock that does not run
    backwards, in every state the script reaches, the number [n] of price
    requests sent so far satisfies [1801 (n - 1) <= last_updated - t0],
    where [t0] is the first clock reading: at most one request per 1801
    seconds of clock time, plus the first. *)
Theorem reachable_request_bound (sec : secrets) (e : env) (g : globals) (w : world) :
  clock_monotone e -> reachable sec e g w ->
  1801 * (Z.of_nat (count_gets (w_trace w)) - 1) <= last_updated g - e_clock e 0.
Proof.
  intros Hm Hr.
  destruct (reachable_clock_facts sec e g w Hm Hr) as ((k & _ & Hlu) & Hsp & Hhd).
  destruct (reachable_counts sec e g w Hm Hr) as [-> Hall].
  apply spaced_span; [exact Hsp | exact Hall | rewrite Hlu; apply Hm; lia | exact Hhd].
Qed.

(** ** Progress *)

(** A frame runs without an exception when the reading [get_prices]
    would take is in range and every answer yields a triple. *)
Lemma frame_progress_at (e : env) (g : globals) (w : world) :
  w_env w = e -> clock_in_range (e_clock e (S (w_tick w))) ->
  (forall url, answer_prices (e_server e url) <> None) ->
  exists g' w', frame g w = (inr g', w').
Proof.
  intros He Hclk Hans.
  destruct (Z.leb_spec (now_reading w - last_updated g) 1800) as [Hle|Hgt].
  - rewrite (frame_idle g w Hle). eauto.
  - rewrite frame_unfold. destruct (Z.gtb_spec (now_reading w - last_updated g) 1800); [|lia].
    rewrite refresh_run.
    set (w1 := tick_world (add_events (background_events (HEIGHT g)) w)).
    destruct (get_prices_answered w1) as (url & [[n c] l] & Hg).
    + unfold w1, now_reading. cbn. rewrite He. exact Hclk.
    + cbn. rewrite He. exact Hans.
    + rewrite Hg. eauto.
Qed.

(** A clock that advances by at least a second per reading. *)
Definition clock_advances (e : env) : Prop := forall i, e_clock e i + 1 <= e_clock e (S i).

Section Liveness.

Variable e : env.
Hypothesis answers : forall url, answer_prices (e_server e url) <> None.
Hypothesis advances : clock_advances e.

Lemma loop_one_fetch (g : globals) (w : world) :
  w_env w = e -> now_reading w - last_updated g > 1800 ->
  clock_in_range (e_clock e (S (w_tick w))) ->
  exists g' w', loop 1 g w = (inr g', w') /\ count_gets (w_trace w') = S (count_gets (w_trace w)).
Proof.
  intros He Hgt Hs. destruct (frame_progress_at e g w He Hs answers) as (g1 & w1 & Hf).
  pose proof (frame_refresh_gets g w Hgt ltac:(rewrite He; exact Hs)) as Hn.
  rewrite Hf in Hn. exists g1, w1. split; [|exact Hn].
  cbn [loop]. unfold bind. rewrite Hf. reflexivity.
Qed.

Lemma loop_fetch_measure (m : nat) :
  forall g w, w_env w = e -> (Z.to_nat (1801 - (now_reading w - last_updated g)) <= m)%nat ->
  (forall i, (w_tick w < i <= w_tick w + S m)%nat -> clock_in_range (e_clock e i)) ->
  exists n g' w', (n <= S m)%nat /\ loop n g w = (inr g', w') /\
                  count_gets (w_trace w') = S (count_gets (w_trace w)).
Proof.
  induction m as [|m IH]; intros g w He Hm Hs;
    (destruct (Z.leb_spec (now_reading w - last_updated g) 1800) as [Hle|Hgt];
     [|destruct (loop_one_fetch g w He ltac:(lia) ltac:(apply Hs; lia)) as (g' & w' & Hl & Hc);
       exists 1%nat, g', w'; split; [lia | split; assumption]]).
  - lia.
  - set (w1 := add_events (price_events (e_float_str (w_env w)) (next_price g) (current_price g)
                                        (last_price g))
                          (tick_world (add_events (background_events (HEIGHT g)) w))).
    assert (He1 : w_env w1 = e) by exact He.
    assert (Ht1 : w_tick w1 = S (w_tick w)) by reflexivity.
    assert (Hr1 : now_reading w + 1 <= now_reading w1)
      by (unfold w1, now_reading; cbn; rewrite He; apply advances).
    destruct (IH g w1 He1 ltac:(lia) ltac:(intros i Hi; apply Hs; lia)) as (n & g' & w' & Hn & Hl & Hc).
    exists (S n), g', w'. split; [lia|]. split.
    + cbn [loop]. unfold bind. rewrite (frame_idle g w Hle). exact Hl.
    + rewrite Hc. unfold w1, count_gets, tick_world, add_events, price_events, background_events.
      cbn. lia.
Qed.

End Liveness.

(** C9: The prices are refreshed in the end: when every answer yields a
    triple and the clock advances by at least a second per reading
    (staying in range over the frames considered), from any state, [n]
    frames with [n] at most one more than the seconds left before the
    refresh is due run without an exception and send exactly one price
    request. *)
Theorem loop_fetches_eventually (e : env) (g : globals) (w : world) :
  (forall url, answer_prices (e_server e url) <> None) -> clock_advances e -> w_env w = e ->
  let m := Z.to_nat (1801 - (now_reading w - last_updated g)) in
  (forall i, (w_tick w < i <= w_tick w + S m)%nat -> clock_in_range (e_clock e i)) ->
  exists n g' w',
    (n <= S m)%nat /\ loop n g w = (inr g', w') /\ count_gets (w_trace w') = S (count_gets (w_trace w)).
Proof.
  intros Hans Ha He m Hs. exact (loop_fetch_measure e Hans Ha m g w He (le_n _) Hs).
Qed.

(** ** Witnesses *)

Definition demo_secrets : secrets := Some ("presto-net", "secret").

(** A clock ticking 700 seconds per reading (then stopping, to stay in
    range), a link that is up, and a server that follows the API. *)
Definition demo_env : env :=
  mk_env (fun k => 1705315620 + 700 * Z.min (Z.of_nat k) 100000) (fun _ => true)
         "192.168.1.42" (inr sample_reply) (240, 240) (fun m _ => py_str_Z m) (octopus_server demo_tariff).

Definition demo_globals (updated : Z) : globals :=
  mk_globals (PInt 20) (PInt 21) (PInt 22) updated 240 240.

(** Exactly 1800 seconds after the last update: no refresh. *)
Lemma frame_no_refresh_witness :
  let g := demo_globals 1705313820 in
  let w := sample_world (fun _ => inr RespMalformed) in
  exists w', frame g w = (inr g, w') /\
    w_env w' = w_env w /\ w_polls w' = w_polls w /\ w_tick w' = S (w_tick w) /\
    w_trace w' = (price_events (e_float_str (w_env w)) (next_price g) (current_price g) (last_price g)
                 ++ EvClock (now_reading w) :: background_events (HEIGHT g) ++ w_trace w)%list.
Proof. intros g w. apply frame_no_refresh. unfold g, w, now_reading. cbn. lia. Defined.

(** 1801 seconds after the last update: the frame fetches. *)
Lemma frame_refresh_witness :
  let w := sample_world (fun _ => inr (RespJson (PDict sample_results))) in
  let w1 := tick_world (add_events (background_events 240) w) in
  frame (demo_globals 1705313819) w =
  (inr (mk_globals (PFloat 2541 (-2)) (PFloat 1932 (-2)) (PInt 21)
                   (now_reading (after_fetch w1 sample_url)) 240 240),
   add_events (price_events (fun m _ => py_str_Z m) (PFloat 2541 (-2)) (PFloat 1932 (-2)) (PInt 21))
              (tick_world (after_fetch w1 sample_url))).
Proof.
  intros w w1.
  apply (frame_refresh (demo_globals 1705313819) w sample_url (PDict sample_results)
           (PFloat 2541 (-2)) (PFloat 1932 (-2)) (PInt 21)).
  - unfold now_reading. cbn. lia.
  - vm_compute. reflexivity.
  - reflexivity.
  - vm_compute. reflexivity.
Defined.

Lemma frame_malformed_shows_0p_witness :
  let w := sample_world (fun _ => inr RespMalformed) in
  let w1 := tick_world (add_events (background_events 240) w) in
  exists w',
    frame (demo_globals 1705313819) w =
    (inr (mk_globals (PInt 0) (PInt 0) (PInt 0) (now_reading (after_fetch w1 sample_url)) 240 240), w') /\
    In (EvDraw (VText "0p" MARGIN 70)) (w_trace w') /\
    In (EvDraw (VText "0p" MARGIN 160)) (w_trace w') /\
    In (EvDraw (VText "0p" MARGIN 215)) (w_trace w').
Proof.
  intros w w1.
  apply (frame_malformed_shows_0p (demo_globals 1705313819) w sample_url).
  - unfold now_reading. cbn. lia.
  - vm_compute. reflexivity.
  - reflexivity.
Defined.

Lemma reachable_prices_from_answer_witness :
  exists g w, reachable demo_secrets demo_env g w /\
    (prices g = SENTINEL \/
     exists url, last_get (w_trace w) = Some url /\ answer_prices (e_server demo_env url) = Some (prices g)).
Proof.
  assert (Hok : match startup demo_secrets (initial_world demo_env) with
                | (inr _, _) => true
                | (inl _, _) => false
                end = true) by (vm_compute; reflexivity).
  destruct (startup demo_secrets (initial_world demo_env)) as [[ex|g] w] eqn:E; [discriminate Hok|].
  exists g, w. assert (Hr : reachable demo_secrets demo_env g w) by (apply reach_startup; exact E).
  split; [exact Hr | exact (reachable_prices_from_answer _ _ _ _ Hr)].
Defined.

Lemma reachable_fetches_spaced_witness :
  exists g w, reachable demo_secrets demo_env g w /\ spaced 1800 (fetch_checks (w_trace w)).
Proof.
  assert (Hok : match startup demo_secrets (initial_world demo_env) with
                | (inr _, _) => true
                | (inl _, _) => false
                end = true) by (vm_compute; reflexivity).
  destruct (startup demo_secrets (initial_world demo_env)) as [[ex|g] w] eqn:E; [discriminate Hok|].
  exists g, w. assert (Hr : reachable demo_secrets demo_env g w) by (apply reach_startup; exact E).
  split; [exact Hr|]. apply (reachable_fetches_spaced demo_secrets demo_env g w); [|exact Hr].
  intros i j Hij. unfold demo_env. cbn [e_clock]. lia.
Defined.

Lemma frame_prices_fresh_witness :
  exists g' w', frame (demo_globals 1705313819) (initial_world demo_env) = (inr g', w') /\
    now_reading (initial_world demo_env) - 1800 <= last_updated g'.
Proof.
  assert (Hok : match frame (demo_globals 1705313819) (initial_world demo_env) with
                | (inr _, _) => true
                | (inl _, _) => false
                end = true) by (vm_compute; reflexivity).
  destruct (frame (demo_globals 1705313819) (initial_world demo_env)) as [[ex|g'] w'] eqn:E;
    [discriminate Hok|].
  exists g', w'. split; [reflexivity|]. apply (frame_prices_fresh (demo_globals 1705313819) g' (initial_world demo_env) w'); [|exact E].
  intros i j Hij. unfold demo_env. cbn [w_env initial_world e_clock]. lia.
Defined.


Lemma frame_request_count_witness :
  let g := demo_globals 1705313819 in
  let w := initial_world demo_env in
  clock_in_range (e_clock (w_env w) (S (w_tick w))) /\
  count_gets (w_trace (snd (frame g w))) =
  (count_gets (w_trace w) + if now_reading w - last_updated g >? 1800 then 1 else 0)%nat.
Proof.
  intros g w.
  assert (H : clock_in_range (e_clock (w_env w) (S (w_tick w)))) by (unfold clock_in_range, g, w; decide_Z).
  split; [exact H | exact (frame_request_count g w H)].
Defined.

(** A clock ticking 700 seconds per reading without bound, and a server
    that always answers three periods. *)
Definition ticking_env : env :=
  mk_env (fun k => 1705315620 + 700 * Z.of_nat k) (fun _ => true)
         "192.168.1.42" (inr sample_reply) (240, 240) (fun m _ => py_str_Z m)
         (fun _ => inr (RespJson (PDict sample_results))).

Lemma loop_fetches_eventually_witness :
  let g := demo_globals 1705315620 in
  let w := initial_world ticking_env in
  let m := Z.to_nat (1801 - (now_reading w - last_updated g)) in
  exists n g' w',
    (n <= S m)%nat /\ loop n g w = (inr g', w') /\ count_gets (w_trace w') = S (count_gets (w_trace w)).
Proof.
  intros g w m. apply (loop_fetches_eventually ticking_env g w).
  - intros url. vm_compute. discriminate.
  - intros i. unfold ticking_env. cbn [e_clock]. lia.
  - reflexivity.
  - intros i Hi. unfold m, g, w, now_reading in Hi. cbn in Hi.
    unfold clock_in_range, ticking_env. cbn [e_clock]. lia.
Defined.

Lemma reachable_request_bound_witness :
  exists g w, reachable demo_secrets demo_env g w /\
    1801 * (Z.of_nat (count_gets (w_trace w)) - 1) <= last_updated g - e_clock demo_env 0.
Proof.
  assert (Hok : match startup demo_secrets (initial_world demo_env) with
                | (inr _, _) => true
                | (inl _, _) => false
                end = true) by (vm_compute; reflexivity).
  destruct (startup demo_secrets (initial_world demo_env)) as [[ex|g] w] eqn:E; [discriminate Hok|].
  exists g, w. assert (Hr : reachable demo_secrets demo_env g w) by (apply reach_startup; exact E).
  split; [exact Hr|]. apply (reachable_request_bound demo_secrets demo_env g w); [|exact Hr].
  intros i j Hij. unfold demo_env. cbn [e_clock]. lia.
Defined.
