(* ===== verification/Startup.v ===== *)
(** * Start-up from end to end, and runs of the whole script

    [setup_run] computes the set-up (lines 17-92) once the credentials
    are read and the network is joined: the message of line 55, the NTP
    call and the display set-up, with their events.  The section
    [Startup] fixes an environment in which the link comes up within the
    eleven polls [network_connect] allows, the NTP server answers, the
    clock is in range and the pricing server honours the API contract,
    and computes what [startup] (lines 17-127) returns.  The failure
    paths of start-up (missing secrets, the NTP call raising) and the
    link between [run], the executable script, and the relation
    [reachable] close the file. *)

From Stdlib Require Import ZArith List String Bool Lia.
From S2P Require Import Prelude PyValue Calendar Ntp Effects Fetcher PricingApi Network Display App.
Import ListNotations.
Open Scope Z_scope.
Open Scope string_scope.

(** The events of lines 55-92, newest first. *)
Definition setup_events (ssid ip : string) (rtc : list Z) (W : Z) : list event :=
  [EvUpdate; EvUpdate;
   EvDraw (DText "Getting prices..." 10 (90 + 2) W 4);
   EvDraw (SetPen ORANGE_3); EvDraw Clear; EvDraw (SetPen ORANGE);
   EvDraw VSetTransform; EvDraw (VSetWordSpacing 100); EvDraw (VSetLetterSpacing 100);
   EvDraw (VSetFont "Roboto-Medium.af" 54); EvDraw (VSetAntialiasing ANTIALIAS_BEST);
   EvNtpSetTime rtc;
   EvPrint ("Successfully connected to " ++ ssid ++ ". Your Pimoroni Presto IP is: " ++ ip)].

(** ** The set-up *)

Lemma setup_run (sec : secrets) (w w1 w2 : world) (ssid pw : string) (rtc : list Z) :
  check_secrets sec w = (inr (ssid, pw), w1) ->
  network_connect ssid pw w1 = (inr tt, w2) ->
  settime (e_ntp (w_env w2)) = inr rtc ->
  setup sec w =
  (inr (e_bounds (w_env w2)),
   mk_world (w_env w2) (w_tick w2) (w_polls w2)
            (setup_events ssid (e_ip (w_env w2)) rtc (fst (e_bounds (w_env w2))) ++ w_trace w2)).
Proof.
  intros Hs Hn Hntp. unfold setup. rewrite (bind_inr _ _ _ _ _ Hs). cbv beta iota.
  rewrite (bind_inr _ _ _ _ _ Hn). destruct w2 as [ev tk pl tr]. cbn in Hntp.
  unfold bind, wlan_ip, print, emit, ntp_settime, display_get_bounds, draw, presto_update,
    record_event, ret.
  cbn -[settime]. rewrite Hntp. reflexivity.
Qed.

(** The start of the half hour containing the instant [s], in minutes. *)
Definition period_start (s : Z) : Z := floor_to 30 (epoch_minutes s).

(** ** Start-up in a working environment *)

Section Connection.

Variables (ssid pw : string) (e : env) (k : nat).

(** The link answers [false] to the first [k] polls and [true] to the
    next one, with [k <= 10]. *)
Hypothesis link_down : forall i, (i < k)%nat -> e_link e i = false.
Hypothesis link_up : e_link e k = true.
Hypothesis few_failures : (k < 11)%nat.

(** Lines 17-48: the credentials are read (an empty name only prints
    a message) and the connection succeeds after [k] failed polls. *)
Lemma connected :
  exists l, (l = [] \/ exists msg, l = [EvPrint msg]) /\
    check_secrets (Some (ssid, pw)) (initial_world e) = (inr (ssid, pw), mk_world e 0 0 (l ++ [])) /\
    network_connect ssid pw (mk_world e 0 0 (l ++ [])) =
    (inr tt, mk_world e 0 (S k) (EvPoll true :: failed_attempts ssid k
                                  ++ EvWlanConnect ssid pw :: EvWlanActive true :: l ++ [])).
Proof.
  destruct (check_secrets_some ssid pw (initial_world e)) as (l & Hl & Hs).
  exists l. split; [exact Hl|]. split; [exact Hs|].
  rewrite network_connect_unfold.
  exact (connect_loop_success k NETWORK_FUEL ssid 0
           (mk_world e 0 0 (EvWlanConnect ssid pw :: EvWlanActive true :: l ++ []))
           ltac:(lia) ltac:(lia) ltac:(unfold NETWORK_FUEL; lia) link_down link_up).
Qed.

End Connection.

Section Startup.

Variables (ssid pw : string) (e : env) (tariff : Z -> pyval) (k : nat) (rtc : list Z).

Hypothesis link_down : forall i, (i < k)%nat -> e_link e i = false.
Hypothesis link_up : e_link e k = true.
Hypothesis few_failures : (k < 11)%nat.
(** The NTP exchange succeeds and sets the RTC to [rtc]. *)
Hypothesis ntp_ok : settime (e_ntp e) = inr rtc.
(** The reading [get_prices] takes is the second one. *)
Hypothesis clock_ok : clock_in_range (e_clock e 1).
Context `{contract : PricingContract (e_server e) tariff}.

Lemma setup_connects :
  exists w1, setup (Some (ssid, pw)) (initial_world e) = (inr (e_bounds e), w1) /\
    w_env w1 = e /\ w_tick w1 = 0%nat /\ In (EvWlanConnect ssid pw) (w_trace w1).
Proof.
  destruct (connected ssid pw e k link_down link_up few_failures) as (l & _ & Hs & Hn).
  rewrite (setup_run _ _ _ _ _ _ _ Hs Hn ntp_ok).
  eexists. split; [reflexivity|]. cbn [w_env w_tick w_trace]. split; [reflexivity|]. split; [reflexivity|].
  apply in_or_app. right. right. apply in_or_app. right. left. reflexivity.
Qed.

(** C2: Start-up refines its specification: when the link comes up
    within the polls [network_connect] allows, the NTP call succeeds,
    the clock is in range and the server honours the API contract,
    [startup] returns the tariff's prices for the next, current and
    last half hour of the second clock reading, with [last_updated]
    the first reading and the display's bounds, having joined the
    network with the credentials as read (empty ones included). *)
Theorem startup_refines :
  exists w,
    startup (Some (ssid, pw)) (initial_world e) =
    (inr (mk_globals (tariff (period_start (e_clock e 1) + 30)) (tariff (period_start (e_clock e 1)))
                     (tariff (period_start (e_clock e 1) - 30)) (e_clock e 0)
                     (fst (e_bounds e)) (snd (e_bounds e))), w) /\
    w_env w = e /\ w_tick w = 2%nat /\ In (EvWlanConnect ssid pw) (w_trace w).
Proof.
  destruct setup_connects as (w1 & Hsetup & He & Ht & Hin).
  unfold startup. rewrite (bind_inr _ _ _ _ _ Hsetup).
  destruct (e_bounds e) as [W H]. cbv beta iota.
  unfold bind at 1, time_time at 1.
  set (w2 := mk_world (w_env w1) (S (w_tick w1)) (w_polls w1)
                      (EvClock (e_clock (w_env w1) (w_tick w1)) :: w_trace w1)).
  assert (Hr : now_reading w2 = e_clock e 1) by (unfold now_reading, w2; cbn; rewrite He, Ht; reflexivity).
  assert (Hc : PricingContract (e_server (w_env w2)) tariff) by (unfold w2; cbn; rewrite He; exact contract).
  destruct (get_prices_contract tariff w2 Hc ltac:(rewrite Hr; exact clock_ok)) as (url & Hg).
  rewrite Hr in Hg. unfold bind. rewrite Hg. cbn [ret].
  eexists. split; [unfold period_start; rewrite He, Ht; reflexivity|].
  unfold after_fetch, w2. cbn. rewrite He, Ht. split; [reflexivity|]. split; [reflexivity|].
  right. right. right. exact Hin.
Qed.

End Startup.

(** ** Failure paths and an empty SSID *)

Lemma grows_setup (sec : secrets) : grows (setup sec).
Proof. apply quiet_grows, quiet_setup. Qed.

#[export] Hint Resolve grows_setup : grows.

(** C20: An empty [WIFI_SSID] does not stop the start-up, whatever the
    environment: the message is printed and the script goes on to call
    [wlan.connect] with the empty SSID (the spec says start-up halts
    before any connection attempt). *)
Theorem startup_empty_ssid_connects (pw : string) (e : env) :
  let w := snd (startup (Some (EmptyString, pw)) (initial_world e)) in
  In (EvPrint "WIFI_SSID in 'secrets.py' is empty!") (w_trace w) /\
  In (EvWlanConnect EmptyString pw) (w_trace w).
Proof.
  assert (Hs : check_secrets (Some (EmptyString, pw)) (initial_world e) =
               (inr (EmptyString, pw),
                record_event (EvPrint "WIFI_SSID in 'secrets.py' is empty!") (initial_world e)))
    by reflexivity.
  assert (Hk : forall ev,
             In ev [EvWlanConnect EmptyString pw; EvWlanActive true;
                    EvPrint "WIFI_SSID in 'secrets.py' is empty!"] ->
             In ev (w_trace (snd (startup (Some (EmptyString, pw)) (initial_world e))))).
  { intros ev Hin. unfold startup. apply bind_in; [|grows_tac].
    unfold setup. rewrite (bind_inr _ _ _ _ _ Hs). cbv beta iota.
    apply bind_in; [|intros; apply quiet_grows; quiet_tac].
    rewrite network_connect_unfold. apply grows_in; [apply quiet_grows, quiet_connect_loop|exact Hin]. }
  split; apply Hk; cbn; auto.
Qed.


Lemma setup_ntp_fails (sec : secrets) (w w1 w2 : world) (ssid pw : string) (ex : exc) :
  check_secrets sec w = (inr (ssid, pw), w1) ->
  network_connect ssid pw w1 = (inr tt, w2) ->
  settime (e_ntp (w_env w2)) = inl ex ->
  setup sec w =
  (inl ex, record_event (EvPrint ("Successfully connected to " ++ ssid
                                  ++ ". Your Pimoroni Presto IP is: " ++ e_ip (w_env w2))) w2).
Proof.
  intros Hs Hn Hntp. unfold setup. rewrite (bind_inr _ _ _ _ _ Hs). cbv beta iota.
  rewrite (bind_inr _ _ _ _ _ Hn). destruct w2 as [ev tk pl tr]. cbn in Hntp.
  unfold bind, wlan_ip, print, emit, ntp_settime, record_event. cbn -[settime]. rewrite Hntp. reflexivity.
Qed.

Lemma failed_attempts_no_gets (ssid : string) (k : nat) : no_gets (failed_attempts ssid k) = true.
Proof. induction k as [|k IH]; [reflexivity|]. cbn [failed_attempts]. apply no_gets_app; auto. Qed.

(** C25: When [ntptime.settime()] raises, after a successful connection,
    the exception stops the script, as the spec's fail-fast policy for
    the time source says: a socket error (the server cannot be reached)
    or the [ValueError] of a datagram shorter than 44 bytes
    ([ntp_time_short]) propagates, no clock reading has been taken and
    no price request sent. *)
Theorem startup_ntp_failure (ssid pw : string) (e : env) (k : nat) (ex : exc) :
  (forall i, (i < k)%nat -> e_link e i = false) -> e_link e k = true -> (k < 11)%nat ->
  settime (e_ntp e) = inl ex ->
  exists w, startup (Some (ssid, pw)) (initial_world e) = (inl ex, w) /\
            w_tick w = 0%nat /\ no_gets (w_trace w) = true.
Proof.
  intros Hdown Hup Hk Hntp.
  destruct (connected ssid pw e k Hdown Hup Hk) as (l & Hl & Hs & Hn).
  unfold startup. rewrite (bind_inl _ _ _ _ _ (setup_ntp_fails _ _ _ _ _ _ _ Hs Hn Hntp)).
  eexists. split; [reflexivity|]. split; [reflexivity|].
  cbn [w_trace record_event]. rewrite app_nil_r.
  change (no_gets ([EvPrint ("Successfully connected to " ++ ssid ++ ". Your Pimoroni Presto IP is: "
                             ++ e_ip e); EvPoll true] ++ failed_attempts ssid k
                   ++ [EvWlanConnect ssid pw; EvWlanActive true] ++ l) = true).
  apply no_gets_app; [reflexivity|]. apply no_gets_app; [apply failed_attempts_no_gets|].
  apply no_gets_app; [reflexivity|]. destruct Hl as [->|(msg & ->)]; reflexivity.
Qed.

(** ** Runs of the script and the reachable states *)

Lemma loop_reachable (sec : secrets) (e : env) (n : nat) (g g' : globals) (w w' : world) :
  reachable sec e g w -> loop n g w = (inr g', w') -> reachable sec e g' w'.
Proof.
  revert g w. induction n as [|n IH]; intros g w Hr Hl; cbn [loop] in Hl.
  - injection Hl as <- <-. exact Hr.
  - unfold bind in Hl. destruct (frame g w) as [[ex|g1] w1] eqn:Hf; [discriminate Hl|].
    exact (IH g1 w1 (reach_frame sec e g w g1 w1 Hr Hf) Hl).
Qed.

(** Every state in which the script, run for any number of frames,
    is found is a reachable state: the invariants proved of [reachable]
    hold of every run of the script. *)
Lemma run_reachable (sec : secrets) (e : env) (n : nat) (g : globals) (w : world) :
  run sec n (initial_world e) = (inr g, w) -> reachable sec e g w.
Proof.
  unfold run, bind. destruct (startup sec (initial_world e)) as [[ex|g0] w0] eqn:Hs; [discriminate|].
  apply loop_reachable with (g := g0) (w := w0) (n := n). exact (reach_startup sec e g0 w0 Hs).
Qed.

(** ** Witnesses *)

Lemma startup_refines_witness :
  exists w,
    startup (Some ("presto-net", "secret")) (initial_world demo_env) =
    (inr (mk_globals (demo_tariff (period_start (e_clock demo_env 1) + 30))
                     (demo_tariff (period_start (e_clock demo_env 1)))
                     (demo_tariff (period_start (e_clock demo_env 1) - 30)) (e_clock demo_env 0)
                     (fst (e_bounds demo_env)) (snd (e_bounds demo_env))), w) /\
    w_env w = demo_env /\ w_tick w = 2%nat /\ In (EvWlanConnect "presto-net" "secret") (w_trace w).
Proof.
  apply (startup_refines "presto-net" "secret" demo_env demo_tariff 0%nat [2024; 1; 15; 1; 10; 47; 0; 0]).
  - intros i Hi. lia.
  - reflexivity.
  - lia.
  - vm_compute. reflexivity.
  - unfold clock_in_range. decide_Z.
  - apply octopus_server_contract.
Defined.

(** A clock server that cannot be reached. *)
Definition ntp_down_env : env :=
  mk_env (fun _ => 1705315620) (fun k => Nat.leb 3 k) "192.168.1.42"
         (inl (OSError "ETIMEDOUT")) (240, 240) (fun m _ => py_str_Z m) (octopus_server demo_tariff).

Lemma startup_ntp_failure_witness :
  exists w, startup (Some ("presto-net", "secret")) (initial_world ntp_down_env) =
            (inl (OSError "ETIMEDOUT"), w) /\ w_tick w = 0%nat /\ no_gets (w_trace w) = true.
Proof.
  apply (startup_ntp_failure "presto-net" "secret" ntp_down_env 3 (OSError "ETIMEDOUT")).
  - intros i Hi. cbn. destruct i as [|[|[|i]]]; [reflexivity..|lia].
  - reflexivity.
  - lia.
  - reflexivity.
Defined.

